(** * Sensor integration system: authentication, lockout and device ownership

    A shallow embedding of the source: the three [CREATE TABLE] statements
    of [database.js] and the Express handlers that follow them in the same
    file (the server, started as [server.js]), followed by the properties of
    the login lockout, the bearer-token guard and the ownership checks of the
    device and sensor-data routes.

    Conventions.
    - A row returned by [db.get] / [db.all] is a JavaScript object keyed by
      column name: a [gmap string value].  Reading a property the object does
      not have yields [VUndefined], as in JavaScript.
    - A table carries the columns it was created with.  The tables are made
      by [CREATE TABLE IF NOT EXISTS], so a database file that already has a
      table keeps that table's columns: handlers are defined for every table
      content, and [fresh_db] is the database the source itself creates.
    - Requests are handled one at a time: the statements a handler queues
      with [db.run] are applied before the next request is looked at.
    - JavaScript numbers are modelled by integers ([Z]) and [VNaN]; a numeric
      text that is not an integer is left as text.
    - [bcryptjs], [jsonwebtoken], SQLite's text-to-number conversion and its
      clock are outside the repository: they are the operations of
      [Platform], and what is assumed of them is stated where it is used. *)

From Stdlib Require Import Ascii.
From stdpp Require Import gmap strings list pretty.

Local Open Scope string_scope.
Local Open Scope Z_scope.

(** ** Values *)

(** What a JavaScript expression of the handlers, a bound SQL parameter or a
    table cell can hold. Cells never hold [VUndefined] or [VNaN]. *)
Inductive value :=
  | VUndefined
  | VNull
  | VNum (n : Z)
  | VNaN
  | VStr (s : string).

Global Instance value_eq_dec : EqDecision value.
Proof. solve_decision. Defined.

Global Instance value_inhabited : Inhabited value := populate VUndefined.

(** A row object ([SELECT *]) and any other flat JSON object. *)
Abbreviation row := (gmap string value).

(** [obj.name] *)
Definition prop (obj : row) (name : string) : value :=
  default VUndefined (obj !! name).

Module JS.

  (** ToBoolean *)
Definition truthy (v : value) : bool :=
    match v with
    | VUndefined | VNull | VNaN => false
    | VNum n => negb (n =? 0)
    | VStr s => negb (bool_decide (s = ""))
    end.

  (** [!v] *)
Definition not (v : value) : bool := negb (truthy v).

  (** [a || b] *)
Definition or (a b : value) : value := if truthy a then a else b.

  (** [a === b] *)
Definition strict_eq (a b : value) : bool :=
    match a, b with
    | VNaN, _ | _, VNaN => false
    | _, _ => bool_decide (a = b)
    end.

  (** ToString, as used by [+] and by template literals. *)
Definition to_string (v : value) : string :=
    match v with
    | VUndefined => "undefined"
    | VNull => "null"
    | VNum n => pretty n
    | VNaN => "NaN"
    | VStr s => s
    end.

Section WithNumber.
    (** [Number(s)] for a string [s]; [None] is [NaN]. *)
Variable number_of_string : string -> option Z.

    (** ToNumber; the result is [VNum _] or [VNaN]. *)
Definition to_number (v : value) : value :=
      match v with
      | VUndefined | VNaN => VNaN
      | VNull => VNum 0
      | VNum n => VNum n
      | VStr s => from_option VNum VNaN (number_of_string s)
      end.

    (** [a + b]: concatenation as soon as one side is a string. *)
Definition add (a b : value) : value :=
      match a, b with
      | VStr _, _ | _, VStr _ => VStr (to_string a +:+ to_string b)
      | _, _ =>
          match to_number a, to_number b with
          | VNum x, VNum y => VNum (x + y)
          | _, _ => VNaN
          end
      end.

    (** [a - b] *)
Definition sub (a b : value) : value :=
      match to_number a, to_number b with
      | VNum x, VNum y => VNum (x - y)
      | _, _ => VNaN
      end.

    (** [a >= b] where one side is a number (no string-to-string case). *)
Definition ge (a b : value) : bool :=
      match to_number a, to_number b with
      | VNum x, VNum y => x >=? y
      | _, _ => false
      end.
End WithNumber.

  (** [s.split(sep)] for a one-character separator. *)
Fixpoint split (sep : ascii) (s : string) : list string :=
    match s with
    | EmptyString => [EmptyString]
    | String c s' =>
        if bool_decide (c = sep) then EmptyString :: split sep s'
        else match split sep s' with
             | piece :: pieces => String c piece :: pieces
             | [] => [String c EmptyString]
             end
    end.

  (** [hay.includes(needle)] *)
Fixpoint includes (needle hay : string) : bool :=
    String.prefix needle hay ||
    match hay with
    | EmptyString => false
    | String _ hay' => includes needle hay'
    end.

End JS.

(** ** The libraries and services outside the repository *)

(** The payload handed to [jwt.sign]: [{ id, username }]. *)
Record payload := Payload { pl_id : value; pl_username : value }.

(** What [jwt.verify] hands to its callback on success: the payload with the
    [iat] and [exp] claims the library added when signing. *)
Record claims := Claims {
  id : value;
  username : value;
  iat : Z;
  exp : Z
}.

Inductive jwt_error :=
  | TokenExpiredError
  | JsonWebTokenError (message : string)
  | NotBeforeError.

Global Instance jwt_error_eq_dec : EqDecision jwt_error.
Proof. solve_decision. Defined.

Global Instance claims_eq_dec : EqDecision claims.
Proof. solve_decision. Defined.

Class Platform := {
  (** [bcrypt.hash(password, 10)]; the second argument is the salt the
      library draws. *)
  bcrypt_hash : string -> string -> string;
  (** [bcrypt.compare(password, hash)] on two strings. *)
  bcrypt_compare : string -> string -> bool;
  (** [jwt.sign(payload, secret, { expiresIn })] at a clock reading; the
      lifetime and the clock are in seconds. *)
  jwt_sign : payload -> string -> Z -> Z -> string;
  (** [jwt.verify(token, secret, callback)] at a clock reading. *)
  jwt_verify : string -> string -> Z -> jwt_error + claims;
  (** SQLite's numeric conversion of a text ([None]: the text is not an
      integer literal and stays text). *)
  sqlite_numeric : string -> option Z;
  (** JavaScript's [Number(s)] ([None]: [NaN]). *)
  js_number : string -> option Z;
  (** The text of [CURRENT_TIMESTAMP] at a clock reading. *)
  sqlite_timestamp : Z -> string
}.

(** [expiresIn: '24h'], in seconds. *)
Definition expiresIn_24h : Z := 24 * 60 * 60.

(** ** The table engine

    The part of SQLite the statements of the handlers rely on: columns with
    their declared affinity and constraints, [INSERT], [SELECT ... WHERE],
    [UPDATE ... SET ... WHERE] and [DELETE ... WHERE] with conditions of the
    form [column = ?], and the errors a statement is refused with. Foreign
    keys are declared by the source but never switched on
    ([PRAGMA foreign_keys] stays at SQLite's default), so they are not
    enforced. *)
Module Sql.

Inductive affinity := INTEGER | TEXT | REAL | NUMERIC.

Inductive default_value :=
  | DefaultNull
  | DefaultValue (v : value)
  | DefaultCurrentTimestamp.

Record column := Column {
  col_name : string;
  col_affinity : affinity;
  col_primary_key : bool;
  col_not_null : bool;
  col_unique : bool;
  col_default : default_value
}.

Record table := Table {
  tbl_name : string;
  tbl_columns : list column;
  tbl_rows : list row;
  (** the entry of [sqlite_sequence]: the largest rowid handed out so far *)
  tbl_sequence : Z
}.

Inductive error :=
  | NoSuchColumn (name : string)
  | NoColumnNamed (tbl col : string)
  | NotNullFailed (tbl col : string)
  | UniqueFailed (tbl col : string)
  | DatatypeMismatch.

Global Instance affinity_eq_dec : EqDecision affinity.
Proof. solve_decision. Defined.
Global Instance default_value_eq_dec : EqDecision default_value.
Proof. solve_decision. Defined.
Global Instance column_eq_dec : EqDecision column.
Proof. solve_decision. Defined.
Global Instance table_eq_dec : EqDecision table.
Proof. solve_decision. Defined.
Global Instance error_eq_dec : EqDecision error.
Proof. solve_decision. Defined.

(** [err.message] *)
Definition message (e : error) : string :=
  match e with
  | NoSuchColumn c => "SQLITE_ERROR: no such column: " +:+ c
  | NoColumnNamed t c =>
      "SQLITE_ERROR: table " +:+ t +:+ " has no column named " +:+ c
  | NotNullFailed t c =>
      "SQLITE_CONSTRAINT: NOT NULL constraint failed: " +:+ t +:+ "." +:+ c
  | UniqueFailed t c =>
      "SQLITE_CONSTRAINT: UNIQUE constraint failed: " +:+ t +:+ "." +:+ c
  | DatatypeMismatch => "SQLITE_MISMATCH: datatype mismatch"
  end.

(** Column declarations, written as in [CREATE TABLE]. *)
Definition col (name : string) (a : affinity) : column :=
  Column name a false false false DefaultNull.
Definition PRIMARY_KEY_AUTOINCREMENT (c : column) : column :=
  Column (col_name c) (col_affinity c) true (col_not_null c) (col_unique c)
         (col_default c).
Definition NOT_NULL (c : column) : column :=
  Column (col_name c) (col_affinity c) (col_primary_key c) true (col_unique c)
         (col_default c).
Definition UNIQUE (c : column) : column :=
  Column (col_name c) (col_affinity c) (col_primary_key c) (col_not_null c)
         true (col_default c).
Definition DEFAULT (d : default_value) (c : column) : column :=
  Column (col_name c) (col_affinity c) (col_primary_key c) (col_not_null c)
         (col_unique c) d.

Definition find_column (t : table) (name : string) : option column :=
  List.find (fun c => bool_decide (col_name c = name)) (tbl_columns t).

(** The first name that is not a column of the table. *)
Definition unknown_column (t : table) (names : list string) : option string :=
  List.find (fun n => bool_decide (find_column t n = None)) names.

Section Engine.
Context `{P : Platform}.

(** A bound parameter: [undefined] and [NaN] arrive as [NULL]. *)
Definition bind (v : value) : value :=
  match v with
  | VUndefined | VNaN => VNull
  | _ => v
  end.

(** A value as a column of the given affinity takes it. *)
Definition store (a : affinity) (v : value) : value :=
  match a, bind v with
  | TEXT, VNum n => VStr (pretty n)
  | (INTEGER | REAL | NUMERIC), VStr s =>
      from_option VNum (VStr s) (sqlite_numeric s)
  | _, w => w
  end.

(** [cell = ?]: the column's affinity is applied to the parameter, and
    [NULL] equals nothing. *)
Definition sql_eq (a : affinity) (cell param : value) : bool :=
  match cell, store a param with
  | VNull, _ | _, VNull => false
  | c, p => bool_decide (c = p)
  end.

(** [WHERE c1 = ? AND c2 = ? ...] on one row. *)
Definition matches (t : table) (cond : list (string * value)) (r : row) : bool :=
  forallb (fun '(c, p) =>
             match find_column t c with
             | Some cl => sql_eq (col_affinity cl) (prop r c) p
             | None => false
             end) cond.

(** [db.all('SELECT * FROM t WHERE ...')] *)
Definition select_all (t : table) (cond : list (string * value))
  : error + list row :=
  match unknown_column t cond.*1 with
  | Some c => inl (NoSuchColumn c)
  | None => inr (List.filter (matches t cond) (tbl_rows t))
  end.

(** [db.get('SELECT * FROM t WHERE ...')]: the first row, or [undefined]. *)
Definition select_get (t : table) (cond : list (string * value))
  : error + option row :=
  match select_all t cond with
  | inl e => inl e
  | inr rs => inr (head rs)
  end.

(** The rowid an [AUTOINCREMENT] key gives the next row: one more than the
    largest ever used. *)
Definition rowids (t : table) : list Z :=
  omap (fun r : row =>
          match List.find col_primary_key (tbl_columns t) with
          | Some k => match prop r (col_name k) with
                      | VNum n => Some n
                      | _ => None
                      end
          | None => None
          end) (tbl_rows t).

Definition next_rowid (t : table) : Z :=
  1 + foldr Z.max (tbl_sequence t) (rowids t).

(** The value of a column's [DEFAULT]. *)
Definition default_cell (now : Z) (c : column) : value :=
  match col_default c with
  | DefaultNull => VNull
  | DefaultValue v => store (col_affinity c) v
  | DefaultCurrentTimestamp => store (col_affinity c) (VStr (sqlite_timestamp now))
  end.

(** Does some row other than the ones being written hold [v] in column [c]? *)
Definition taken (others : list row) (c : string) (v : value) : bool :=
  existsb (fun r => bool_decide (prop r c = v)) others.

(** The constraint a written row breaks, if any, among the columns being
    written; [NOT NULL] is looked at before [UNIQUE]. *)
Definition not_null_violation (t : table) (r : row) (names : list string)
  : option error :=
  (fun c => NotNullFailed (tbl_name t) (col_name c)) <$>
  List.find (fun c => col_not_null c
                      && bool_decide (col_name c ∈ names)
                      && bool_decide (prop r (col_name c) = VNull))
            (tbl_columns t).

(** [others] are the rows the statement does not write, [written] is the
    number of rows it writes the values to. *)
Definition unique_violation (t : table) (others : list row) (written : nat)
    (r : row) (names : list string) : option error :=
  (fun c => UniqueFailed (tbl_name t) (col_name c)) <$>
  List.find (fun c => (col_unique c || col_primary_key c)
                      && bool_decide (col_name c ∈ names)
                      && negb (bool_decide (prop r (col_name c) = VNull))
                      && (taken others (col_name c) (prop r (col_name c))
                          || bool_decide (2 <= written)%nat))
            (tbl_columns t).

(** The row an [INSERT] builds. *)
Definition inserted (now : Z) (t : table) (vals : list (string * value)) : row :=
  list_to_map
    ((fun c =>
        (col_name c,
         if col_primary_key c then VNum (next_rowid t)
         else match (list_to_map vals : row) !! col_name c with
              | Some v => store (col_affinity c) v
              | None => default_cell now c
              end)) <$> tbl_columns t).

(** [INSERT INTO t (c1, ...) VALUES (?, ...)]; the result is [this.lastID]
    and the table with the new row. *)
Definition insert (now : Z) (t : table) (vals : list (string * value))
  : error + (Z * table) :=
  match unknown_column t vals.*1 with
  | Some c => inl (NoColumnNamed (tbl_name t) c)
  | None =>
      let r := inserted now t vals in
      match not_null_violation t r (col_name <$> tbl_columns t) with
      | Some e => inl e
      | None =>
          match unique_violation t (tbl_rows t) 1 r (col_name <$> tbl_columns t) with
          | Some e => inl e
          | None =>
              inr (next_rowid t,
                   Table (tbl_name t) (tbl_columns t) (tbl_rows t ++ [r])
                         (next_rowid t))
          end
      end
  end.

(** The row after [SET c1 = ?, ...]. *)
Definition assign (t : table) (sets : list (string * value)) (r : row) : row :=
  foldl (fun (acc : row) '(c, v) =>
           match find_column t c with
           | Some cl => <[c := store (col_affinity cl) v]> acc
           | None => acc
           end) r sets.

(** [UPDATE t SET ... WHERE ...]; the result is [this.changes] and the
    table. A statement that is refused changes nothing. *)
Definition update (t : table) (sets cond : list (string * value))
  : error + (Z * table) :=
  match unknown_column t (sets.*1 ++ cond.*1) with
  | Some c => inl (NoSuchColumn c)
  | None =>
      let hit := List.filter (matches t cond) (tbl_rows t) in
      let others := List.filter (fun r => negb (matches t cond r)) (tbl_rows t) in
      let broken r :=
        match not_null_violation t (assign t sets r) sets.*1 with
        | Some e => Some e
        | None => unique_violation t others (length hit) (assign t sets r) sets.*1
        end in
      match head (omap broken hit) with
      | Some e => inl e
      | None =>
          inr (Z.of_nat (length hit),
               Table (tbl_name t) (tbl_columns t)
                     ((fun r => if matches t cond r then assign t sets r else r)
                        <$> tbl_rows t)
                     (tbl_sequence t))
      end
  end.

(** [DELETE FROM t WHERE ...]; the result is [this.changes] and the table. *)
Definition delete (t : table) (cond : list (string * value))
  : error + (Z * table) :=
  match unknown_column t cond.*1 with
  | Some c => inl (NoSuchColumn c)
  | None =>
      inr (Z.of_nat (length (List.filter (matches t cond) (tbl_rows t))),
           Table (tbl_name t) (tbl_columns t)
                 (List.filter (fun r => negb (matches t cond r)) (tbl_rows t))
                 (tbl_sequence t))
  end.

End Engine.
End Sql.

(** [... ORDER BY c DESC LIMIT ?], the tail of the sensor-data query. *)
Module SqlOrder.
Import Sql.

(** SQLite's order between cells: [NULL], then numbers, then text compared
    byte by byte. *)
Definition cell_le (a b : value) : bool :=
  match a, b with
  | (VNull | VUndefined | VNaN), _ => true
  | VNum _, (VNull | VUndefined | VNaN) => false
  | VNum x, VNum y => x <=? y
  | VNum _, VStr _ => true
  | VStr x, VStr y => String.leb x y
  | VStr _, _ => false
  end.

(** Descending insertion; rows with equal keys keep their table order (SQL
    leaves their order open). *)
Fixpoint insert_desc (c : string) (r : row) (sorted : list row) : list row :=
  match sorted with
  | [] => [r]
  | r' :: rest =>
      if cell_le (prop r c) (prop r' c) then r' :: insert_desc c r rest
      else r :: sorted
  end.

Definition order_by_desc (c : string) (rs : list row) : list row :=
  foldl (fun sorted r => insert_desc c r sorted) [] rs.

Section Limit.
Context `{P : Platform}.

(** [LIMIT ?]: the parameter must convert to an integer; a negative limit
    is no limit. *)
Definition limit (v : value) (rs : list row) : error + list row :=
  match store INTEGER v with
  | VNum n => inr (if n <? 0 then rs else take (Z.to_nat n) rs)
  | _ => inl DatatypeMismatch
  end.

(** [SELECT * FROM t WHERE ... ORDER BY c DESC LIMIT ?] *)
Definition select_latest (t : table) (cond : list (string * value))
    (c : string) (n : value) : error + list row :=
  match unknown_column t (cond.*1 ++ [c]) with
  | Some x => inl (NoSuchColumn x)
  | None => limit n (order_by_desc c (List.filter (matches t cond) (tbl_rows t)))
  end.

(** [SELECT c1, ... FROM t WHERE ...] through [db.get]. *)
Definition select_get_columns (t : table) (names : list string)
    (cond : list (string * value)) : error + option row :=
  match unknown_column t (names ++ cond.*1) with
  | Some x => inl (NoSuchColumn x)
  | None =>
      inr ((fun r : row => list_to_map ((fun n => (n, prop r n)) <$> names) : row)
             <$> head (List.filter (matches t cond) (tbl_rows t)))
  end.

End Limit.
End SqlOrder.

(** ** database.js *)

Record database := Database {
  users : Sql.table;
  devices : Sql.table;
  sensor_data : Sql.table
}.

Global Instance database_eq_dec : EqDecision database.
Proof. solve_decision. Defined.

Section Schema.
Import Sql.

(** [CREATE TABLE IF NOT EXISTS users (...)] *)
Definition users_columns : list column := [
  PRIMARY_KEY_AUTOINCREMENT (col "id" INTEGER);
  NOT_NULL (UNIQUE (col "username" TEXT));
  NOT_NULL (UNIQUE (col "email" TEXT));
  NOT_NULL (col "password" TEXT);
  DEFAULT DefaultCurrentTimestamp (col "created_at" NUMERIC)
].

(** [CREATE TABLE IF NOT EXISTS devices (...)] *)
Definition devices_columns : list column := [
  PRIMARY_KEY_AUTOINCREMENT (col "id" INTEGER);
  NOT_NULL (col "user_id" INTEGER);
  NOT_NULL (col "device_name" TEXT);
  NOT_NULL (col "device_type" TEXT);
  NOT_NULL (UNIQUE (col "device_id" TEXT));
  DEFAULT (DefaultValue (VStr "offline")) (col "status" TEXT);
  DEFAULT DefaultCurrentTimestamp (col "created_at" NUMERIC)
].

(** [CREATE TABLE IF NOT EXISTS sensor_data (...)] *)
Definition sensor_data_columns : list column := [
  PRIMARY_KEY_AUTOINCREMENT (col "id" INTEGER);
  NOT_NULL (col "device_id" TEXT);
  col "temperature" REAL;
  col "humidity" REAL;
  col "pressure" REAL;
  DEFAULT DefaultCurrentTimestamp (col "timestamp" NUMERIC)
].

(** The database after [db.serialize] has run on a new file. *)
Definition fresh_db : database :=
  Database (Table "users" users_columns [] 0)
           (Table "devices" devices_columns [] 0)
           (Table "sensor_data" sensor_data_columns [] 0).

End Schema.

Definition with_users (db : database) (t : Sql.table) : database :=
  Database t (devices db) (sensor_data db).
Definition with_devices (db : database) (t : Sql.table) : database :=
  Database (users db) t (sensor_data db).
Definition with_sensor_data (db : database) (t : Sql.table) : database :=
  Database (users db) (devices db) t.

(** ** The server *)

(** The JSON documents the handlers answer with. *)
Inductive body :=
  | Error (error : string)
  | Message (message : string)
  | Session (message : string) (token : string) (user : row)
  | DeviceAdded (message : string) (device : row)
  | Row (r : option row)
  | Rows (rs : list row)
  | Reading (temperature humidity pressure : string).

Record response := Response { status : Z; json : body }.

Global Instance body_eq_dec : EqDecision body.
Proof. solve_decision. Defined.
Global Instance response_eq_dec : EqDecision response.
Proof. solve_decision. Defined.

Section Server.
Context `{P : Platform}.

(** [process.env.JWT_SECRET] *)
Variable JWT_SECRET : string.

(** [db.run] with a callback that only logs the error: a refused statement
    leaves the table as it was. *)
Definition run_logged (t : Sql.table) (r : Sql.error + (Z * Sql.table))
  : Sql.table :=
  match r with
  | inl _ => t
  | inr (_, t') => t'
  end.

(** [bcrypt.compare(password, hash)]: rejects ([None]) unless both arguments
    are strings. *)
Definition compare (password hash : value) : option bool :=
  match password, hash with
  | VStr p, VStr h => Some (bcrypt_compare p h)
  | _, _ => None
  end.

(** *** JWT verification middleware *)

(** [authHeader && authHeader.split(' ')[1]]; [None] is [undefined]. *)
Definition bearer (authHeader : option string) : option string :=
  match authHeader with
  | None => None
  | Some h => if bool_decide (h = "") then Some h
              else JS.split " "%char h !! 1%nat
  end.

(** [authenticateToken]: either the response it sends, or [req.user] as
    handed to the next handler. *)
Definition authenticateToken (authHeader : option string) (now : Z)
  : response + claims :=
  match bearer authHeader with
  | None | Some "" => inl (Response 401 (Error "Access token required"))
  | Some token =>
      match jwt_verify token JWT_SECRET now with
      | inl _ => inl (Response 403 (Error "Invalid or expired token"))
      | inr user => inr user
      end
  end.

(** A route registered as [app.METHOD(path, authenticateToken, handler)]. *)
Definition guarded (authHeader : option string) (now : Z)
    (handler : claims -> database -> response * database) (db : database)
  : response * database :=
  match authenticateToken authHeader now with
  | inl rejected => (rejected, db)
  | inr user => handler user db
  end.

(** *** Authentication routes *)

(** [POST /api/auth/register]; [salt] is the salt [bcrypt.hash] draws. *)
Definition register (body : row) (salt : string) (now : Z) (db : database)
  : response * database :=
  let username := prop body "username" in
  let email := prop body "email" in
  let password := prop body "password" in
  if JS.not username || JS.not email || JS.not password then
    (Response 400 (Error "All fields are required"), db)
  else
    match password with
    | VStr pw =>
        let hashedPassword := bcrypt_hash pw salt in
        match Sql.insert now (users db)
                [("username", username); ("email", email);
                 ("password", VStr hashedPassword)] with
        | inl err =>
            if JS.includes "UNIQUE" (Sql.message err) then
              (Response 409 (Error "Username or email already exists"), db)
            else (Response 500 (Error "Error creating user"), db)
        | inr (lastID, users') =>
            let token :=
              jwt_sign (Payload (VNum lastID) username) JWT_SECRET
                       expiresIn_24h now in
            (Response 201
               (Session "User created successfully" token
                  {[ "id" := VNum lastID; "username" := username;
                     "email" := email ]}),
             with_users db users')
        end
    | _ => (Response 500 (Error "Server error"), db)
    end.

(** [POST /api/auth/login] *)
Definition login (body : row) (now : Z) (db : database)
  : response * database :=
  let email := prop body "email" in
  let password := prop body "password" in
  if JS.not email || JS.not password then
    (Response 400 (Error "Email and password required"), db)
  else
    match Sql.select_get (users db) [("email", email)] with
    | inl _ => (Response 500 (Error "Server error"), db)
    | inr None => (Response 401 (Error "Invalid credentials"), db)
    | inr (Some user) =>
        (* Check if account is locked *)
        if JS.strict_eq (prop user "is_locked") (VNum 1) then
          (Response 403
             (Error "Account locked due to too many failed attempts."), db)
        else
          match compare password (prop user "password") with
          | None => (Response 500 (Error "Server error"), db)
          | Some validPassword =>
              if negb validPassword then
                let newAttempts :=
                  JS.add js_number
                    (JS.or (prop user "failed_attempts") (VNum 0)) (VNum 1) in
                (* Lock account after 3 failed attempts *)
                if JS.ge js_number newAttempts (VNum 3) then
                  (Response 403
                     (Error "Account locked after 3 failed attempts."),
                   with_users db
                     (run_logged (users db)
                        (Sql.update (users db)
                           [("failed_attempts", newAttempts);
                            ("is_locked", VNum 1)]
                           [("id", prop user "id")])))
                else
                  (Response 401
                     (Error ("Invalid credentials. "
                             +:+ JS.to_string
                                   (JS.sub js_number (VNum 3) newAttempts)
                             +:+ " attempts left.")),
                   with_users db
                     (run_logged (users db)
                        (Sql.update (users db)
                           [("failed_attempts", newAttempts)]
                           [("id", prop user "id")])))
              else
                let db' :=
                  with_users db
                    (run_logged (users db)
                       (Sql.update (users db)
                          [("failed_attempts", VNum 0)]
                          [("id", prop user "id")])) in
                let token :=
                  jwt_sign (Payload (prop user "id") (prop user "username"))
                           JWT_SECRET expiresIn_24h now in
                (Response 200
                   (Session "Login successful" token
                      {[ "id" := prop user "id";
                         "username" := prop user "username";
                         "email" := prop user "email" ]}),
                 db')
          end
    end.

(** [GET /api/auth/me], after the guard. *)
Definition me (user : claims) (db : database) : response * database :=
  match SqlOrder.select_get_columns (users db) ["id"; "username"; "email"]
          [("id", id user)] with
  | inl _ => (Response 500 (Error "Server error"), db)
  | inr found => (Response 200 (Row found), db)
  end.

(** *** Device routes *)

(** [GET /api/devices], after the guard. *)
Definition get_devices (user : claims) (db : database) : response * database :=
  match Sql.select_all (devices db) [("user_id", id user)] with
  | inl _ => (Response 500 (Error "Error fetching devices"), db)
  | inr found => (Response 200 (Rows found), db)
  end.

(** [POST /api/devices], after the guard. *)
Definition add_device (body : row) (now : Z) (user : claims) (db : database)
  : response * database :=
  let device_name := prop body "device_name" in
  let device_type := prop body "device_type" in
  let device_id := prop body "device_id" in
  if JS.not device_name || JS.not device_type || JS.not device_id then
    (Response 400 (Error "All fields are required"), db)
  else
    match Sql.insert now (devices db)
            [("user_id", id user); ("device_name", device_name);
             ("device_type", device_type); ("device_id", device_id);
             ("status", VStr "online")] with
    | inl err =>
        if JS.includes "UNIQUE" (Sql.message err) then
          (Response 409 (Error "Device ID already exists"), db)
        else (Response 500 (Error "Error adding device"), db)
    | inr (lastID, devices') =>
        (Response 201
           (DeviceAdded "Device added successfully"
              {[ "id" := VNum lastID; "device_name" := device_name;
                 "device_type" := device_type; "device_id" := device_id;
                 "status" := VStr "online" ]}),
         with_devices db devices')
    end.

(** [DELETE /api/devices/:id], after the guard; [deviceId] is
    [req.params.id]. *)
Definition delete_device (deviceId : string) (user : claims) (db : database)
  : response * database :=
  match Sql.delete (devices db) [("id", VStr deviceId); ("user_id", id user)] with
  | inl _ => (Response 500 (Error "Error deleting device"), db)
  | inr (changes, devices') =>
      if changes =? 0 then
        (Response 404 (Error "Device not found"), with_devices db devices')
      else
        (Response 200 (Message "Device deleted successfully"),
         with_devices db devices')
  end.

(** *** Sensor data routes *)

(** [GET /api/sensor-data/:deviceId], after the guard; [limit] is
    [req.query.limit] ([None]: not given). *)
Definition get_sensor_data (deviceId : string) (limit : option string)
    (user : claims) (db : database) : response * database :=
  let limit := JS.or (from_option VStr VUndefined limit) (VNum 50) in
  match Sql.select_get (devices db)
          [("device_id", VStr deviceId); ("user_id", id user)] with
  | inl _ | inr None => (Response 404 (Error "Device not found"), db)
  | inr (Some device) =>
      match SqlOrder.select_latest (sensor_data db)
              [("device_id", VStr deviceId)] "timestamp" limit with
      | inl _ => (Response 500 (Error "Error fetching sensor data"), db)
      | inr data => (Response 200 (Rows data), db)
      end
  end.

(** [POST /api/demo/generate-data/:deviceId], after the guard; the three
    readings are what [Math.random] and [toFixed(2)] produced. *)
Definition generate_data (deviceId : string)
    (temperature humidity pressure : string) (now : Z)
    (user : claims) (db : database) : response * database :=
  match Sql.insert now (sensor_data db)
          [("device_id", VStr deviceId); ("temperature", VStr temperature);
           ("humidity", VStr humidity); ("pressure", VStr pressure)] with
  | inl _ => (Response 500 (Error "Error generating data"), db)
  | inr (_, sensor_data') =>
      (Response 200 (Reading temperature humidity pressure),
       with_sensor_data db sensor_data')
  end.

End Server.

(** ** The account state the login handler reads

    [LOCKED] is [user.is_locked === 1]; otherwise the account is
    [ACTIVE count] with [count = user.failed_attempts || 0]. *)
Inductive account_state :=
  | ACTIVE (count : value)
  | LOCKED.

Global Instance account_state_eq_dec : EqDecision account_state.
Proof. solve_decision. Defined.

Definition state_of_row (user : row) : account_state :=
  if JS.strict_eq (prop user "is_locked") (VNum 1) then LOCKED
  else ACTIVE (JS.or (prop user "failed_attempts") (VNum 0)).

(** The state of the account a login with this email is checked against. *)
Definition account_state_of `{P : Platform} (db : database) (email : string)
  : option account_state :=
  match Sql.select_get (users db) [("email", VStr email)] with
  | inr (Some user) => Some (state_of_row user)
  | _ => None
  end.

(** ** A sample platform

    One concrete choice of the outside operations, to run the handlers on
    concrete requests. A hash or a token is the binary numeral of the
    [Countable] code of what it carries. *)
Module Sample.

Fixpoint digits (p : positive) : string :=
  match p with
  | xH => "1"
  | xO p' => String "0" (digits p')
  | xI p' => String "1" (digits p')
  end.

Fixpoint numeral (s : string) : option positive :=
  match s with
  | EmptyString => None
  | String c EmptyString => if bool_decide (c = "1"%char) then Some xH else None
  | String c s' =>
      if bool_decide (c = "0"%char) then xO <$> numeral s'
      else if bool_decide (c = "1"%char) then xI <$> numeral s'
      else None
  end.

Definition seal {A} `{Countable A} (x : A) : string := digits (encode x).
Definition unseal {A} `{Countable A} (s : string) : option A :=
  numeral s ≫= decode.

Definition value_code (v : value) : unit + unit + Z + unit + string :=
  match v with
  | VUndefined => inl (inl (inl (inl ())))
  | VNull => inl (inl (inl (inr ())))
  | VNum n => inl (inl (inr n))
  | VNaN => inl (inr ())
  | VStr s => inr s
  end.

Definition value_decode (c : unit + unit + Z + unit + string) : value :=
  match c with
  | inl (inl (inl (inl _))) => VUndefined
  | inl (inl (inl (inr _))) => VNull
  | inl (inl (inr n)) => VNum n
  | inl (inr _) => VNaN
  | inr s => VStr s
  end.

Global Instance value_countable : Countable value.
Proof.
  apply (inj_countable' value_code value_decode). by intros [].
Defined.

(** Decimal integer literals, with an optional minus sign. *)
Fixpoint decimal_digits (acc : Z) (s : string) : option Z :=
  match s with
  | EmptyString => Some acc
  | String c s' =>
      match Ascii.is_nat c with
      | Some d => decimal_digits (10 * acc + Z.of_nat d) s'
      | None => None
      end
  end.

Definition decimal (s : string) : option Z :=
  match s with
  | EmptyString => None
  | String "-" (String c s') => Z.opp <$> decimal_digits 0 (String c s')
  | _ => decimal_digits 0 s
  end.

Definition hash (password salt : string) : string := seal (salt, password).

Definition hash_matches (password h : string) : bool :=
  match unseal (A := string * string) h with
  | Some (_, p) => bool_decide (p = password)
  | None => false
  end.

Definition sign (p : payload) (secret : string) (lifetime now : Z) : string :=
  seal (pl_id p, pl_username p, now, now + lifetime, secret).

Definition verify (token secret : string) (now : Z) : jwt_error + claims :=
  match unseal (A := value * value * Z * Z * string) token with
  | None => inl (JsonWebTokenError "jwt malformed")
  | Some (i, u, issued, expires, key) =>
      if negb (bool_decide (key = secret)) then
        inl (JsonWebTokenError "invalid signature")
      else if expires <=? now then inl TokenExpiredError
      else inr (Claims i u issued expires)
  end.

Definition platform : Platform := {|
  bcrypt_hash := hash;
  bcrypt_compare := hash_matches;
  jwt_sign := sign;
  jwt_verify := verify;
  sqlite_numeric := decimal;
  js_number := decimal;
  sqlite_timestamp := pretty
|}.

End Sample.

(** ** Definitions used by the statements *)

(** The two columns the login handler reads and writes; no [CREATE TABLE] of
    the source declares them. A users table has them only if the database
    file was prepared with them beforehand. *)
Definition lockout_columns : list Sql.column := [
  Sql.DEFAULT (Sql.DefaultValue (VNum 0)) (Sql.col "failed_attempts" Sql.INTEGER);
  Sql.DEFAULT (Sql.DefaultValue (VNum 0)) (Sql.col "is_locked" Sql.INTEGER)
].

(** A database file prepared with the lockout columns, otherwise empty. *)
Definition prepared_db : database :=
  with_users fresh_db (Sql.Table "users" (users_columns ++ lockout_columns) [] 0).

Definition is_num (v : value) : bool :=
  match v with
  | VNum _ => true
  | _ => false
  end.

(** A row of a table has no property outside the table's columns, and an
    integer in the primary key. *)
Definition row_ok (t : Sql.table) (r : row) : bool :=
  bool_decide (dom r ⊆ list_to_set (Sql.col_name <$> Sql.tbl_columns t))
  && forallb (fun c => implb (Sql.col_primary_key c) (is_num (prop r (Sql.col_name c))))
             (Sql.tbl_columns t).

Definition well_formed (t : Sql.table) : bool := forallb (row_ok t) (Sql.tbl_rows t).

(** The outcome of the ownership check, as the caller of a device route
    sees it. *)
Inductive access := OK | FORBIDDEN | NOT_FOUND.

Global Instance access_eq_dec : EqDecision access.
Proof. solve_decision. Defined.

(** What [GET /api/sensor-data/:deviceId] tells its caller about access:
    404 is "not found", 403 would be "forbidden", any other answer means the
    check let the request through. *)
Definition device_access `{P : Platform} (deviceId : string) (user : claims)
    (db : database) : access :=
  let r := (get_sensor_data deviceId None user db).1 in
  if status r =? 404 then NOT_FOUND
  else if status r =? 403 then FORBIDDEN
  else OK.

(** The decision as section 4.4 of the specification words it: [NOT_FOUND]
    if no device has the identifier, [FORBIDDEN] if one has it and its owner
    is not the identity, [OK] otherwise. *)
Definition authorize_device_spec (identity : Z) (deviceId : string)
    (db : database) : access :=
  match List.find (fun r => bool_decide (prop r "device_id" = VStr deviceId))
                  (Sql.tbl_rows (devices db)) with
  | None => NOT_FOUND
  | Some d => if bool_decide (prop d "user_id" = VNum identity) then OK else FORBIDDEN
  end.

(** A string without a space. *)
Fixpoint spaceless (s : string) : bool :=
  match s with
  | EmptyString => true
  | String c s' => negb (bool_decide (c = " "%char)) && spaceless s'
  end.

(** What is assumed of [jsonwebtoken]: a token verifies under the secret it
    was signed with until its lifetime is over, and is reported expired from
    then on; a token is a non-empty string without spaces. *)
Definition jwt_round_trip (P : Platform) : Prop :=
  forall (i : Z) (u secret : string) (lifetime issued now : Z),
    jwt_verify (jwt_sign (Payload (VNum i) (VStr u)) secret lifetime issued)
               secret now
    = if now <? issued + lifetime
      then inr (Claims (VNum i) (VStr u) issued (issued + lifetime))
      else inl TokenExpiredError.

Definition jwt_compact (P : Platform) : Prop :=
  forall (p : payload) (secret : string) (lifetime issued : Z),
    jwt_sign p secret lifetime issued <> ""
    /\ spaceless (jwt_sign p secret lifetime issued) = true.

(** The body of a login request with both fields given as strings. *)
Definition credentials (email password : string) : row :=
  {[ "email" := VStr email; "password" := VStr password ]}.

(** The answers the guard and the lockout check send. *)
Definition locked_error : response :=
  Response 403 (Error "Account locked due to too many failed attempts.").
Definition token_required : response :=
  Response 401 (Error "Access token required").
Definition token_refused : response :=
  Response 403 (Error "Invalid or expired token").

(** The rows [... WHERE device_id = ? AND user_id = ?] selects. *)
Definition owned (deviceId : string) (i : Z) (r : row) : bool :=
  bool_decide (prop r "device_id" = VStr deviceId)
  && bool_decide (prop r "user_id" = VNum i).

(** The row [POST /api/demo/generate-data/:deviceId] stores. *)
Definition reading_row `{P : Platform} (db : database)
    (deviceId temperature humidity pressure : string) (now : Z) : row :=
  {[ "id" := VNum (Sql.next_rowid (sensor_data db));
     "device_id" := VStr deviceId;
     "temperature" := Sql.store Sql.REAL (VStr temperature);
     "humidity" := Sql.store Sql.REAL (VStr humidity);
     "pressure" := Sql.store Sql.REAL (VStr pressure);
     "timestamp" := Sql.store Sql.NUMERIC (VStr (sqlite_timestamp now)) ]}.

(** The table after the [UPDATE] of the login handler that sets
    [failed_attempts] (and [is_locked] when [lock] is set) of the rows whose
    [id] is [n]. *)
Definition lockout_written `{P : Platform} (db : database) (lock : bool)
    (count : value) (n : Z) : Sql.table :=
  Sql.Table (Sql.tbl_name (users db)) (Sql.tbl_columns (users db))
    ((fun r : row =>
        if bool_decide (prop r "id" = VNum n)
        then if lock
             then <["is_locked" := VNum 1]>
                    (<["failed_attempts" := Sql.store Sql.INTEGER count]> r)
             else <["failed_attempts" := Sql.store Sql.INTEGER count]> r
        else r) <$> Sql.tbl_rows (users db))
    (Sql.tbl_sequence (users db)).

(** The row of the account after the [UPDATE]. *)
Definition written `{P : Platform} (user : row) (lock : bool) (count : value)
  : row :=
  if lock
  then <["is_locked" := VNum 1]>
         (<["failed_attempts" := Sql.store Sql.INTEGER count]> user)
  else <["failed_attempts" := Sql.store Sql.INTEGER count]> user.

(** ** The server as a state machine *)

(** A request, with what the handler draws from outside (salt, readings). *)
Inductive request :=
  | PostRegister (body : row) (salt : string)
  | PostLogin (body : row)
  | GetMe (authHeader : option string)
  | GetDevices (authHeader : option string)
  | PostDevice (authHeader : option string) (body : row)
  | DeleteDevice (authHeader : option string) (deviceId : string)
  | GetSensorData (authHeader : option string) (deviceId : string)
      (limit : option string)
  | PostGenerateData (authHeader : option string) (deviceId : string)
      (temperature humidity pressure : string).

(** The routes of [app], at a clock reading. *)
Definition handle `{P : Platform} (JWT_SECRET : string) (req : request)
    (now : Z) (db : database) : response * database :=
  match req with
  | PostRegister body salt => register JWT_SECRET body salt now db
  | PostLogin body => login JWT_SECRET body now db
  | GetMe h => guarded JWT_SECRET h now me db
  | GetDevices h => guarded JWT_SECRET h now get_devices db
  | PostDevice h body => guarded JWT_SECRET h now (add_device body now) db
  | DeleteDevice h deviceId => guarded JWT_SECRET h now (delete_device deviceId) db
  | GetSensorData h deviceId limit =>
      guarded JWT_SECRET h now (get_sensor_data deviceId limit) db
  | PostGenerateData h deviceId t hu p =>
      guarded JWT_SECRET h now (generate_data deviceId t hu p now) db
  end.

(** The databases reached from the one the source creates. *)
Inductive reachable `{P : Platform} (JWT_SECRET : string) : database -> Prop :=
  | reachable_fresh : reachable JWT_SECRET fresh_db
  | reachable_step db req now :
      reachable JWT_SECRET db ->
      reachable JWT_SECRET (handle JWT_SECRET req now db).2.

(** What holds of every such database. *)
Record invariant (db : database) : Prop := Invariant {
  inv_users : Sql.tbl_columns (users db) = users_columns;
  inv_devices : Sql.tbl_columns (devices db) = devices_columns;
  inv_sensor_data : Sql.tbl_columns (sensor_data db) = sensor_data_columns;
  inv_accounts : well_formed (users db) = true;
  inv_rowids : NoDup ((fun r => prop r "id") <$> Sql.tbl_rows (devices db));
  inv_device_ids :
    NoDup ((fun r => prop r "device_id") <$> Sql.tbl_rows (devices db))
}.

(** ** Requests used in the examples *)

Module Example.

Definition secret : string := "k".

Definition alice : row :=
  {[ "username" := VStr "alice"; "email" := VStr "alice@example.org";
     "password" := VStr "P1" ]}.
Definition bob : row :=
  {[ "username" := VStr "bob"; "email" := VStr "bob@example.org";
     "password" := VStr "P2" ]}.
Definition carol : row :=
  {[ "username" := VStr "carol"; "email" := VStr "carol@example.org";
     "password" := VStr "P3" ]}.

Definition alice_P1 : row := credentials "alice@example.org" "P1".
Definition alice_X : row := credentials "alice@example.org" "X".
Definition nobody_X : row := credentials "nobody@example.org" "X".

Definition dev_1 : row :=
  {[ "device_name" := VStr "porch"; "device_type" := VStr "thermometer";
     "device_id" := VStr "dev-1" ]}.

(** The identities the tokens of bob (first to register) and carol (second)
    carry. *)
Definition bob_identity : claims := Claims (VNum 1) (VStr "bob") 10 (10 + expiresIn_24h).
Definition carol_identity : claims := Claims (VNum 2) (VStr "carol") 20 (20 + expiresIn_24h).

Section Runs.
Existing Instance Sample.platform.

(** alice registers on the database the source creates. *)
Definition alice_registered : database :=
  (register secret alice "salt" 10 fresh_db).2.

(** Three logins with the wrong password after that. *)
Definition alice_failed_thrice : database :=
  (login secret alice_X 13
     (login secret alice_X 12
        (login secret alice_X 11 alice_registered).2).2).2.

(** The same on a database file prepared with the lockout columns. *)
Definition alice_prepared : database :=
  (register secret alice "salt" 10 prepared_db).2.

Definition alice_failed_twice : database :=
  (login secret alice_X 12 (login secret alice_X 11 alice_prepared).2).2.

Definition alice_locked : database :=
  (login secret alice_X 13 alice_failed_twice).2.

(** bob and carol register, bob adds the device [dev-1]. *)
Definition bob_has_dev_1 : database :=
  (add_device dev_1 30 bob_identity
     (register secret carol "salt" 20
        (register secret bob "salt" 10 fresh_db).2).2).2.

(** The row of the first account of a database. *)
Definition first_account (db : database) : row :=
  default ∅ (head (Sql.tbl_rows (users db))).

(** The row of the first device of a database. *)
Definition first_device (db : database) : row :=
  default ∅ (head (Sql.tbl_rows (devices db))).

End Runs.
End Example.

(** A closed, decidable statement settled by evaluating its decision
    procedure. *)
Ltac computed := apply (bool_decide_unpack _); vm_compute; exact I.

Module GuardExample.

(** alice's token from her login at time 20, as an [Authorization] header. *)
Definition alice_token : string :=
  jwt_sign (Platform := Sample.platform)
    (Payload (VNum 1) (VStr "alice")) Example.secret expiresIn_24h 20.

(** The same payload signed with another secret. *)
Definition forged_token : string :=
  jwt_sign (Platform := Sample.platform)
    (Payload (VNum 1) (VStr "alice")) "not the secret" expiresIn_24h 20.

Definition authorization (token : string) : option string :=
  Some ("Bearer " +:+ token).

End GuardExample.

(** ** Definitions used by the further properties *)

(** The [Authorization] header of a request to a route registered with
    [authenticateToken]; [None] for the two routes registered without it. *)
Definition guarded_header (req : request) : option (option string) :=
  match req with
  | PostRegister _ _ | PostLogin _ => None
  | GetMe h | GetDevices h | PostDevice h _ | DeleteDevice h _
  | GetSensorData h _ _ | PostGenerateData h _ _ _ _ => Some h
  end.

(** The body of a registration with the three fields given as strings. *)
Definition registration (username email password : string) : row :=
  {[ "username" := VStr username; "email" := VStr email;
     "password" := VStr password ]}.

(** The row [POST /api/auth/register] stores on the users table the source
    creates. *)
Definition account_row `{P : Platform} (db : database)
    (username email hash : string) (now : Z) : row :=
  {[ "id" := VNum (Sql.next_rowid (users db));
     "username" := VStr username;
     "email" := VStr email;
     "password" := VStr hash;
     "created_at" := Sql.store Sql.NUMERIC (VStr (sqlite_timestamp now)) ]}.

(** The part of an account the server sends back: [{ id, username, email }]. *)
Definition public_user (account : row) : row :=
  {[ "id" := prop account "id"; "username" := prop account "username";
     "email" := prop account "email" ]}.

(** The values the accounts hold in a column. *)
Definition account_values (c : string) (db : database) : list value :=
  (fun r => prop r c) <$> Sql.tbl_rows (users db).

(** The users table after a successful registration. *)
Definition registered `{P : Platform} (db : database)
    (username email hash : string) (now : Z) : database :=
  with_users db
    (Sql.Table (Sql.tbl_name (users db)) (Sql.tbl_columns (users db))
       (Sql.tbl_rows (users db) ++ [account_row db username email hash now])
       (Sql.next_rowid (users db))).

(** The body of [POST /api/devices] with the three fields given as
    strings. *)
Definition device_body (name kind deviceId : string) : row :=
  {[ "device_name" := VStr name; "device_type" := VStr kind;
     "device_id" := VStr deviceId ]}.

(** The row [POST /api/devices] stores for the requester [i]. *)
Definition device_row `{P : Platform} (db : database) (i : Z)
    (name kind deviceId : string) (now : Z) : row :=
  {[ "id" := VNum (Sql.next_rowid (devices db));
     "user_id" := VNum i;
     "device_name" := VStr name;
     "device_type" := VStr kind;
     "device_id" := VStr deviceId;
     "status" := VStr "online";
     "created_at" := Sql.store Sql.NUMERIC (VStr (sqlite_timestamp now)) ]}.

(** The values the devices hold in a column. *)
Definition device_values (c : string) (db : database) : list value :=
  (fun r => prop r c) <$> Sql.tbl_rows (devices db).

(** The database after that row has been stored. *)
Definition device_added `{P : Platform} (db : database) (i : Z)
    (name kind deviceId : string) (now : Z) : database :=
  with_devices db
    (Sql.Table (Sql.tbl_name (devices db)) (Sql.tbl_columns (devices db))
       (Sql.tbl_rows (devices db) ++ [device_row db i name kind deviceId now])
       (Sql.next_rowid (devices db))).

(** The devices whose [user_id] is [i], in table order. *)
Definition own_devices (i : Z) (db : database) : list row :=
  List.filter (fun r => bool_decide (prop r "user_id" = VNum i))
    (Sql.tbl_rows (devices db)).

(** The readings stored under a device identifier, in table order. *)
Definition readings (deviceId : string) (db : database) : list row :=
  List.filter (fun r => bool_decide (prop r "device_id" = VStr deviceId))
    (Sql.tbl_rows (sensor_data db)).

(** Rows in descending order of the column [c], as [ORDER BY c DESC] leaves
    them. *)
Fixpoint descending (c : string) (rs : list row) : bool :=
  match rs with
  | a :: (b :: _) as rest =>
      SqlOrder.cell_le (prop b c) (prop a c) && descending c rest
  | _ => true
  end.

(** The database after [POST /api/demo/generate-data/:deviceId] has stored
    its row. *)
Definition reading_added `{P : Platform} (db : database)
    (deviceId temperature humidity pressure : string) (now : Z) : database :=
  with_sensor_data db
    (Sql.Table (Sql.tbl_name (sensor_data db)) (Sql.tbl_columns (sensor_data db))
       (Sql.tbl_rows (sensor_data db)
        ++ [reading_row db deviceId temperature humidity pressure now])
       (Sql.next_rowid (sensor_data db))).

Module ReadingsExample.

(** bob has the device [dev-1] and one reading of it. *)
Definition bob_has_reading : database :=
  (generate_data (P := Sample.platform) "dev-1" "21.50" "45.00" "1000.00" 40
     Example.bob_identity Example.bob_has_dev_1).2.

(** [n] readings of a device, written by carol at the times [now],
    [now + 1], ... *)
Fixpoint generate_many (n : nat) (deviceId : string) (now : Z) (db : database)
  : database :=
  match n with
  | O => db
  | S n' =>
      generate_many n' deviceId (now + 1)
        (generate_data (P := Sample.platform) deviceId "21.50" "45.00" "1000.00"
           now Example.carol_identity db).2
  end.

(** bob has the device [dev-1]; the table holds 26 readings of it at the
    times 300 to 325, then 3 readings of [dev-2] at 100 to 102, then 26
    readings of [dev-1] at 200 to 225. *)
Definition bob_has_many_readings : database :=
  generate_many 26 "dev-1" 200
    (generate_many 3 "dev-2" 100
       (generate_many 26 "dev-1" 300 Example.bob_has_dev_1)).

End ReadingsExample.

(** The rows of an answer that carries a list of rows. *)
Definition answer_rows (answer : response) : list row :=
  match json answer with
  | Rows rs => rs
  | _ => []
  end.

(** The token of a session for the identity [(i, u)], issued at [issued],
    sent back as [Authorization: Bearer <token>]: before 24 hours have
    passed the guard hands that identity to the route; from then on
    [jwt.verify] reports the token expired and the guard refuses it. *)
Definition verifies_until_expiry `{P : Platform} (JWT_SECRET token : string)
    (i : Z) (u : string) (issued : Z) : Prop :=
  forall now : Z,
    (now < issued + 24 * 60 * 60 ->
     authenticateToken JWT_SECRET (Some ("Bearer " +:+ token)) now
     = inr (Claims (VNum i) (VStr u) issued (issued + 24 * 60 * 60)))
    /\ (issued + 24 * 60 * 60 <= now ->
        jwt_verify token JWT_SECRET now = inl TokenExpiredError
        /\ authenticateToken JWT_SECRET (Some ("Bearer " +:+ token)) now
           = inl token_refused).

Module TwoDevices.

Definition bob_token : string :=
  jwt_sign (Platform := Sample.platform)
    (Payload (VNum 1) (VStr "bob")) Example.secret expiresIn_24h 10.
Definition carol_token : string :=
  jwt_sign (Platform := Sample.platform)
    (Payload (VNum 2) (VStr "carol")) Example.secret expiresIn_24h 20.

Definition dev_2 : row :=
  {[ "device_name" := VStr "shed"; "device_type" := VStr "hygrometer";
     "device_id" := VStr "dev-2" ]}.

(** The requests of bob and carol, who register and add a device each. *)
Definition requests : list (request * Z) :=
  [ (PostRegister Example.bob "salt", 10);
    (PostRegister Example.carol "salt", 20);
    (PostDevice (GuardExample.authorization bob_token) Example.dev_1, 30);
    (PostDevice (GuardExample.authorization carol_token) dev_2, 40) ].

(** The database after the server has handled requests, the first first. *)
Definition served (reqs : list (request * Z)) : database :=
  foldl (fun db '(req, now) =>
           (handle (P := Sample.platform) Example.secret req now db).2)
        fresh_db reqs.

End TwoDevices.

(** A field that is absent from the body of a request, or holds a value
    JavaScript reads as false. *)
Definition blank (body : row) (field : string) : Prop :=
  prop body field ∈ [VUndefined; VNull; VNaN; VNum 0; VStr ""].

(** * Properties *)

(** ** Facts about the table engine *)

Section EngineFacts.
Context `{P : Platform}.
Import Sql.

Lemma with_users_same (db : database) :
  with_users db (users db) = db.
Proof. by destruct db. Qed.

Lemma table_eta (t : table) :
  Table (tbl_name t) (tbl_columns t) (tbl_rows t) (tbl_sequence t) = t.
Proof. by destruct t. Qed.

Lemma head_filter_Some {A} (f : A -> bool) (l : list A) (x : A) :
  head (List.filter f l) = Some x -> In x l /\ f x = true.
Proof.
  intros H. apply (proj1 (filter_In f x l)).
  destruct (List.filter f l); simplify_eq/=. by left.
Qed.

Lemma select_get_Some (t : table) cond (r : row) :
  select_get t cond = inr (Some r) ->
  In r (tbl_rows t) /\ matches t cond r = true.
Proof.
  unfold select_get, select_all.
  destruct (unknown_column t cond.*1); [done|].
  intros [= H]. by apply head_filter_Some.
Qed.

Lemma unknown_column_ext (t t' : table) (names : list string) :
  tbl_columns t = tbl_columns t' ->
  unknown_column t names = unknown_column t' names.
Proof. unfold unknown_column, find_column. by intros ->. Qed.

Lemma select_get_known (t : table) cond :
  unknown_column t cond.*1 = None ->
  select_get t cond = inr (head (List.filter (matches t cond) (tbl_rows t))).
Proof. unfold select_get, select_all. by intros ->. Qed.

(** A statement that names a column the table does not have is refused. *)
Lemma update_unknown_column (t : table) sets cond (c : string) :
  unknown_column t (sets.*1 ++ cond.*1) = Some c ->
  update t sets cond = inl (NoSuchColumn c).
Proof. unfold update. by intros ->. Qed.

Lemma unknown_column_first (t : table) (c : string) (rest : list string) :
  find_column t c = None -> unknown_column t (c :: rest) = Some c.
Proof.
  intros H. unfold unknown_column. simpl. by rewrite H, bool_decide_eq_true_2.
Qed.

End EngineFacts.

(** ** The login handler *)

Section Login.
Context `{P : Platform}.
Variable JWT_SECRET : string.

(** A request that lacks the email or the password is answered 400 before
    any account is looked up. *)
Lemma login_requires_fields (body : row) (now : Z) (db : database) :
  JS.not (prop body "email") || JS.not (prop body "password") = true ->
  login JWT_SECRET body now db
  = (Response 400 (Error "Email and password required"), db).
Proof. unfold login. by intros ->. Qed.

(** The login handler up to the password comparison, once the fields are
    there and the account is found and not locked. *)
Lemma login_unlocked (body : row) (now : Z) (db : database) (user : row) :
  JS.truthy (prop body "email") = true ->
  JS.truthy (prop body "password") = true ->
  Sql.select_get (users db) [("email", prop body "email")] = inr (Some user) ->
  JS.strict_eq (prop user "is_locked") (VNum 1) = false ->
  forall valid, compare (prop body "password") (prop user "password") = Some valid ->
  login JWT_SECRET body now db =
  if negb valid then
    let newAttempts :=
      JS.add js_number (JS.or (prop user "failed_attempts") (VNum 0)) (VNum 1) in
    if JS.ge js_number newAttempts (VNum 3) then
      (Response 403 (Error "Account locked after 3 failed attempts."),
       with_users db
         (run_logged (users db)
            (Sql.update (users db)
               [("failed_attempts", newAttempts); ("is_locked", VNum 1)]
               [("id", prop user "id")])))
    else
      (Response 401
         (Error ("Invalid credentials. "
                 +:+ JS.to_string (JS.sub js_number (VNum 3) newAttempts)
                 +:+ " attempts left.")),
       with_users db
         (run_logged (users db)
            (Sql.update (users db) [("failed_attempts", newAttempts)]
               [("id", prop user "id")])))
  else
    (Response 200
       (Session "Login successful"
          (jwt_sign (Payload (prop user "id") (prop user "username"))
                    JWT_SECRET expiresIn_24h now)
          {[ "id" := prop user "id"; "username" := prop user "username";
             "email" := prop user "email" ]}),
     with_users db
       (run_logged (users db)
          (Sql.update (users db) [("failed_attempts", VNum 0)]
             [("id", prop user "id")]))).
Proof.
  intros He Hp Hget Hl valid Hc. unfold login, JS.not.
  rewrite He, Hp, Hget, Hl, Hc. simpl. by destruct valid.
Qed.

(** C8. A login with an email and a password against an account whose row
    has [is_locked = 1] is answered with the lockout error whatever the
    password is (it is not compared), and the database is left as it was. *)
Theorem locked_login_rejected (body : row) (now : Z) (db : database)
    (user : row) :
  JS.truthy (prop body "email") = true ->
  JS.truthy (prop body "password") = true ->
  Sql.select_get (users db) [("email", prop body "email")] = inr (Some user) ->
  state_of_row user = LOCKED ->
  login JWT_SECRET body now db = (locked_error, db).
Proof.
  intros He Hp Hget Hlocked. unfold login, JS.not.
  rewrite He, Hp, Hget. simpl.
  unfold state_of_row in Hlocked.
  by destruct (JS.strict_eq (prop user "is_locked") (VNum 1)).
Qed.

End Login.

Lemma locked_login_rejected_witness :
  account_state_of (P := Sample.platform) Example.alice_locked
    "alice@example.org" = Some LOCKED
  /\ login (P := Sample.platform) Example.secret Example.alice_P1 14
       Example.alice_locked
     = (locked_error, Example.alice_locked)
  /\ login (P := Sample.platform) Example.secret Example.alice_X 14
       Example.alice_locked
     = (locked_error, Example.alice_locked).
Proof.
  split; [computed|]. split.
  - apply (locked_login_rejected (P := Sample.platform) Example.secret
             Example.alice_P1 14 Example.alice_locked
             (Example.first_account Example.alice_locked)); computed.
  - apply (locked_login_rejected (P := Sample.platform) Example.secret
             Example.alice_X 14 Example.alice_locked
             (Example.first_account Example.alice_locked)); computed.
Defined.

(** ** Rows of a well-formed table *)

Section WellFormed.
Import Sql.

Lemma find_column_None (t : table) (c : string) :
  find_column t c = None -> c ∉ col_name <$> tbl_columns t.
Proof.
  unfold find_column. intros Hnone Hin.
  apply list_elem_of_fmap in Hin as (cl & -> & Hcl).
  apply list_elem_of_In in Hcl.
  pose proof (find_none _ _ Hnone cl Hcl) as Hf. simpl in Hf.
  by rewrite bool_decide_eq_true_2 in Hf.
Qed.

Lemma row_ok_of (t : table) (r : row) :
  well_formed t = true -> In r (tbl_rows t) -> row_ok t r = true.
Proof. unfold well_formed. rewrite forallb_forall. auto. Qed.

(** A row has no property named after a column its table lacks. *)
Lemma absent_column_undefined (t : table) (r : row) (c : string) :
  well_formed t = true -> In r (tbl_rows t) ->
  find_column t c = None -> prop r c = VUndefined.
Proof.
  intros Hwf Hin Hnone. apply (row_ok_of _ _ Hwf) in Hin.
  unfold row_ok in Hin. apply andb_true_iff in Hin as [Hdom _].
  apply bool_decide_eq_true in Hdom.
  unfold prop. destruct (r !! c) as [v|] eqn:Hv; [|done].
  exfalso. apply (find_column_None _ _ Hnone).
  apply (elem_of_list_to_set (C := gset string)), Hdom, elem_of_dom. eauto.
Qed.

(** The primary key of a row is an integer. *)
Lemma primary_key_num (t : table) (r : row) (k : column) :
  well_formed t = true -> In r (tbl_rows t) ->
  In k (tbl_columns t) -> col_primary_key k = true ->
  exists n, prop r (col_name k) = VNum n.
Proof.
  intros Hwf Hin Hk Hpk. apply (row_ok_of _ _ Hwf) in Hin.
  unfold row_ok in Hin. apply andb_true_iff in Hin as [_ Hkeys].
  rewrite forallb_forall in Hkeys. specialize (Hkeys k Hk).
  rewrite Hpk in Hkeys. simpl in Hkeys.
  destruct (prop r (col_name k)); try done. eauto.
Qed.

End WellFormed.

(** ** The login handler on the users table the source creates *)

Section SourceSchema.
Context `{P : Platform}.
Variable JWT_SECRET : string.
Variable db : database.
Hypothesis source_columns : Sql.tbl_columns (users db) = users_columns.

Lemma no_failed_attempts_column :
  Sql.find_column (users db) "failed_attempts" = None.
Proof. unfold Sql.find_column. by rewrite source_columns. Qed.

Lemma no_is_locked_column :
  Sql.find_column (users db) "is_locked" = None.
Proof. unfold Sql.find_column. by rewrite source_columns. Qed.

(** Every [UPDATE] of the login handler sets [failed_attempts], which is
    not a column: it is refused, the refusal is only logged, and the
    database stays as it was. *)
Lemma lockout_update_refused (sets cond : list (string * value)) (v : value) :
  with_users db
    (run_logged (users db)
       (Sql.update (users db) (("failed_attempts", v) :: sets) cond))
  = db.
Proof.
  rewrite (update_unknown_column _ _ _ "failed_attempts").
  - apply with_users_same.
  - apply unknown_column_first, no_failed_attempts_column.
Qed.

Lemma login_writes_nothing (body : row) (now : Z) :
  (login JWT_SECRET body now db).2 = db.
Proof.
  unfold login.
  repeat (case_match; simpl; try done); apply lockout_update_refused.
Qed.

End SourceSchema.

Section Credentials.

Lemma credentials_email (email password : string) :
  prop (credentials email password) "email" = VStr email.
Proof. unfold prop, credentials. by simplify_map_eq. Qed.

Lemma credentials_password (email password : string) :
  prop (credentials email password) "password" = VStr password.
Proof. unfold prop, credentials. by simplify_map_eq. Qed.

Lemma truthy_string (s : string) : s <> "" -> JS.truthy (VStr s) = true.
Proof. intros H. simpl. by rewrite bool_decide_eq_false_2. Qed.

End Credentials.

Section SourceSchemaLockout.
Context `{P : Platform}.
Variable JWT_SECRET : string.
Variable db : database.
Hypothesis source_columns : Sql.tbl_columns (users db) = users_columns.
Hypothesis rows_ok : well_formed (users db) = true.

(** An account of the table, a password its hash accepts and one it
    rejects. *)
Variables (email password wrong : string) (user : row) (hash : string).
Hypothesis email_given : email <> "".
Hypothesis password_given : password <> "".
Hypothesis wrong_given : wrong <> "".
Hypothesis account : Sql.select_get (users db) [("email", VStr email)] = inr (Some user).
Hypothesis stored_hash : prop user "password" = VStr hash.
Hypothesis password_right : bcrypt_compare password hash = true.
Hypothesis password_wrong : bcrypt_compare wrong hash = false.

Lemma account_never_locked :
  JS.strict_eq (prop user "is_locked") (VNum 1) = false.
Proof.
  destruct (select_get_Some _ _ _ account) as [Hin _].
  by rewrite (absent_column_undefined _ _ _ rows_ok Hin
                (no_is_locked_column db source_columns)).
Qed.

Lemma account_counter_undefined :
  prop user "failed_attempts" = VUndefined.
Proof.
  destruct (select_get_Some _ _ _ account) as [Hin _].
  apply (absent_column_undefined _ _ _ rows_ok Hin
           (no_failed_attempts_column db source_columns)).
Qed.

Lemma account_active_0 :
  account_state_of db email = Some (ACTIVE (VNum 0)).
Proof.
  unfold account_state_of, state_of_row.
  by rewrite account, account_never_locked, account_counter_undefined.
Qed.

Lemma wrong_password_answer (now : Z) :
  login JWT_SECRET (credentials email wrong) now db
  = (Response 401 (Error "Invalid credentials. 2 attempts left."), db).
Proof.
  rewrite (login_unlocked _ _ _ _ user) with (valid := false).
  - rewrite account_counter_undefined. simpl.
    by rewrite lockout_update_refused.
  - rewrite credentials_email. by apply truthy_string.
  - rewrite credentials_password. by apply truthy_string.
  - by rewrite credentials_email.
  - apply account_never_locked.
  - rewrite credentials_password, stored_hash. simpl. by rewrite password_wrong.
Qed.

Lemma right_password_answer (now : Z) :
  login JWT_SECRET (credentials email password) now db
  = (Response 200
       (Session "Login successful"
          (jwt_sign (Payload (prop user "id") (prop user "username"))
                    JWT_SECRET expiresIn_24h now)
          {[ "id" := prop user "id"; "username" := prop user "username";
             "email" := prop user "email" ]}),
     db).
Proof.
  rewrite (login_unlocked _ _ _ _ user) with (valid := true).
  - simpl. by rewrite lockout_update_refused.
  - rewrite credentials_email. by apply truthy_string.
  - rewrite credentials_password. by apply truthy_string.
  - by rewrite credentials_email.
  - apply account_never_locked.
  - rewrite credentials_password, stored_hash. simpl. by rewrite password_right.
Qed.

(** C5, as the code behaves on the users table the source creates: a login
    with a wrong password is answered "2 attempts left", which is
    [3 - (0 + 1)], but the attempt is not recorded: the account is
    [ACTIVE 0] before and still [ACTIVE 0] afterwards, not [ACTIVE 1]. *)
Theorem failed_attempt_not_recorded (now : Z) :
  let answer := login JWT_SECRET (credentials email wrong) now db in
  account_state_of db email = Some (ACTIVE (VNum 0))
  /\ answer.1 = Response 401 (Error "Invalid credentials. 2 attempts left.")
  /\ account_state_of answer.2 email = Some (ACTIVE (VNum 0))
  /\ account_state_of answer.2 email <> Some (ACTIVE (VNum 1)).
Proof.
  simpl. rewrite wrong_password_answer. simpl.
  by rewrite account_active_0.
Qed.

(** C1, as the code behaves on the users table the source creates: after
    three consecutive logins with a wrong password the account is not
    [LOCKED] but still [ACTIVE 0], and a fourth login with the right password
    succeeds. *)
Theorem three_failures_do_not_lock (t1 t2 t3 t4 : Z) :
  let attempt now d := (login JWT_SECRET (credentials email wrong) now d).2 in
  let db3 := attempt t3 (attempt t2 (attempt t1 db)) in
  account_state_of db3 email = Some (ACTIVE (VNum 0))
  /\ account_state_of db3 email <> Some LOCKED
  /\ (login JWT_SECRET (credentials email password) t4 db3).1
     = Response 200
         (Session "Login successful"
            (jwt_sign (Payload (prop user "id") (prop user "username"))
                      JWT_SECRET expiresIn_24h t4)
            {[ "id" := prop user "id"; "username" := prop user "username";
               "email" := prop user "email" ]}).
Proof.
  simpl. rewrite !wrong_password_answer. simpl.
  by rewrite account_active_0, right_password_answer.
Qed.

End SourceSchemaLockout.

(** ** The login handler on a users table prepared with the lockout columns *)

Section EngineUpdate.
Context `{P : Platform}.
Import Sql.

Lemma omap_all_None {A B} (f : A -> option B) (l : list A) :
  (forall x, f x = None) -> omap f l = [].
Proof. intros H. induction l as [|x l IH]; simpl; [done|]. by rewrite H. Qed.

Lemma filter_fmap {A} (f : A -> A) (p q : A -> bool) (l : list A) :
  (forall x, q (f x) = p x) ->
  List.filter q (f <$> l) = f <$> List.filter p l.
Proof.
  intros H. induction l as [|x l IH]; csimpl; [done|].
  rewrite H. destruct (p x); csimpl; by rewrite IH.
Qed.

(** An [UPDATE] whose columns exist and carry no constraint goes through
    and rewrites exactly the rows the condition selects. *)
Lemma update_unconstrained (t : table) (sets cond : list (string * value)) :
  unknown_column t (sets.*1 ++ cond.*1) = None ->
  (forall r, not_null_violation t r sets.*1 = None) ->
  (forall others n r, unique_violation t others n r sets.*1 = None) ->
  update t sets cond
  = inr (Z.of_nat (length (List.filter (matches t cond) (tbl_rows t))),
         Table (tbl_name t) (tbl_columns t)
               ((fun r => if matches t cond r then assign t sets r else r)
                  <$> tbl_rows t)
               (tbl_sequence t)).
Proof.
  intros Hcols Hnn Huq. unfold update. rewrite Hcols.
  rewrite omap_all_None; [done|].
  intros r. by rewrite Hnn, Huq.
Qed.

End EngineUpdate.

Section PreparedSchema.
Context `{P : Platform}.
Variable JWT_SECRET : string.
Variable db : database.
Hypothesis prepared_columns :
  Sql.tbl_columns (users db) = (users_columns ++ lockout_columns)%list.
Hypothesis rows_ok : well_formed (users db) = true.

Lemma matches_id (n : Z) (r : row) :
  Sql.matches (users db) [("id", VNum n)] r = bool_decide (prop r "id" = VNum n).
Proof.
  unfold Sql.matches, Sql.find_column. rewrite prepared_columns. simpl.
  unfold Sql.sql_eq. simpl. rewrite andb_true_r.
  by destruct (prop r "id").
Qed.

Lemma matches_email (t : Sql.table) (e : string) (r : row) :
  Sql.tbl_columns t = Sql.tbl_columns (users db) ->
  Sql.matches t [("email", VStr e)] r = bool_decide (prop r "email" = VStr e).
Proof.
  intros Ht. unfold Sql.matches, Sql.find_column. rewrite Ht, prepared_columns.
  simpl. unfold Sql.sql_eq. simpl. rewrite andb_true_r.
  by destruct (prop r "email").
Qed.

Lemma lockout_update_applied (lock : bool) (count : value) (n : Z) :
  run_logged (users db)
    (Sql.update (users db)
       (("failed_attempts", count)
          :: (if lock then [("is_locked", VNum 1)] else []))
       [("id", VNum n)])
  = lockout_written db lock count n.
Proof.
  rewrite update_unconstrained.
  - unfold run_logged, lockout_written. f_equal.
    apply list_fmap_ext. intros _ r _. rewrite matches_id.
    case_bool_decide; [|done].
    unfold Sql.assign, Sql.find_column. rewrite prepared_columns.
    by destruct lock.
  - unfold Sql.unknown_column, Sql.find_column. rewrite prepared_columns.
    by destruct lock.
  - intros r. unfold Sql.not_null_violation. rewrite prepared_columns.
    by destruct lock.
  - intros others k r. unfold Sql.unique_violation. rewrite prepared_columns.
    by destruct lock.
Qed.

(** An account of the table. *)
Variables (email : string) (user : row).
Hypothesis email_given : email <> "".
Hypothesis account :
  Sql.select_get (users db) [("email", VStr email)] = inr (Some user).

Lemma account_id : exists n, prop user "id" = VNum n.
Proof.
  destruct (select_get_Some _ _ _ account) as [Hin _].
  apply (primary_key_num (users db) user
           (Sql.PRIMARY_KEY_AUTOINCREMENT (Sql.col "id" Sql.INTEGER)) rows_ok Hin);
    [|done].
  rewrite prepared_columns. by left.
Qed.

Lemma state_after_write (lock : bool) (count : value) (n : Z) :
  prop user "id" = VNum n ->
  account_state_of (with_users db (lockout_written db lock count n)) email
  = Some (state_of_row (written user lock count)).
Proof.
  intros Hid.
  assert (Sql.unknown_column (users db) [("email", VStr email)].*1 = None) as Hu.
  { unfold Sql.unknown_column, Sql.find_column. by rewrite prepared_columns. }
  pose proof account as Hacc. rewrite (select_get_known _ _ Hu) in Hacc.
  injection Hacc as Hhead.
  unfold account_state_of. cbn [users with_users].
  rewrite select_get_known
    by (by rewrite (unknown_column_ext _ (users db))).
  cbn [lockout_written Sql.tbl_rows].
  rewrite (filter_fmap _ (Sql.matches (users db) [("email", VStr email)])).
  - rewrite head_lookup in Hhead.
    rewrite head_lookup, list_lookup_fmap, Hhead. cbn [fmap option_fmap option_map].
    rewrite Hid, bool_decide_eq_true_2 by done. done.
  - intros r. rewrite !matches_email by done.
    destruct (bool_decide (prop r "id" = VNum n)); [|done].
    unfold prop. destruct lock; by rewrite !lookup_insert_ne.
Qed.

Variables (given hash : string).
Hypothesis password_given : given <> "".
Hypothesis stored_hash : prop user "password" = VStr hash.
Hypothesis not_locked : JS.strict_eq (prop user "is_locked") (VNum 1) = false.

(** With the columns in place, a right password resets the counter. *)
Lemma prepared_right_password (now : Z) :
  bcrypt_compare given hash = true ->
  let answer := login JWT_SECRET (credentials email given) now db in
  answer.1
  = Response 200
      (Session "Login successful"
         (jwt_sign (Payload (prop user "id") (prop user "username"))
                   JWT_SECRET expiresIn_24h now)
         {[ "id" := prop user "id"; "username" := prop user "username";
            "email" := prop user "email" ]})
  /\ account_state_of answer.2 email = Some (ACTIVE (VNum 0)).
Proof.
  intros Hok. destruct account_id as [n Hid]. simpl.
  rewrite (login_unlocked _ _ _ _ user) with (valid := true).
  - simpl. split; [done|]. rewrite Hid.
    rewrite (lockout_update_applied false (VNum 0) n).
    rewrite state_after_write by done.
    unfold written, state_of_row, prop. simplify_map_eq.
    unfold prop in not_locked. by rewrite not_locked.
  - rewrite credentials_email. by apply truthy_string.
  - rewrite credentials_password. by apply truthy_string.
  - by rewrite credentials_email.
  - done.
  - rewrite credentials_password, stored_hash. simpl. by rewrite Hok.
Qed.

(** With the columns in place, a wrong password is counted, and the third
    one in a row locks the account. *)
Lemma prepared_wrong_password (count now : Z) :
  bcrypt_compare given hash = false ->
  JS.or (prop user "failed_attempts") (VNum 0) = VNum count ->
  let answer := login JWT_SECRET (credentials email given) now db in
  if count + 1 >=? 3 then
    answer.1 = Response 403 (Error "Account locked after 3 failed attempts.")
    /\ account_state_of answer.2 email = Some LOCKED
  else
    answer.1 = Response 401
                 (Error ("Invalid credentials. " +:+ pretty (3 - (count + 1))
                         +:+ " attempts left."))
    /\ account_state_of answer.2 email = Some (ACTIVE (VNum (count + 1))).
Proof.
  intros Hbad Hcount. destruct account_id as [n Hid]. simpl.
  rewrite (login_unlocked _ _ _ _ user) with (valid := false).
  - rewrite Hcount, Hid. cbn [negb].
    change (JS.add js_number (VNum count) (VNum 1)) with (VNum (count + 1)).
    change (JS.ge js_number (VNum (count + 1)) (VNum 3)) with (count + 1 >=? 3).
    change (JS.to_string (JS.sub js_number (VNum 3) (VNum (count + 1))))
      with (pretty (3 - (count + 1))).
    destruct (count + 1 >=? 3) eqn:Hge; cbn [fst snd].
    + split; [done|].
      rewrite (lockout_update_applied true (VNum (count + 1)) n).
      rewrite state_after_write by done.
      unfold written, state_of_row, prop. by simplify_map_eq.
    + split; [done|].
      rewrite (lockout_update_applied false (VNum (count + 1)) n).
      rewrite state_after_write by done.
      unfold written, state_of_row, prop. simplify_map_eq.
      unfold prop in not_locked. rewrite not_locked.
      unfold JS.or, JS.truthy.
      destruct (count + 1 =? 0) eqn:Hz; simpl; [|done].
      apply Z.eqb_eq in Hz. by rewrite Hz.
  - rewrite credentials_email. by apply truthy_string.
  - rewrite credentials_password. by apply truthy_string.
  - by rewrite credentials_email.
  - done.
  - rewrite credentials_password, stored_hash. simpl. by rewrite Hbad.
Qed.

End PreparedSchema.

Section ResetOnSuccess.
Context `{P : Platform}.
Variable JWT_SECRET : string.

(** C6. On the users table the source creates, and on one prepared with
    the lockout columns, a login with the right password against an account
    in any state [ACTIVE count] succeeds, and the account is [ACTIVE 0]
    afterwards. (The request carries both fields: registration refuses an
    empty password, so the right password is never empty.) *)
Theorem successful_login_resets_counter (db : database)
    (email password : string) (user : row) (hash : string) (count : value)
    (now : Z) :
  Sql.tbl_columns (users db) = users_columns
  \/ Sql.tbl_columns (users db) = (users_columns ++ lockout_columns)%list ->
  well_formed (users db) = true ->
  email <> "" -> password <> "" ->
  Sql.select_get (users db) [("email", VStr email)] = inr (Some user) ->
  state_of_row user = ACTIVE count ->
  prop user "password" = VStr hash ->
  bcrypt_compare password hash = true ->
  let answer := login JWT_SECRET (credentials email password) now db in
  answer.1
  = Response 200
      (Session "Login successful"
         (jwt_sign (Payload (prop user "id") (prop user "username"))
                   JWT_SECRET expiresIn_24h now)
         {[ "id" := prop user "id"; "username" := prop user "username";
            "email" := prop user "email" ]})
  /\ account_state_of answer.2 email = Some (ACTIVE (VNum 0)).
Proof.
  intros [Hsrc|Hprep] Hwf He Hp Hacc Hstate Hhash Hok.
  - simpl.
    rewrite (right_password_answer JWT_SECRET db Hsrc Hwf email password user hash)
      by done.
    split; [done|]. apply (account_active_0 db Hsrc Hwf email user Hacc).
  - apply (prepared_right_password JWT_SECRET db Hprep Hwf email user He Hacc
             password hash Hp Hhash); [|done].
    unfold state_of_row in Hstate.
    by destruct (JS.strict_eq (prop user "is_locked") (VNum 1)).
Qed.

End ResetOnSuccess.

Lemma successful_login_resets_counter_witness :
  account_state_of (P := Sample.platform) Example.alice_failed_twice
    "alice@example.org" = Some (ACTIVE (VNum 2))
  /\ status (login (P := Sample.platform) Example.secret Example.alice_P1 13
               Example.alice_failed_twice).1 = 200
  /\ account_state_of (P := Sample.platform)
       (login (P := Sample.platform) Example.secret Example.alice_P1 13
          Example.alice_failed_twice).2 "alice@example.org"
     = Some (ACTIVE (VNum 0)).
Proof.
  split; [computed|].
  destruct (successful_login_resets_counter (P := Sample.platform)
              Example.secret Example.alice_failed_twice
              "alice@example.org" "P1"
              (Example.first_account Example.alice_failed_twice)
              (Sample.hash "P1" "salt") (VNum 2) 13) as [H1 H2];
    [ right; computed | computed | done | done | computed | computed
    | computed | computed | ].
  split; [|exact H2].
  unfold Example.alice_P1. by rewrite H1.
Defined.

Lemma three_failures_do_not_lock_witness :
  account_state_of (P := Sample.platform) Example.alice_failed_thrice
    "alice@example.org" = Some (ACTIVE (VNum 0))
  /\ status (login (P := Sample.platform) Example.secret Example.alice_P1 14
               Example.alice_failed_thrice).1 = 200.
Proof.
  destruct (three_failures_do_not_lock (P := Sample.platform)
              Example.secret Example.alice_registered) 
    with (email := "alice@example.org") (password := "P1") (wrong := "X")
         (user := Example.first_account Example.alice_registered)
         (hash := Sample.hash "P1" "salt")
         (t1 := 11) (t2 := 12) (t3 := 13) (t4 := 14) as (H1 & _ & H2);
    [ computed | computed | done | done | done | computed | computed
    | computed | computed | ].
  split; [exact H1|].
  unfold Example.alice_P1, Example.alice_failed_thrice, Example.alice_X.
  by rewrite H2.
Defined.

Lemma failed_attempt_not_recorded_witness :
  (login (P := Sample.platform) Example.secret Example.alice_X 11
     Example.alice_registered).1
  = Response 401 (Error "Invalid credentials. 2 attempts left.")
  /\ account_state_of (P := Sample.platform)
       (login (P := Sample.platform) Example.secret Example.alice_X 11
          Example.alice_registered).2 "alice@example.org"
     = Some (ACTIVE (VNum 0)).
Proof.
  destruct (failed_attempt_not_recorded (P := Sample.platform)
              Example.secret Example.alice_registered)
    with (email := "alice@example.org") (wrong := "X")
         (user := Example.first_account Example.alice_registered)
         (hash := Sample.hash "P1" "salt") (now := 11) as (_ & H1 & H2 & _);
    [ computed | computed | done | done | computed | computed | computed | ].
  split; [exact H1 | exact H2].
Defined.

(** ** What a failed login tells the caller *)

Section LoginFailures.
Context `{P : Platform}.
Variable JWT_SECRET : string.

Lemma unknown_email_answer (body : row) (now : Z) (db : database) :
  JS.truthy (prop body "email") = true ->
  JS.truthy (prop body "password") = true ->
  Sql.select_get (users db) [("email", prop body "email")] = inr None ->
  login JWT_SECRET body now db
  = (Response 401 (Error "Invalid credentials"), db).
Proof.
  intros He Hp Hget. unfold login, JS.not. by rewrite He, Hp, Hget.
Qed.

(** C4, as the code behaves. A login for an email without an account is
    answered 401 "Invalid credentials". A login with a wrong password for
    an account that is not locked is answered either 401 "Invalid
    credentials. N attempts left." or 403 "Account locked after 3 failed
    attempts.". Neither answer names the field that was wrong, but the two
    are never the same answer. *)
Theorem login_failures_differ (unknown known : row) (now now' : Z)
    (db : database) (user : row) :
  JS.truthy (prop unknown "email") = true ->
  JS.truthy (prop unknown "password") = true ->
  Sql.select_get (users db) [("email", prop unknown "email")] = inr None ->
  JS.truthy (prop known "email") = true ->
  JS.truthy (prop known "password") = true ->
  Sql.select_get (users db) [("email", prop known "email")] = inr (Some user) ->
  JS.strict_eq (prop user "is_locked") (VNum 1) = false ->
  compare (prop known "password") (prop user "password") = Some false ->
  let miss := (login JWT_SECRET unknown now db).1 in
  let fail := (login JWT_SECRET known now' db).1 in
  miss = Response 401 (Error "Invalid credentials")
  /\ (fail = Response 403 (Error "Account locked after 3 failed attempts.")
      \/ exists left,
           fail = Response 401
                    (Error ("Invalid credentials. " +:+ left +:+ " attempts left.")))
  /\ miss <> fail.
Proof.
  intros He Hp Hnone He' Hp' Hsome Hl Hc. simpl.
  rewrite (unknown_email_answer unknown now db He Hp Hnone).
  rewrite (login_unlocked JWT_SECRET known now' db user He' Hp' Hsome Hl false Hc).
  cbn [negb fst].
  destruct (JS.ge js_number _ (VNum 3)); cbn [fst].
  - split; [done|]. split; [by left|]. discriminate.
  - split; [done|]. split; [right; eauto|]. discriminate.
Qed.

End LoginFailures.

Lemma login_failures_differ_witness :
  (login (P := Sample.platform) Example.secret Example.nobody_X 11
     Example.alice_registered).1
  = Response 401 (Error "Invalid credentials")
  /\ (login (P := Sample.platform) Example.secret Example.nobody_X 11
        Example.alice_registered).1
     <> (login (P := Sample.platform) Example.secret Example.alice_X 12
           Example.alice_registered).1.
Proof.
  destruct (login_failures_differ (P := Sample.platform) Example.secret
              Example.nobody_X Example.alice_X 11 12 Example.alice_registered
              (Example.first_account Example.alice_registered))
    as (H1 & _ & H2); [computed .. |].
  split; [exact H1 | exact H2].
Defined.

(** C4 as the specification states it fails: on the database where only
    alice is registered, a wrong password for alice and the same password for
    an unknown email are answered differently. *)
Lemma login_failure_counterexample :
  Sql.select_get (P := Sample.platform) (users Example.alice_registered)
    [("email", VStr "nobody@example.org")] = inr None
  /\ login (P := Sample.platform) Example.secret
       (credentials "nobody@example.org" "X") 11 Example.alice_registered
     = (Response 401 (Error "Invalid credentials"), Example.alice_registered)
  /\ login (P := Sample.platform) Example.secret
       (credentials "alice@example.org" "X") 11 Example.alice_registered
     = (Response 401 (Error "Invalid credentials. 2 attempts left."),
        Example.alice_registered)
  /\ (login (P := Sample.platform) Example.secret
        (credentials "nobody@example.org" "X") 11 Example.alice_registered).1
     <> (login (P := Sample.platform) Example.secret
           (credentials "alice@example.org" "X") 11 Example.alice_registered).1.
Proof. split; [|split; [|split]]; computed. Qed.

(** ** The bearer-token guard *)

Section Guard.
Context `{P : Platform}.
Variable JWT_SECRET : string.

Lemma guard_without_token (authHeader : option string) (now : Z) :
  bearer authHeader = None \/ bearer authHeader = Some "" ->
  authenticateToken JWT_SECRET authHeader now = inl token_required.
Proof. unfold authenticateToken. by intros [-> | ->]. Qed.

Lemma guard_with_token (authHeader : option string) (token : string) (now : Z) :
  bearer authHeader = Some token -> token <> "" ->
  authenticateToken JWT_SECRET authHeader now
  = match jwt_verify token JWT_SECRET now with
    | inl _ => inl token_refused
    | inr user => inr user
    end.
Proof.
  unfold authenticateToken. intros -> Hne. by destruct token.
Qed.

(** A guarded route answers what the guard answers and leaves the database
    alone when the guard rejects. *)
Lemma guarded_rejected (authHeader : option string) (now : Z)
    (handler : claims -> database -> response * database) (db : database)
    (r : response) :
  authenticateToken JWT_SECRET authHeader now = inl r ->
  guarded JWT_SECRET authHeader now handler db = (r, db).
Proof. unfold guarded. by intros ->. Qed.

(** C9, as the code behaves. [GET /api/auth/me] without a bearer token is
    answered 401 "Access token required"; with a token that [jwt.verify]
    refuses, whatever the reason (wrong signature, expiry, malformed), it is
    answered the one message 403 "Invalid or expired token". The caller can
    tell a missing token from a refused one, and nothing more. *)
Theorem current_identity_rejections (authHeader : option string) (now : Z)
    (db : database) :
  let answer := guarded JWT_SECRET authHeader now me db in
  (bearer authHeader = None \/ bearer authHeader = Some "" ->
   answer = (token_required, db))
  /\ (forall token e,
        bearer authHeader = Some token -> token <> "" ->
        jwt_verify token JWT_SECRET now = inl e ->
        answer = (token_refused, db))
  /\ token_required <> token_refused.
Proof.
  simpl. split; [|split]; [| |discriminate].
  - intros H. by apply guarded_rejected, guard_without_token.
  - intros token e Hb Hne Hv. apply guarded_rejected.
    by rewrite (guard_with_token _ token), Hv.
Qed.

(** *** Tokens the server issued *)

Lemma split_spaceless (s : string) :
  spaceless s = true -> JS.split " " s = [s].
Proof.
  induction s as [|c s IH]; simpl; [done|].
  intros [Hc Hs]%andb_true_iff. apply negb_true_iff in Hc.
  by rewrite Hc, (IH Hs).
Qed.

Lemma bearer_of_token (token : string) :
  spaceless token = true -> bearer (Some ("Bearer " +:+ token)) = Some token.
Proof.
  intros H. unfold bearer. simpl.
  change ("" +:+ token) with token. by rewrite (split_spaceless _ H).
Qed.

Hypothesis round_trip : jwt_round_trip P.
Hypothesis compact : jwt_compact P.

(** A token signed for 24 hours, sent back as [Authorization: Bearer ...]. *)
Lemma signed_token_round_trip (i : Z) (u : string) (issued now : Z) :
  let token := jwt_sign (Payload (VNum i) (VStr u)) JWT_SECRET expiresIn_24h issued in
  let verified := authenticateToken JWT_SECRET (Some ("Bearer " +:+ token)) now in
  (now < issued + 24 * 60 * 60 ->
   verified = inr (Claims (VNum i) (VStr u) issued (issued + 24 * 60 * 60)))
  /\ (issued + 24 * 60 * 60 <= now ->
      jwt_verify token JWT_SECRET now = inl TokenExpiredError
      /\ verified = inl token_refused).
Proof.
  simpl.
  destruct (compact (Payload (VNum i) (VStr u)) JWT_SECRET expiresIn_24h issued)
    as [Hne Hsp].
  rewrite (guard_with_token _ _ now (bearer_of_token _ Hsp) Hne), round_trip.
  change expiresIn_24h with (24 * 60 * 60).
  split; intros H.
  - by rewrite (proj2 (Z.ltb_lt _ _) H).
  - by rewrite (proj2 (Z.ltb_ge _ _) H).
Qed.

(** The session a successful login answers with. *)
Lemma login_session (body : row) (issued : Z) (db db' : database)
    (status : Z) (message token : string) (user : row) :
  login JWT_SECRET body issued db
  = (Response status (Session message token user), db') ->
  token = jwt_sign (Payload (prop user "id") (prop user "username"))
                   JWT_SECRET expiresIn_24h issued.
Proof.
  unfold login. intros H.
  repeat (case_match; try done). simplify_eq.
  unfold prop. by simplify_map_eq.
Qed.

(** The session a successful registration answers with. *)
Lemma register_session (body : row) (salt : string) (issued : Z)
    (db db' : database) (status : Z) (message token : string) (user : row) :
  register JWT_SECRET body salt issued db
  = (Response status (Session message token user), db') ->
  token = jwt_sign (Payload (prop user "id") (prop user "username"))
                   JWT_SECRET expiresIn_24h issued.
Proof.
  unfold register. intros H.
  repeat (case_match; try done). simplify_eq.
  unfold prop. by simplify_map_eq.
Qed.

End Guard.

(** ** The sample platform meets what is assumed of [jsonwebtoken] *)

Section SampleFacts.
Import Sample.

Lemma digits_not_empty (p : positive) : digits p <> "".
Proof. by destruct p. Qed.

Lemma numeral_digits (p : positive) : numeral (digits p) = Some p.
Proof.
  induction p as [p IH|p IH|]; [| |done].
  - simpl. destruct (digits p) eqn:E; [by destruct p|].
    by rewrite IH.
  - simpl. destruct (digits p) eqn:E; [by destruct p|].
    by rewrite IH.
Qed.

Lemma unseal_seal {A} `{Countable A} (x : A) : unseal (seal x) = Some x.
Proof.
  unfold unseal, seal. rewrite numeral_digits. simpl. apply decode_encode.
Qed.

Lemma digits_spaceless (p : positive) : spaceless (digits p) = true.
Proof. induction p; simpl; auto. Qed.

Lemma sample_round_trip : jwt_round_trip platform.
Proof.
  intros i u secret lifetime issued now. simpl. unfold verify, sign. simpl.
  rewrite unseal_seal, bool_decide_eq_true_2 by done. simpl.
  destruct (Z.leb_spec (issued + lifetime) now), (Z.ltb_spec now (issued + lifetime));
    done || lia.
Qed.

Lemma sample_compact : jwt_compact platform.
Proof.
  intros p secret lifetime issued. simpl. unfold sign, seal.
  split; [apply digits_not_empty | apply digits_spaceless].
Qed.

End SampleFacts.

Lemma current_identity_rejections_witness :
  guarded (P := Sample.platform) Example.secret None 30
      (me (P := Sample.platform)) Example.alice_registered
  = (token_required, Example.alice_registered)
  /\ guarded (P := Sample.platform) Example.secret
       (GuardExample.authorization GuardExample.forged_token) 30 (me (P := Sample.platform))
       Example.alice_registered
     = (token_refused, Example.alice_registered).
Proof.
  split.
  - apply (current_identity_rejections (P := Sample.platform) Example.secret
             None 30 Example.alice_registered). by left.
  - apply (proj1 (proj2 (current_identity_rejections (P := Sample.platform)
             Example.secret (GuardExample.authorization GuardExample.forged_token)
             30 Example.alice_registered))
             GuardExample.forged_token (JsonWebTokenError "invalid signature"));
      computed.
Defined.

(** C9 as the specification states it fails: a token with a wrong
    signature and an expired token are refused by [jwt.verify] for different
    reasons, and the guard gives the same answer to both. *)
Lemma refused_tokens_counterexample :
  jwt_verify (Platform := Sample.platform) GuardExample.forged_token
    Example.secret 30 = inl (JsonWebTokenError "invalid signature")
  /\ jwt_verify (Platform := Sample.platform) GuardExample.alice_token
       Example.secret 90000 = inl TokenExpiredError
  /\ guarded (P := Sample.platform) Example.secret
       (GuardExample.authorization GuardExample.forged_token) 30 (me (P := Sample.platform))
       Example.alice_registered
     = guarded (P := Sample.platform) Example.secret
         (GuardExample.authorization GuardExample.alice_token) 90000 (me (P := Sample.platform))
         Example.alice_registered.
Proof. split; [|split]; computed. Qed.

(** ** The ownership check of the device routes *)

Section Ownership.
Context `{P : Platform}.
Variable db : database.
Hypothesis source_columns : Sql.tbl_columns (devices db) = devices_columns.

Lemma matches_owned (deviceId : string) (i : Z) (r : row) :
  Sql.matches (devices db) [("device_id", VStr deviceId); ("user_id", VNum i)] r
  = owned deviceId i r.
Proof.
  unfold Sql.matches, Sql.find_column, owned. rewrite source_columns. simpl.
  unfold Sql.sql_eq. simpl. rewrite andb_true_r.
  by destruct (prop r "device_id"), (prop r "user_id").
Qed.

Lemma device_access_owned (deviceId : string) (user : claims) (i : Z) :
  id user = VNum i ->
  device_access deviceId user db
  = match head (List.filter (owned deviceId i) (Sql.tbl_rows (devices db))) with
    | Some _ => OK
    | None => NOT_FOUND
    end.
Proof.
  intros Hid. unfold device_access, get_sensor_data. rewrite Hid.
  rewrite select_get_known.
  - rewrite (filter_ext _ _ (matches_owned deviceId i)).
    destruct (head _); [|done].
    by destruct (SqlOrder.select_latest _ _ _ _).
  - unfold Sql.unknown_column, Sql.find_column. by rewrite source_columns.
Qed.

Lemma no_device_none_owned (deviceId : string) (i : Z) (rows : list row) :
  VStr deviceId ∉ (fun r => prop r "device_id") <$> rows ->
  List.filter (owned deviceId i) rows = [].
Proof.
  induction rows as [|r rows IH]; csimpl; [done|].
  intros [Hr Hrows]%not_elem_of_cons. unfold owned at 1.
  rewrite bool_decide_eq_false_2 by done. simpl. auto.
Qed.

(** C3, as the code behaves. With device identifiers unique, as the
    [UNIQUE] constraint of [devices.device_id] keeps them, the check lets the
    request through exactly when the specification's decision is [OK]; where
    the specification says [FORBIDDEN] (the device exists, its owner is
    someone else) the caller is told "not found", as for a device that does
    not exist. *)
Theorem device_access_decision (deviceId : string) (user : claims) (i : Z) :
  id user = VNum i ->
  NoDup ((fun r => prop r "device_id") <$> Sql.tbl_rows (devices db)) ->
  device_access deviceId user db
  = match authorize_device_spec i deviceId db with
    | OK => OK
    | FORBIDDEN | NOT_FOUND => NOT_FOUND
    end.
Proof.
  intros Hid Hunique. rewrite (device_access_owned _ _ _ Hid).
  unfold authorize_device_spec.
  induction (Sql.tbl_rows (devices db)) as [|r rows IH]; [done|].
  apply NoDup_cons in Hunique as [Hr Hrows]. simpl. unfold owned at 1.
  case_bool_decide as Hdev; simpl.
  - case_bool_decide as Hown; simpl; [done|].
    rewrite no_device_none_owned; [done|]. by rewrite <- Hdev.
  - by apply IH.
Qed.

End Ownership.

Lemma device_access_decision_witness :
  device_access (P := Sample.platform) "dev-1" Example.bob_identity
    Example.bob_has_dev_1 = OK
  /\ device_access (P := Sample.platform) "dev-1" Example.carol_identity
       Example.bob_has_dev_1 = NOT_FOUND
  /\ device_access (P := Sample.platform) "ghost" Example.carol_identity
       Example.bob_has_dev_1 = NOT_FOUND.
Proof.
  assert (NoDup ((fun r : row => prop r "device_id")
                   <$> Sql.tbl_rows (devices Example.bob_has_dev_1)))
    as Hunique by computed.
  split; [|split].
  - by rewrite (device_access_decision (P := Sample.platform)
                  Example.bob_has_dev_1 eq_refl "dev-1" Example.bob_identity 1
                  eq_refl Hunique).
  - by rewrite (device_access_decision (P := Sample.platform)
                  Example.bob_has_dev_1 eq_refl "dev-1" Example.carol_identity 2
                  eq_refl Hunique).
  - by rewrite (device_access_decision (P := Sample.platform)
                  Example.bob_has_dev_1 eq_refl "ghost" Example.carol_identity 2
                  eq_refl Hunique).
Defined.

(** C3 as the specification states it fails: carol asks for the data of
    [dev-1], which exists and belongs to bob. The specification's decision is
    [FORBIDDEN]; the route answers 404 "Device not found", the very answer
    it gives for a device that does not exist. *)
Lemma forbidden_counterexample :
  authorize_device_spec 2 "dev-1" Example.bob_has_dev_1 = FORBIDDEN
  /\ get_sensor_data (P := Sample.platform) "dev-1" None Example.carol_identity
       Example.bob_has_dev_1
     = (Response 404 (Error "Device not found"), Example.bob_has_dev_1)
  /\ get_sensor_data (P := Sample.platform) "ghost" None Example.carol_identity
       Example.bob_has_dev_1
     = (Response 404 (Error "Device not found"), Example.bob_has_dev_1)
  /\ device_access (P := Sample.platform) "dev-1" Example.carol_identity
       Example.bob_has_dev_1 <> FORBIDDEN.
Proof. split; [|split; [|split]]; computed. Qed.

(** ** Writing sensor data *)

Section Rowids.
Context `{P : Platform}.
Import Sql.

Lemma foldr_max_ge (s : Z) (l : list Z) (n : Z) :
  n ∈ l -> n <= foldr Z.max s l.
Proof.
  induction l as [|x l IH]; [by intros ?%elem_of_nil|].
  intros [->|Hin]%elem_of_cons; simpl; [lia|].
  specialize (IH Hin). lia.
Qed.

(** No row holds the rowid the next [INSERT] hands out. *)
Lemma next_rowid_fresh (t : table) (k : column) :
  List.find col_primary_key (tbl_columns t) = Some k ->
  taken (tbl_rows t) (col_name k) (VNum (next_rowid t)) = false.
Proof.
  intros Hk. unfold taken. apply not_true_iff_false.
  intros (r & Hin & Heq)%existsb_exists.
  apply bool_decide_eq_true in Heq.
  assert (next_rowid t ∈ rowids t) as Hmem.
  { unfold rowids. apply list_elem_of_omap. exists r.
    split; [by apply list_elem_of_In|]. by rewrite Hk, Heq. }
  apply (foldr_max_ge (tbl_sequence t)) in Hmem.
  unfold next_rowid in Hmem. lia.
Qed.

Lemma filter_none {A} (f : A -> bool) (l : list A) :
  (forall x, In x l -> f x = false) -> List.filter f l = [].
Proof.
  induction l as [|x l IH]; simpl; [done|]. intros H.
  rewrite (H x) by auto. apply IH. auto.
Qed.

Lemma filter_all {A} (f : A -> bool) (l : list A) :
  (forall x, In x l -> f x = true) -> List.filter f l = l.
Proof.
  induction l as [|x l IH]; simpl; [done|]. intros H.
  rewrite (H x) by auto. f_equal. apply IH. auto.
Qed.

Lemma NoDup_fmap_In {A B} (f : A -> B) (l : list A) (x y : A) :
  NoDup (f <$> l) -> In x l -> In y l -> f x = f y -> x = y.
Proof.
  induction l as [|a l IH]; csimpl; [done|].
  intros [Ha Hl]%NoDup_cons [->|Hx] [->|Hy] Hf; [done| | |by apply IH].
  - exfalso. apply Ha. rewrite Hf. apply list_elem_of_fmap.
    exists y. split; [done|]. by apply list_elem_of_In.
  - exfalso. apply Ha. rewrite <- Hf. apply list_elem_of_fmap.
    exists x. split; [done|]. by apply list_elem_of_In.
Qed.

Lemma find_all_false {A} (f : A -> bool) (l : list A) :
  (forall x, In x l -> f x = false) -> List.find f l = None.
Proof.
  induction l as [|x l IH]; simpl; [done|]. intros H.
  rewrite (H x) by auto. apply IH. auto.
Qed.

(** A new row breaks no [UNIQUE] constraint when the primary key is the only
    unique column and its value is not taken. *)
Lemma unique_violation_key_only (t : table) (others : list row) (r : row)
    (names : list string) (k : column) :
  (forall c, In c (tbl_columns t) ->
             col_unique c || col_primary_key c = true -> c = k) ->
  taken others (col_name k) (prop r (col_name k)) = false ->
  unique_violation t others 1 r names = None.
Proof.
  intros Honly Hfree. unfold unique_violation.
  rewrite find_all_false; [done|].
  intros c Hc. destruct (col_unique c || col_primary_key c) eqn:Hu; [|done].
  rewrite (Honly c Hc Hu), Hfree. simpl. apply andb_false_r.
Qed.

End Rowids.

Section SensorData.
Context `{P : Platform}.
Variable db : database.
Hypothesis source_columns : Sql.tbl_columns (sensor_data db) = sensor_data_columns.

(** C2, as the code behaves. The route that writes sensor data never looks
    at the devices table: for every identity and every device identifier,
    owned by the caller, by someone else or by nobody, it answers 200 and
    stores a reading under that identifier. *)
Theorem generate_data_unchecked (deviceId temperature humidity pressure : string)
    (now : Z) (user : claims) :
  let answer := generate_data deviceId temperature humidity pressure now user db in
  answer.1 = Response 200 (Reading temperature humidity pressure)
  /\ Sql.tbl_rows (sensor_data answer.2)
     = (Sql.tbl_rows (sensor_data db)
        ++ [reading_row db deviceId temperature humidity pressure now])%list
  /\ prop (reading_row db deviceId temperature humidity pressure now) "device_id"
     = VStr deviceId.
Proof.
  assert (generate_data deviceId temperature humidity pressure now user db
          = (Response 200 (Reading temperature humidity pressure),
             with_sensor_data db
               (Sql.Table (Sql.tbl_name (sensor_data db)) sensor_data_columns
                  (Sql.tbl_rows (sensor_data db)
                     ++ [reading_row db deviceId temperature humidity pressure now])
                  (Sql.next_rowid (sensor_data db))))) as Hstored;
    [|simpl; by rewrite Hstored].
  unfold generate_data, Sql.insert.
  assert (Sql.unknown_column (sensor_data db)
            [("device_id", VStr deviceId); ("temperature", VStr temperature);
             ("humidity", VStr humidity); ("pressure", VStr pressure)].*1 = None)
    as ->.
  { unfold Sql.unknown_column, Sql.find_column. by rewrite source_columns. }
  assert (Sql.inserted now (sensor_data db)
            [("device_id", VStr deviceId); ("temperature", VStr temperature);
             ("humidity", VStr humidity); ("pressure", VStr pressure)]
          = reading_row db deviceId temperature humidity pressure now) as ->.
  { unfold Sql.inserted, reading_row. rewrite source_columns.
    unfold sensor_data_columns. simpl. reflexivity. }
  rewrite source_columns.
  assert (Sql.not_null_violation (sensor_data db)
            (reading_row db deviceId temperature humidity pressure now)
            (Sql.col_name <$> sensor_data_columns) = None) as ->.
  { unfold Sql.not_null_violation. by rewrite source_columns. }
  assert (Sql.unique_violation (sensor_data db) (Sql.tbl_rows (sensor_data db)) 1
            (reading_row db deviceId temperature humidity pressure now)
            (Sql.col_name <$> sensor_data_columns) = None) as ->; [|done].
  apply (unique_violation_key_only _ _ _ _
           (Sql.PRIMARY_KEY_AUTOINCREMENT (Sql.col "id" Sql.INTEGER))).
  - rewrite source_columns. intros c Hc Hu. simpl in Hc.
    repeat (destruct Hc as [<-|Hc]; [done|]). done.
  - change (prop (reading_row db deviceId temperature humidity pressure now) _)
      with (VNum (Sql.next_rowid (sensor_data db))).
    apply next_rowid_fresh. by rewrite source_columns.
Qed.

End SensorData.

Lemma generate_data_unchecked_witness :
  device_access (P := Sample.platform) "dev-1" Example.carol_identity
    Example.bob_has_dev_1 = NOT_FOUND
  /\ (generate_data (P := Sample.platform) "dev-1" "21.50" "45.00" "1000.00" 40
        Example.carol_identity Example.bob_has_dev_1).1
     = Response 200 (Reading "21.50" "45.00" "1000.00")
  /\ Sql.tbl_rows
       (sensor_data
          (generate_data (P := Sample.platform) "dev-1" "21.50" "45.00"
             "1000.00" 40 Example.carol_identity Example.bob_has_dev_1).2)
     = [reading_row (P := Sample.platform) Example.bob_has_dev_1
          "dev-1" "21.50" "45.00" "1000.00" 40].
Proof.
  split; [computed|].
  destruct (generate_data_unchecked (P := Sample.platform)
              Example.bob_has_dev_1 eq_refl "dev-1" "21.50" "45.00" "1000.00"
              40 Example.carol_identity) as (H1 & H2 & _).
  split; [exact H1 | exact H2].
Defined.

(** The same write as a request: carol, with the token of her own session,
    posts a reading for bob's device, is answered 200, and bob then reads
    it back. *)
Lemma carol_writes_to_bobs_device :
  let carol_header :=
    Some ("Bearer " +:+ jwt_sign (Platform := Sample.platform)
                          (Payload (VNum 2) (VStr "carol")) Example.secret
                          expiresIn_24h 20) in
  let bob_header :=
    Some ("Bearer " +:+ jwt_sign (Platform := Sample.platform)
                          (Payload (VNum 1) (VStr "bob")) Example.secret
                          expiresIn_24h 10) in
  let written :=
    guarded (P := Sample.platform) Example.secret carol_header 40
      (generate_data (P := Sample.platform) "dev-1" "21.50" "45.00" "1000.00" 40)
      Example.bob_has_dev_1 in
  written.1 = Response 200 (Reading "21.50" "45.00" "1000.00")
  /\ (guarded (P := Sample.platform) Example.secret bob_header 50
        (get_sensor_data (P := Sample.platform) "dev-1" None) written.2).1
     = Response 200
         (Rows [reading_row (P := Sample.platform) Example.bob_has_dev_1
                  "dev-1" "21.50" "45.00" "1000.00" 40]).
Proof. split; computed. Qed.

(** ** Deleting a device *)

Section DeleteDevice.
Context `{P : Platform}.
Variable db : database.
Hypothesis source_columns : Sql.tbl_columns (devices db) = devices_columns.

(** The requester and the [:id] of the request, which SQLite reads as the
    rowid [n]. *)
Variables (user : claims) (i : Z) (deviceId : string) (n : Z).
Hypothesis requester : id user = VNum i.
Hypothesis target : sqlite_numeric deviceId = Some n.

(** The rows [DELETE ... WHERE id = ? AND user_id = ?] removes. *)
Lemma matches_delete (r : row) :
  Sql.matches (devices db) [("id", VStr deviceId); ("user_id", id user)] r
  = bool_decide (prop r "id" = VNum n) && bool_decide (prop r "user_id" = VNum i).
Proof.
  unfold Sql.matches, Sql.find_column. rewrite source_columns, requester. simpl.
  unfold Sql.sql_eq, Sql.store. simpl. rewrite target, andb_true_r. simpl.
  by destruct (prop r "id"), (prop r "user_id").
Qed.

Lemma delete_known :
  Sql.unknown_column (devices db)
    [("id", VStr deviceId); ("user_id", id user)].*1 = None.
Proof. unfold Sql.unknown_column, Sql.find_column. by rewrite source_columns. Qed.

(** A row of another owner is never removed, whatever the request names. *)
Lemma delete_keeps_foreign_rows (d : row) :
  In d (Sql.tbl_rows (devices db)) ->
  prop d "user_id" <> VNum i ->
  In d (Sql.tbl_rows (devices (delete_device deviceId user db).2)).
Proof.
  intros Hin Hown. unfold delete_device, Sql.delete. rewrite delete_known.
  assert (In d (List.filter
                  (fun r => negb (Sql.matches (devices db)
                                    [("id", VStr deviceId); ("user_id", id user)] r))
                  (Sql.tbl_rows (devices db)))) as Hkept.
  { apply filter_In. split; [done|]. cbv beta. rewrite matches_delete.
    by rewrite (bool_decide_eq_false_2 (prop d "user_id" = VNum i)), andb_false_r. }
  by case_match.
Qed.

Lemma delete_nothing :
  (forall r, In r (Sql.tbl_rows (devices db)) ->
             prop r "id" = VNum n -> prop r "user_id" <> VNum i) ->
  delete_device deviceId user db
  = (Response 404 (Error "Device not found"), db).
Proof.
  intros Hnone. unfold delete_device, Sql.delete. rewrite delete_known.
  assert (forall r, In r (Sql.tbl_rows (devices db)) ->
            Sql.matches (devices db)
              [("id", VStr deviceId); ("user_id", id user)] r = false) as Hno.
  { intros r Hr. rewrite matches_delete.
    case_bool_decide as Hid; [|done].
    by rewrite (bool_decide_eq_false_2 _ (Hnone r Hr Hid)). }
  assert (List.filter (Sql.matches (devices db)
                         [("id", VStr deviceId); ("user_id", id user)])
            (Sql.tbl_rows (devices db)) = []) as ->.
  { by apply filter_none. }
  assert (List.filter
            (fun r => negb (Sql.matches (devices db)
                              [("id", VStr deviceId); ("user_id", id user)] r))
            (Sql.tbl_rows (devices db)) = Sql.tbl_rows (devices db)) as ->.
  { apply filter_all. intros r Hr. by rewrite (Hno r Hr). }
  simpl. rewrite table_eta. by destruct db.
Qed.

End DeleteDevice.

(** C10. A device row [d] with rowid [n] belongs to [j], and the requester
    [i] is someone else; rowids are unique, [id] being the primary key. The
    request to delete it leaves the whole database, and so [d], as it was,
    and is answered 404 "Device not found": the answer a request for a rowid
    that no device has gets. *)
Theorem delete_foreign_device `{P : Platform} (db : database) (user : claims)
    (i : Z) (deviceId : string) (n : Z) (d : row) (j : Z) :
  Sql.tbl_columns (devices db) = devices_columns ->
  id user = VNum i ->
  sqlite_numeric deviceId = Some n ->
  d ∈ Sql.tbl_rows (devices db) ->
  prop d "id" = VNum n ->
  prop d "user_id" = VNum j ->
  j <> i ->
  NoDup ((fun r => prop r "id") <$> Sql.tbl_rows (devices db)) ->
  delete_device deviceId user db
  = (Response 404 (Error "Device not found"), db)
  /\ d ∈ Sql.tbl_rows (devices (delete_device deviceId user db).2)
  /\ forall (db0 : database),
       Sql.tbl_columns (devices db0) = devices_columns ->
       (forall r, r ∈ Sql.tbl_rows (devices db0) -> prop r "id" <> VNum n) ->
       (delete_device deviceId user db0).1 = (delete_device deviceId user db).1.
Proof.
  intros Hcols Huser Htarget Hin Hid Hown Hne Hkey.
  pose proof (proj1 (list_elem_of_In _ _) Hin) as Hin'.
  assert (delete_device deviceId user db
          = (Response 404 (Error "Device not found"), db)) as Hdel.
  { apply (delete_nothing db Hcols user i deviceId n Huser Htarget).
    intros r Hr Hrid.
    rewrite (NoDup_fmap_In (fun r => prop r "id") _ r d Hkey Hr Hin'), Hown;
      congruence. }
  split; [done|]. split; [by rewrite Hdel|].
  intros db0 Hcols0 Hnone. rewrite Hdel.
  rewrite (delete_nothing db0 Hcols0 user i deviceId n Huser Htarget); [done|].
  intros r Hr Hrid. by destruct (Hnone r (proj2 (list_elem_of_In _ _) Hr)).
Qed.

Lemma delete_foreign_device_witness :
  delete_device (P := Sample.platform) "1" Example.carol_identity
    Example.bob_has_dev_1
  = (Response 404 (Error "Device not found"), Example.bob_has_dev_1)
  /\ Example.first_device Example.bob_has_dev_1
     ∈ Sql.tbl_rows
         (devices (delete_device (P := Sample.platform) "1"
                     Example.carol_identity Example.bob_has_dev_1).2).
Proof.
  destruct (delete_foreign_device (P := Sample.platform) Example.bob_has_dev_1
              Example.carol_identity 2 "1" 1
              (Example.first_device Example.bob_has_dev_1) 1)
    as (H1 & H2 & _); [computed .. | done | computed | ].
  split; [exact H1 | exact H2].
Defined.

(** ** The databases the server reaches *)

Section InsertFacts.
Context `{P : Platform}.
Import Sql.

Lemma insert_inr (now : Z) (t t' : table) (vals : list (string * value)) (k : Z) :
  insert now t vals = inr (k, t') ->
  t' = Table (tbl_name t) (tbl_columns t) (tbl_rows t ++ [inserted now t vals])
             (next_rowid t)
  /\ not_null_violation t (inserted now t vals) (col_name <$> tbl_columns t) = None
  /\ unique_violation t (tbl_rows t) 1 (inserted now t vals)
       (col_name <$> tbl_columns t) = None.
Proof.
  unfold insert.
  repeat case_match; try done. by intros [= <- <-].
Qed.

Lemma delete_inr (t t' : table) (cond : list (string * value)) (k : Z) :
  delete t cond = inr (k, t') ->
  t' = Table (tbl_name t) (tbl_columns t)
             (List.filter (fun r => negb (matches t cond r)) (tbl_rows t))
             (tbl_sequence t).
Proof. unfold delete. case_match; [done|]. by intros [= <- <-]. Qed.

Lemma NoDup_fmap_filter {A B} (f : A -> B) (p : A -> bool) (l : list A) :
  NoDup (f <$> l) -> NoDup (f <$> List.filter p l).
Proof.
  induction l as [|x l IH]; csimpl; [done|].
  intros [Hx Hl]%NoDup_cons. destruct (p x); csimpl; [|by auto].
  apply NoDup_cons. split; [|by auto].
  intros (y & Hxy & Hy)%list_elem_of_fmap. apply Hx.
  apply list_elem_of_fmap. exists y. split; [done|].
  apply list_elem_of_In. apply list_elem_of_In in Hy.
  by apply filter_In in Hy as [? _].
Qed.

Lemma not_taken (rows : list row) (c : string) (v : value) :
  taken rows c v = false -> v ∉ (fun r => prop r c) <$> rows.
Proof.
  unfold taken. intros Hfree (r & -> & Hin)%list_elem_of_fmap.
  apply not_true_iff_false in Hfree. apply Hfree, existsb_exists.
  exists r. split; [by apply list_elem_of_In|]. by apply bool_decide_eq_true.
Qed.

Lemma NoDup_fmap_snoc {A B} (f : A -> B) (l : list A) (x : A) :
  NoDup (f <$> l) -> f x ∉ f <$> l -> NoDup (f <$> (l ++ [x])%list).
Proof.
  intros Hl Hx. rewrite fmap_app. apply NoDup_app. split; [done|].
  split; [|apply NoDup_singleton].
  intros y Hy ->%list_elem_of_singleton. done.
Qed.

End InsertFacts.

Section Preservation.
Context `{P : Platform}.
Variable JWT_SECRET : string.
Import Sql.

Lemma forallb_same {A} (f g : A -> bool) (l : list A) :
  (forall x, f x = g x) -> forallb f l = forallb g l.
Proof. intros H. induction l as [|x l IH]; simpl; [done|]. by rewrite H, IH. Qed.

Lemma row_ok_ext (t t' : table) (r : row) :
  tbl_columns t' = tbl_columns t -> row_ok t' r = row_ok t r.
Proof. unfold row_ok. by intros ->. Qed.

Lemma inserted_lookup (now : Z) (t : table) (vals : list (string * value))
    (c : column) :
  NoDup (col_name <$> tbl_columns t) ->
  In c (tbl_columns t) -> col_primary_key c = true ->
  prop (inserted now t vals) (col_name c) = VNum (next_rowid t).
Proof.
  intros Hnames Hc Hpk. unfold prop, inserted.
  erewrite elem_of_list_to_map_1; [done| |].
  - by rewrite <- list_fmap_compose.
  - apply list_elem_of_fmap. exists c. rewrite Hpk.
    split; [done|]. by apply list_elem_of_In.
Qed.

Lemma inserted_ok (now : Z) (t t' : table) (vals : list (string * value)) :
  tbl_columns t' = tbl_columns t ->
  NoDup (col_name <$> tbl_columns t) ->
  row_ok t' (inserted now t vals) = true.
Proof.
  intros Hcols Hnames. rewrite (row_ok_ext _ _ _ Hcols). unfold row_ok.
  apply andb_true_iff. split.
  - apply bool_decide_eq_true. unfold inserted.
    rewrite dom_list_to_map_L, <- list_fmap_compose. done.
  - apply forallb_forall. intros c Hc.
    destruct (col_primary_key c) eqn:Hpk; [|done]. simpl.
    by rewrite (inserted_lookup now t vals c Hnames Hc Hpk).
Qed.

Lemma insert_well_formed (now : Z) (t t' : table) (vals : list (string * value))
    (k : Z) :
  NoDup (col_name <$> tbl_columns t) ->
  well_formed t = true ->
  insert now t vals = inr (k, t') ->
  tbl_columns t' = tbl_columns t /\ well_formed t' = true.
Proof.
  intros Hnames Hwf (-> & _ & _)%insert_inr. split; [done|].
  unfold well_formed in *. simpl. rewrite forallb_app. simpl.
  rewrite (inserted_ok now t _ vals) by done. rewrite andb_true_r.
  rewrite <- Hwf. apply forallb_same. intros r. by apply row_ok_ext.
Qed.

Lemma guarded_invariant (h : option string) (now : Z)
    (handler : claims -> database -> response * database) (db : database) :
  (forall user, invariant db -> invariant (handler user db).2) ->
  invariant db -> invariant (guarded JWT_SECRET h now handler db).2.
Proof. unfold guarded. intros Hh Hdb. case_match; simpl; auto. Qed.

Lemma register_invariant (body : row) (salt : string) (now : Z) (db : database) :
  invariant db -> invariant (register JWT_SECRET body salt now db).2.
Proof.
  intros Hdb. unfold register.
  repeat (case_match; simpl; try done).
  destruct Hdb as [Hu Hd Hs Hwf Hids Hdev].
  match goal with H : insert _ _ _ = inr _ |- _ =>
    apply insert_well_formed in H as [Hcols Hwf'];
      [|rewrite Hu; computed|done]
  end.
  split; simpl; try done. by rewrite Hcols.
Qed.

Lemma login_invariant (body : row) (now : Z) (db : database) :
  invariant db -> invariant (login JWT_SECRET body now db).2.
Proof. intros Hdb. by rewrite (login_writes_nothing _ _ (inv_users _ Hdb)). Qed.

Lemma add_device_invariant (body : row) (now : Z) (user : claims)
    (db : database) :
  invariant db -> invariant (add_device body now user db).2.
Proof.
  intros Hdb. unfold add_device.
  repeat (case_match; simpl; try done).
  destruct Hdb as [Hu Hd Hs Hwf Hids Hdev].
  match goal with H : insert _ _ ?vals = inr _ |- _ =>
    set (given := vals) in *; apply insert_inr in H as (-> & Hnn & Huq)
  end.
  assert (NoDup (col_name <$> tbl_columns (devices db))) as Hnames
    by (rewrite Hd; computed).
  split; simpl; try done.
  - apply NoDup_fmap_snoc; [done|].
    pose proof (inserted_lookup now (devices db) given
                  (PRIMARY_KEY_AUTOINCREMENT (col "id" INTEGER)) Hnames) as Hl.
    cbn [col_name PRIMARY_KEY_AUTOINCREMENT col] in Hl.
    rewrite Hl; [|rewrite Hd; by left|done].
    apply (not_taken _ "id"),
      (next_rowid_fresh _ (PRIMARY_KEY_AUTOINCREMENT (col "id" INTEGER))).
    by rewrite Hd.
  - apply NoDup_fmap_snoc; [done|]. apply not_taken.
    set (c := NOT_NULL (UNIQUE (col "device_id" TEXT))).
    assert (In c (tbl_columns (devices db))) as Hc
      by (rewrite Hd; right; right; right; right; by left).
    unfold not_null_violation in Hnn. unfold unique_violation in Huq.
    apply fmap_None in Hnn, Huq.
    pose proof (find_none _ _ Hnn c Hc) as Hn.
    pose proof (find_none _ _ Huq c Hc) as Hq.
    cbv beta in Hn, Hq.
    assert (bool_decide (col_name c ∈ col_name <$> tbl_columns (devices db)) = true)
      as Hmem by (by rewrite Hd).
    rewrite Hmem in Hn, Hq. subst c. simpl in Hn, Hq.
    rewrite Hn in Hq. simpl in Hq. by rewrite orb_false_r in Hq.
Qed.

Lemma delete_device_invariant (deviceId : string) (user : claims)
    (db : database) :
  invariant db -> invariant (delete_device deviceId user db).2.
Proof.
  intros Hdb. unfold delete_device.
  destruct (delete _ _) as [e|[k t']] eqn:Hdel; [done|].
  apply delete_inr in Hdel as ->.
  destruct Hdb as [Hu Hd Hs Hwf Hids Hdev].
  case_match; split; simpl; try done; by apply NoDup_fmap_filter.
Qed.

Lemma generate_data_invariant (deviceId temperature humidity pressure : string)
    (now : Z) (user : claims) (db : database) :
  invariant db ->
  invariant (generate_data deviceId temperature humidity pressure now user db).2.
Proof.
  intros Hdb. unfold generate_data.
  destruct (insert _ _ _) as [e|[k t']] eqn:Hins; [done|].
  apply insert_inr in Hins as (-> & _ & _).
  by destruct Hdb.
Qed.

Lemma handle_invariant (req : request) (now : Z) (db : database) :
  invariant db -> invariant (handle JWT_SECRET req now db).2.
Proof.
  intros Hdb. destruct req; simpl.
  - by apply register_invariant.
  - by apply login_invariant.
  - apply guarded_invariant; [|done]. intros user _. unfold me.
    by repeat case_match.
  - apply guarded_invariant; [|done]. intros user _. unfold get_devices.
    by repeat case_match.
  - apply guarded_invariant; [|done]. intros user _. by apply add_device_invariant.
  - apply guarded_invariant; [|done]. intros user _.
    by apply delete_device_invariant.
  - apply guarded_invariant; [|done]. intros user _. unfold get_sensor_data.
    by repeat case_match.
  - apply guarded_invariant; [|done]. intros user _.
    by apply generate_data_invariant.
Qed.

Lemma invariant_fresh : invariant fresh_db.
Proof. split; try done; simpl; apply NoDup_nil_2. Qed.

(** Every database the server reaches has the tables of the source, with
    well-formed accounts and unique rowids and device identifiers: the
    assumptions the statements above make about the database. *)
Lemma reachable_invariant (db : database) :
  reachable JWT_SECRET db -> invariant db.
Proof.
  induction 1 as [|db req now _ IH]; [apply invariant_fresh|].
  by apply handle_invariant.
Qed.

(** No account of a database the server reaches is ever [LOCKED]: every one
    is [ACTIVE 0], whatever logins came before. *)
Lemma reachable_accounts_active_0 (db : database) (email : string)
    (state : account_state) :
  reachable JWT_SECRET db ->
  account_state_of db email = Some state ->
  state = ACTIVE (VNum 0).
Proof.
  intros [Hu _ _ Hwf _ _]%reachable_invariant Hstate.
  unfold account_state_of in Hstate.
  destruct (select_get _ _) as [e|[user|]] eqn:Hget; try done.
  pose proof (account_active_0 db Hu Hwf email user Hget) as H0.
  unfold account_state_of in H0. rewrite Hget in H0. congruence.
Qed.

End Preservation.

(** * Further properties of the handlers *)

(** ** The guard in front of every device and sensor route *)

Section GuardedRoutes.
Context `{P : Platform}.
Variable JWT_SECRET : string.

Lemma handle_guarded (req : request) (h : option string) (now : Z)
    (db : database) (r : response) :
  guarded_header req = Some h ->
  authenticateToken JWT_SECRET h now = inl r ->
  handle JWT_SECRET req now db = (r, db).
Proof.
  intros Hreq Hrej.
  destruct req; simplify_eq/=; by apply guarded_rejected.
Qed.

(** X1. Every route other than register and login sits behind
    [authenticateToken]: a request to any of them that the guard rejects
    (no bearer token: 401; a token [jwt.verify] refuses: 403) gets the
    guard's answer, and the database is left as it was. *)
Theorem guarded_routes_reject (req : request) (h : option string) (now : Z)
    (db : database) :
  guarded_header req = Some h ->
  (bearer h = None \/ bearer h = Some "" ->
   handle JWT_SECRET req now db = (token_required, db))
  /\ (forall token e,
        bearer h = Some token -> token <> "" ->
        jwt_verify token JWT_SECRET now = inl e ->
        handle JWT_SECRET req now db = (token_refused, db)).
Proof.
  intros Hreq. split.
  - intros Hb. apply (handle_guarded req h); [done|].
    by apply guard_without_token.
  - intros token e Hb Hne Hv. apply (handle_guarded req h); [done|].
    by rewrite (guard_with_token _ _ token), Hv.
Qed.

(** *** How the header is read *)

Lemma split_after_word (w s : string) :
  spaceless w = true ->
  JS.split " " (w +:+ " " +:+ s) = w :: JS.split " " s.
Proof.
  induction w as [|c w IH]; intros Hw.
  - done.
  - simpl in Hw. apply andb_true_iff in Hw as [Hc Hw].
    apply negb_true_iff in Hc.
    change (String c w +:+ " " +:+ s) with (String c (w +:+ " " +:+ s)).
    simpl. by rewrite Hc, (IH Hw).
Qed.

Lemma split_not_nil (sep : ascii) (s : string) : JS.split sep s <> [].
Proof.
  destruct s as [|c s]; simpl; [done|].
  case_bool_decide; [done|]. by destruct (JS.split sep s).
Qed.

(** X2. The guard never looks at the first word of the header: whatever
    word (without a space) stands before the first space, [Bearer] or not,
    the token is what stands between the first space and the next, and the
    guard's answer is the same as for [Bearer]. *)
Theorem scheme_not_checked (scheme rest : string) (now : Z) :
  spaceless scheme = true ->
  bearer (Some (scheme +:+ " " +:+ rest)) = head (JS.split " " rest)
  /\ authenticateToken JWT_SECRET (Some (scheme +:+ " " +:+ rest)) now
     = authenticateToken JWT_SECRET (Some ("Bearer " +:+ rest)) now.
Proof.
  intros Hw.
  assert (forall w, spaceless w = true ->
            bearer (Some (w +:+ " " +:+ rest)) = head (JS.split " " rest)) as Hb.
  { intros w Hsp. unfold bearer.
    rewrite bool_decide_eq_false_2 by (by destruct w).
    rewrite (split_after_word _ _ Hsp). simpl.
    destruct (JS.split " " rest) eqn:E; [by apply split_not_nil in E|done]. }
  split; [by apply Hb|].
  unfold authenticateToken. rewrite (Hb scheme Hw).
  change ("Bearer " +:+ rest) with ("Bearer" +:+ " " +:+ rest).
  by rewrite (Hb "Bearer" eq_refl).
Qed.

End GuardedRoutes.

Lemma guarded_routes_reject_witness :
  handle (P := Sample.platform) Example.secret (DeleteDevice None "1") 40
    Example.bob_has_dev_1
  = (token_required, Example.bob_has_dev_1)
  /\ handle (P := Sample.platform) Example.secret
       (PostGenerateData (GuardExample.authorization GuardExample.forged_token)
          "dev-1" "21.50" "45.00" "1000.00") 40 Example.bob_has_dev_1
     = (token_refused, Example.bob_has_dev_1).
Proof.
  split.
  - apply (guarded_routes_reject (P := Sample.platform) Example.secret
             (DeleteDevice None "1") None 40 Example.bob_has_dev_1 eq_refl).
    by left.
  - apply (proj2 (guarded_routes_reject (P := Sample.platform) Example.secret
             (PostGenerateData (GuardExample.authorization GuardExample.forged_token)
                "dev-1" "21.50" "45.00" "1000.00")
             (GuardExample.authorization GuardExample.forged_token) 40
             Example.bob_has_dev_1 eq_refl)
             GuardExample.forged_token (JsonWebTokenError "invalid signature"));
      computed.
Defined.

Lemma scheme_not_checked_witness :
  authenticateToken (P := Sample.platform) Example.secret
    (Some ("Basic " +:+ GuardExample.alice_token)) 30
  = authenticateToken (P := Sample.platform) Example.secret
      (Some ("Bearer " +:+ GuardExample.alice_token)) 30.
Proof.
  apply (scheme_not_checked (P := Sample.platform) Example.secret "Basic"
           GuardExample.alice_token 30 eq_refl).
Defined.

(** ** Registration *)

Section EngineMore.
Context `{P : Platform}.
Import Sql.

Lemma taken_false (rows : list row) (c : string) (v : value) :
  v ∉ (fun r => prop r c) <$> rows -> taken rows c v = false.
Proof.
  intros Hv. unfold taken. apply not_true_iff_false.
  intros (r & Hin & Heq)%existsb_exists. apply Hv.
  apply bool_decide_eq_true in Heq. rewrite <- Heq.
  apply list_elem_of_fmap. exists r. split; [done|]. by apply list_elem_of_In.
Qed.

Lemma taken_true (rows : list row) (c : string) (v : value) :
  v ∈ (fun r => prop r c) <$> rows -> taken rows c v = true.
Proof.
  intros (r & -> & Hin)%list_elem_of_fmap. unfold taken.
  apply existsb_exists. exists r.
  split; [by apply list_elem_of_In|]. by apply bool_decide_eq_true.
Qed.

(** The message of a broken [UNIQUE] constraint is what the handlers look
    for. *)
Lemma unique_message (t c : string) :
  JS.includes "UNIQUE" (message (UniqueFailed t c)) = true.
Proof. reflexivity. Qed.

Lemma matches_text (t : table) (c s : string) (cl : column) (r : row) :
  find_column t c = Some cl -> col_affinity cl = TEXT ->
  matches t [(c, VStr s)] r = bool_decide (prop r c = VStr s).
Proof.
  intros Hc Ha. unfold matches. simpl. rewrite Hc, Ha, andb_true_r.
  unfold sql_eq. simpl. by destruct (prop r c).
Qed.

End EngineMore.

Section Registration.
Context `{P : Platform}.
Variable JWT_SECRET : string.
Variable db : database.
Hypothesis source_columns : Sql.tbl_columns (users db) = users_columns.

Variables (username email password salt : string) (now : Z).
Hypothesis username_given : username <> "".
Hypothesis email_given : email <> "".
Hypothesis password_given : password <> "".

Lemma register_inserts :
  register JWT_SECRET (registration username email password) salt now db
  = match Sql.insert now (users db)
            [("username", VStr username); ("email", VStr email);
             ("password", VStr (bcrypt_hash password salt))] with
    | inl err =>
        if JS.includes "UNIQUE" (Sql.message err) then
          (Response 409 (Error "Username or email already exists"), db)
        else (Response 500 (Error "Error creating user"), db)
    | inr (lastID, users') =>
        (Response 201
           (Session "User created successfully"
              (jwt_sign (Payload (VNum lastID) (VStr username)) JWT_SECRET
                        expiresIn_24h now)
              {[ "id" := VNum lastID; "username" := VStr username;
                 "email" := VStr email ]}),
         with_users db users')
    end.
Proof.
  unfold register, registration, prop. simplify_map_eq. unfold JS.not. simpl.
  by rewrite !bool_decide_eq_false_2.
Qed.

Lemma account_inserted :
  Sql.inserted now (users db)
    [("username", VStr username); ("email", VStr email);
     ("password", VStr (bcrypt_hash password salt))]
  = account_row db username email (bcrypt_hash password salt) now.
Proof.
  unfold Sql.inserted, account_row. rewrite source_columns.
  unfold users_columns. simpl. reflexivity.
Qed.

Lemma account_unique_violation :
  Sql.unique_violation (users db) (Sql.tbl_rows (users db)) 1
    (account_row db username email (bcrypt_hash password salt) now)
    (Sql.col_name <$> users_columns)
  = if Sql.taken (Sql.tbl_rows (users db)) "username" (VStr username)
    then Some (Sql.UniqueFailed (Sql.tbl_name (users db)) "username")
    else if Sql.taken (Sql.tbl_rows (users db)) "email" (VStr email)
         then Some (Sql.UniqueFailed (Sql.tbl_name (users db)) "email")
         else None.
Proof.
  unfold Sql.unique_violation. rewrite source_columns.
  pose proof (next_rowid_fresh (users db)
                (Sql.PRIMARY_KEY_AUTOINCREMENT (Sql.col "id" Sql.INTEGER))) as Hid.
  rewrite source_columns in Hid. specialize (Hid eq_refl).
  cbn [Sql.col_name Sql.PRIMARY_KEY_AUTOINCREMENT Sql.col] in Hid.
  set (tk := Sql.taken (Sql.tbl_rows (users db))) in *.
  assert (prop (account_row db username email (bcrypt_hash password salt) now) "id"
          = VNum (Sql.next_rowid (users db))) as Hpi by reflexivity.
  assert (prop (account_row db username email (bcrypt_hash password salt) now)
               "username" = VStr username) as Hpu by reflexivity.
  assert (prop (account_row db username email (bcrypt_hash password salt) now)
               "email" = VStr email) as Hpe by reflexivity.
  set (r := account_row _ _ _ _ _) in *.
  unfold users_columns. simpl. rewrite Hpi, Hpu, Hpe, Hid. simpl.
  rewrite !orb_false_r.
  by destruct (tk "username" (VStr username)), (tk "email" (VStr email)).
Qed.

(** What a registration with three non-empty strings is answered. *)
Lemma register_answer :
  register JWT_SECRET (registration username email password) salt now db
  = if Sql.taken (Sql.tbl_rows (users db)) "username" (VStr username)
       || Sql.taken (Sql.tbl_rows (users db)) "email" (VStr email)
    then (Response 409 (Error "Username or email already exists"), db)
    else
      (Response 201
         (Session "User created successfully"
            (jwt_sign (Payload (VNum (Sql.next_rowid (users db))) (VStr username))
                      JWT_SECRET expiresIn_24h now)
            {[ "id" := VNum (Sql.next_rowid (users db));
               "username" := VStr username; "email" := VStr email ]}),
       registered db username email (bcrypt_hash password salt) now).
Proof.
  rewrite register_inserts. unfold Sql.insert.
  assert (Sql.unknown_column (users db)
            [("username", VStr username); ("email", VStr email);
             ("password", VStr (bcrypt_hash password salt))].*1 = None) as ->.
  { unfold Sql.unknown_column, Sql.find_column. by rewrite source_columns. }
  rewrite account_inserted, source_columns.
  assert (Sql.not_null_violation (users db)
            (account_row db username email (bcrypt_hash password salt) now)
            (Sql.col_name <$> users_columns) = None) as ->.
  { unfold Sql.not_null_violation. by rewrite source_columns. }
  rewrite account_unique_violation.
  destruct (Sql.taken _ "username" _); [done|].
  destruct (Sql.taken _ "email" _); [done|].
  unfold registered. by rewrite source_columns.
Qed.

(** X3. A registration whose username or whose email an account already
    has is answered 409 "Username or email already exists", and nothing is
    stored. *)
Theorem register_conflict :
  VStr username ∈ account_values "username" db
  \/ VStr email ∈ account_values "email" db ->
  register JWT_SECRET (registration username email password) salt now db
  = (Response 409 (Error "Username or email already exists"), db).
Proof.
  intros Htaken. rewrite register_answer.
  destruct Htaken as [H|H]; apply taken_true in H; rewrite H; [done|].
  by rewrite orb_true_r.
Qed.

Hypothesis rows_ok : well_formed (users db) = true.
Hypothesis username_free : VStr username ∉ account_values "username" db.
Hypothesis email_free : VStr email ∉ account_values "email" db.

Lemma register_created :
  register JWT_SECRET (registration username email password) salt now db
  = (Response 201
       (Session "User created successfully"
          (jwt_sign (Payload (VNum (Sql.next_rowid (users db))) (VStr username))
                    JWT_SECRET expiresIn_24h now)
          {[ "id" := VNum (Sql.next_rowid (users db));
             "username" := VStr username; "email" := VStr email ]}),
     registered db username email (bcrypt_hash password salt) now).
Proof.
  rewrite register_answer.
  by rewrite (taken_false _ _ _ username_free), (taken_false _ _ _ email_free).
Qed.

Lemma registered_columns (hash : string) :
  Sql.tbl_columns (users (registered db username email hash now)) = users_columns.
Proof. by rewrite <- source_columns. Qed.

Lemma registered_well_formed :
  well_formed (users (registered db username email (bcrypt_hash password salt) now))
  = true.
Proof.
  unfold well_formed, registered. cbn [users with_users Sql.tbl_rows].
  rewrite forallb_app. apply andb_true_iff. split.
  - rewrite <- rows_ok. apply forallb_same. intros r. by apply row_ok_ext.
  - cbn [forallb]. rewrite andb_true_r. rewrite <- account_inserted.
    apply inserted_ok; [done|]. rewrite source_columns. computed.
Qed.

Lemma registered_account (hash : string) :
  Sql.select_get (users (registered db username email hash now))
    [("email", VStr email)]
  = inr (Some (account_row db username email hash now)).
Proof.
  assert (Sql.find_column (users (registered db username email hash now)) "email"
          = Some (Sql.NOT_NULL (Sql.UNIQUE (Sql.col "email" Sql.TEXT)))) as Hc.
  { unfold Sql.find_column. by rewrite registered_columns. }
  rewrite select_get_known.
  - set (t := users (registered db username email hash now)) in *.
    change (Sql.tbl_rows t)
      with (Sql.tbl_rows (users db)
            ++ [account_row db username email hash now])%list.
    rewrite List.filter_app, filter_none.
    + cbn [app List.filter].
      by rewrite (matches_text _ _ _ _ _ Hc eq_refl), bool_decide_eq_true_2.
    + intros r Hr. rewrite (matches_text _ _ _ _ _ Hc eq_refl).
      apply bool_decide_eq_false_2. intros Heq. apply email_free.
      unfold account_values. rewrite <- Heq.
      apply list_elem_of_fmap. exists r. split; [done|]. by apply list_elem_of_In.
  - unfold Sql.unknown_column.
    change ([("email", VStr email)].*1) with ["email"].
    cbn [List.find]. by rewrite Hc.
Qed.

(** X4. Registration and login fit together: once a registration with a
    free username and a free email has been answered 201, a login with the
    same email and password is answered 200 for the same identity, provided
    [bcrypt.compare] accepts the hash [bcrypt.hash] made of that password. *)
Theorem register_then_login (later : Z) :
  bcrypt_compare password (bcrypt_hash password salt) = true ->
  let created :=
    register JWT_SECRET (registration username email password) salt now db in
  let identity : row :=
    {[ "id" := VNum (Sql.next_rowid (users db));
       "username" := VStr username; "email" := VStr email ]} in
  created.1
  = Response 201
      (Session "User created successfully"
         (jwt_sign (Payload (VNum (Sql.next_rowid (users db))) (VStr username))
                   JWT_SECRET expiresIn_24h now)
         identity)
  /\ login JWT_SECRET (credentials email password) later created.2
     = (Response 200
          (Session "Login successful"
             (jwt_sign (Payload (VNum (Sql.next_rowid (users db))) (VStr username))
                       JWT_SECRET expiresIn_24h later)
             identity),
        created.2).
Proof.
  intros Hok. simpl. rewrite register_created. split; [done|].
  cbn [snd].
  rewrite (right_password_answer JWT_SECRET _
             (registered_columns _) registered_well_formed
             email password
             (account_row db username email (bcrypt_hash password salt) now)
             (bcrypt_hash password salt) email_given password_given
             (registered_account _) eq_refl Hok).
  reflexivity.
Qed.

End Registration.

Lemma register_conflict_witness :
  register (P := Sample.platform) Example.secret
    (registration "alice" "other@example.org" "P9") "salt" 20
    Example.alice_registered
  = (Response 409 (Error "Username or email already exists"),
     Example.alice_registered).
Proof.
  apply (register_conflict (P := Sample.platform)); [computed|done|done|done|].
  left. computed.
Defined.

Lemma register_then_login_witness :
  let created :=
    register (P := Sample.platform) Example.secret
      (registration "bob" "bob@example.org" "P2") "salt" 20
      Example.alice_registered in
  status created.1 = 201
  /\ status (login (P := Sample.platform) Example.secret
               (credentials "bob@example.org" "P2") 30 created.2).1 = 200.
Proof.
  destruct (register_then_login (P := Sample.platform) Example.secret
              Example.alice_registered ltac:(computed)
              "bob" "bob@example.org" "P2" "salt" 20
              ltac:(done) ltac:(done) ltac:(done)
              ltac:(computed) ltac:(computed) ltac:(computed) 30
              ltac:(computed)) as [Hcreated Hlogin].
  cbv zeta. split.
  - exact (f_equal status Hcreated).
  - exact (f_equal (fun answer => status answer.1) Hlogin).
Defined.

(** ** What the tables keep *)

(** ** The token of a session, from issue to verification *)

Section SessionTokens.
Context `{P : Platform}.
Variable JWT_SECRET : string.
Hypothesis round_trip : jwt_round_trip P.
Hypothesis compact : jwt_compact P.

Lemma signed_token_verifies (i : Z) (u : string) (issued : Z) :
  verifies_until_expiry JWT_SECRET
    (jwt_sign (Payload (VNum i) (VStr u)) JWT_SECRET expiresIn_24h issued)
    i u issued.
Proof.
  intros now. apply (signed_token_round_trip JWT_SECRET round_trip compact).
Qed.

(** C7. Issue and verify, as the handlers do them. A login with the email
    and the password of an account that is not locked is answered 200 with a
    token, and a registration with a free username and a free email is
    answered 201 with a token; the token is issued for the identity of the
    account (its id and username). Sent back as a bearer token, it makes the
    guard hand that same identity to the route as long as less than 24 hours
    have passed since it was issued; from then on [jwt.verify] reports it
    expired and the guard refuses it. *)
Theorem session_token_round_trip (db : database) (issued : Z) :
  (forall (email password hash : string) (user : row) (i : Z) (u : string),
     email <> "" -> password <> "" ->
     Sql.select_get (users db) [("email", VStr email)] = inr (Some user) ->
     JS.strict_eq (prop user "is_locked") (VNum 1) = false ->
     prop user "password" = VStr hash ->
     bcrypt_compare password hash = true ->
     prop user "id" = VNum i ->
     prop user "username" = VStr u ->
     exists token,
       (login JWT_SECRET (credentials email password) issued db).1
       = Response 200 (Session "Login successful" token (public_user user))
       /\ verifies_until_expiry JWT_SECRET token i u issued)
  /\ (forall username email password salt : string,
        Sql.tbl_columns (users db) = users_columns ->
        username <> "" -> email <> "" -> password <> "" ->
        VStr username ∉ account_values "username" db ->
        VStr email ∉ account_values "email" db ->
        exists token,
          (register JWT_SECRET (registration username email password) salt
             issued db).1
          = Response 201
              (Session "User created successfully" token
                 {[ "id" := VNum (Sql.next_rowid (users db));
                    "username" := VStr username; "email" := VStr email ]})
          /\ verifies_until_expiry JWT_SECRET token
               (Sql.next_rowid (users db)) username issued).
Proof.
  split.
  - intros email password hash user i u Hemail Hpassword Hacc Hopen Hhash Hok
      Hid Hname.
    exists (jwt_sign (Payload (VNum i) (VStr u)) JWT_SECRET expiresIn_24h issued).
    split; [|apply signed_token_verifies].
    rewrite (login_unlocked _ _ _ _ user) with (valid := true).
    + change (negb true) with false. cbv iota. cbn [fst].
      unfold public_user. by rewrite Hid, Hname.
    + rewrite credentials_email. by apply truthy_string.
    + rewrite credentials_password. by apply truthy_string.
    + by rewrite credentials_email.
    + done.
    + rewrite credentials_password, Hhash. simpl. by rewrite Hok.
  - intros username email password salt Hcols Hu He Hp Hufree Hefree.
    exists (jwt_sign (Payload (VNum (Sql.next_rowid (users db))) (VStr username))
              JWT_SECRET expiresIn_24h issued).
    split; [|apply signed_token_verifies].
    by rewrite (register_created JWT_SECRET db Hcols username email password
                  salt issued Hu He Hp Hufree Hefree).
Qed.

End SessionTokens.

Lemma session_token_round_trip_witness :
  (exists token,
     (login (P := Sample.platform) Example.secret
        (credentials "alice@example.org" "P1") 20 Example.alice_registered).1
     = Response 200
         (Session "Login successful" token
            (public_user (Example.first_account Example.alice_registered)))
     /\ authenticateToken (P := Sample.platform) Example.secret
          (Some ("Bearer " +:+ token)) 86419
        = inr (Claims (VNum 1) (VStr "alice") 20 86420)
     /\ authenticateToken (P := Sample.platform) Example.secret
          (Some ("Bearer " +:+ token)) 86420
        = inl token_refused)
  /\ Sql.next_rowid (users Example.alice_registered) = 2
  /\ (exists token,
        (register (P := Sample.platform) Example.secret
           (registration "bob" "bob@example.org" "P2") "salt" 20
           Example.alice_registered).1
        = Response 201
            (Session "User created successfully" token
               {[ "id" := VNum (Sql.next_rowid (users Example.alice_registered));
                  "username" := VStr "bob";
                  "email" := VStr "bob@example.org" ]})
        /\ authenticateToken (P := Sample.platform) Example.secret
             (Some ("Bearer " +:+ token)) 86419
           = inr (Claims (VNum (Sql.next_rowid (users Example.alice_registered)))
                         (VStr "bob") 20 86420)
        /\ authenticateToken (P := Sample.platform) Example.secret
             (Some ("Bearer " +:+ token)) 86420
           = inl token_refused).
Proof.
  destruct (session_token_round_trip (P := Sample.platform) Example.secret
              sample_round_trip sample_compact Example.alice_registered 20)
    as [Hlogin Hregister].
  split; [|split].
  - destruct (Hlogin "alice@example.org" "P1"
                (bcrypt_hash (Platform := Sample.platform) "P1" "salt")
                (Example.first_account Example.alice_registered) 1 "alice")
      as (token & Hanswer & Hverify);
      [done|done|computed|computed|computed|computed|computed|computed|].
    exists token. split; [exact Hanswer|]. split.
    + apply (proj1 (Hverify 86419)). lia.
    + apply (proj2 (Hverify 86420)). lia.
  - computed.
  - destruct (Hregister "bob" "bob@example.org" "P2" "salt")
      as (token & Hanswer & Hverify);
      [computed|done|done|done|computed|computed|].
    exists token. split; [exact Hanswer|]. split.
    + apply (proj1 (Hverify 86419)). lia.
    + apply (proj2 (Hverify 86420)). lia.
Defined.

Section UniqueColumns.
Context `{P : Platform}.
Import Sql.

(** An [INSERT] that goes through keeps a [NOT NULL UNIQUE] column free of
    duplicates. *)
Lemma insert_keeps_unique (now : Z) (t t' : table) (vals : list (string * value))
    (k : Z) (cl : column) :
  insert now t vals = inr (k, t') ->
  In cl (tbl_columns t) -> col_unique cl = true -> col_not_null cl = true ->
  NoDup ((fun r => prop r (col_name cl)) <$> tbl_rows t) ->
  NoDup ((fun r => prop r (col_name cl)) <$> tbl_rows t').
Proof.
  intros (-> & Hnn & Huq)%insert_inr Hcl Hu Hn Hrows. simpl.
  apply NoDup_fmap_snoc; [done|]. apply not_taken.
  unfold not_null_violation in Hnn. unfold unique_violation in Huq.
  apply fmap_None in Hnn, Huq.
  pose proof (find_none _ _ Hnn cl Hcl) as Hnull.
  pose proof (find_none _ _ Huq cl Hcl) as Hfree.
  cbv beta in Hnull, Hfree.
  assert (bool_decide (col_name cl ∈ col_name <$> tbl_columns t) = true) as Hmem.
  { apply bool_decide_eq_true, list_elem_of_fmap. exists cl.
    split; [done|]. by apply list_elem_of_In. }
  rewrite Hmem, Hn in Hnull. rewrite Hmem, Hu in Hfree. simpl in Hnull, Hfree.
  rewrite Hnull in Hfree. simpl in Hfree. by rewrite orb_false_r in Hfree.
Qed.

(** And it keeps the primary key free of duplicates. *)
Lemma insert_keeps_rowids (now : Z) (t t' : table) (vals : list (string * value))
    (k : Z) (key : column) :
  insert now t vals = inr (k, t') ->
  NoDup (col_name <$> tbl_columns t) ->
  List.find col_primary_key (tbl_columns t) = Some key ->
  NoDup ((fun r => prop r (col_name key)) <$> tbl_rows t) ->
  NoDup ((fun r => prop r (col_name key)) <$> tbl_rows t').
Proof.
  intros (-> & _ & _)%insert_inr Hnames Hkey Hrows. simpl.
  destruct (find_some _ _ Hkey) as [Hin Hpk].
  apply NoDup_fmap_snoc; [done|].
  rewrite (inserted_lookup now t vals key Hnames Hin Hpk).
  by apply not_taken, next_rowid_fresh.
Qed.

End UniqueColumns.

Section AccountsUnique.
Context `{P : Platform}.
Variable JWT_SECRET : string.

Lemma guarded_users (h : option string) (now : Z)
    (handler : claims -> database -> response * database) (db : database) :
  (forall user, users (handler user db).2 = users db) ->
  users (guarded JWT_SECRET h now handler db).2 = users db.
Proof. unfold guarded. intros Hh. by case_match. Qed.

(** The routes behind the guard never write the users table. *)
Lemma guarded_route_users (req : request) (h : option string) (now : Z)
    (db : database) :
  guarded_header req = Some h ->
  users (handle JWT_SECRET req now db).2 = users db.
Proof.
  intros Hreq. destruct req; simplify_eq/=; apply guarded_users; intros user.
  - unfold me. by repeat case_match.
  - unfold get_devices. by repeat case_match.
  - unfold add_device. by repeat case_match.
  - unfold delete_device. by repeat case_match.
  - unfold get_sensor_data. by repeat case_match.
  - unfold generate_data. by repeat case_match.
Qed.

Lemma register_accounts_unique (body : row) (salt : string) (now : Z)
    (db : database) (c : Sql.column) :
  Sql.tbl_columns (users db) = users_columns ->
  In c users_columns ->
  Sql.col_primary_key c = true
  \/ (Sql.col_unique c = true /\ Sql.col_not_null c = true) ->
  NoDup (account_values (Sql.col_name c) db) ->
  NoDup (account_values (Sql.col_name c)
           (register JWT_SECRET body salt now db).2).
Proof.
  intros Hcols Hc Hkind Hrows. unfold register.
  repeat (case_match; simpl; try done).
  unfold account_values in *. cbn [users with_users].
  match goal with H : Sql.insert _ _ _ = inr _ |- _ => rename H into Hins end.
  destruct Hkind as [Hpk|[Hu Hn]].
  - apply (insert_keeps_rowids _ _ _ _ _ c Hins); [rewrite Hcols; computed| |done].
    rewrite Hcols. revert Hpk. simpl in Hc.
    repeat (destruct Hc as [<-|Hc]; [done|]). done.
  - apply (insert_keeps_unique _ _ _ _ _ c Hins); [by rewrite Hcols|done..].
Qed.

Lemma accounts_unique (db : database) :
  reachable JWT_SECRET db ->
  NoDup (account_values "id" db)
  /\ NoDup (account_values "username" db)
  /\ NoDup (account_values "email" db).
Proof.
  induction 1 as [|db req now Hreach (Hid & Hname & Hmail)].
  - repeat split; apply NoDup_nil_2.
  - pose proof (inv_users _ (reachable_invariant _ _ Hreach)) as Hcols.
    destruct (guarded_header req) as [h|] eqn:Hreq.
    + unfold account_values in *.
      by rewrite (guarded_route_users req h now db Hreq).
    + destruct req; simplify_eq/=.
      * split; [|split].
        -- apply (register_accounts_unique _ _ _ _
                    (Sql.PRIMARY_KEY_AUTOINCREMENT (Sql.col "id" Sql.INTEGER)));
             [done|by left|by left|done].
        -- apply (register_accounts_unique _ _ _ _
                    (Sql.NOT_NULL (Sql.UNIQUE (Sql.col "username" Sql.TEXT))));
             [done|right; by left|by right|done].
        -- apply (register_accounts_unique _ _ _ _
                    (Sql.NOT_NULL (Sql.UNIQUE (Sql.col "email" Sql.TEXT))));
             [done|right; right; by left|by right|done].
      * by rewrite (login_writes_nothing _ _ Hcols).
Qed.

(** X5. In every database the server reaches, no two accounts share an id,
    a username or an email. *)
Theorem reachable_accounts_unique (db : database) :
  reachable JWT_SECRET db ->
  NoDup (account_values "id" db)
  /\ NoDup (account_values "username" db)
  /\ NoDup (account_values "email" db).
Proof. apply accounts_unique. Qed.

End AccountsUnique.

Lemma reachable_accounts_unique_witness :
  NoDup (account_values "id"
           (handle (P := Sample.platform) Example.secret
              (PostRegister Example.bob "salt") 20 Example.alice_registered).2)
  /\ NoDup (account_values "username"
              (handle (P := Sample.platform) Example.secret
                 (PostRegister Example.bob "salt") 20 Example.alice_registered).2)
  /\ NoDup (account_values "email"
              (handle (P := Sample.platform) Example.secret
                 (PostRegister Example.bob "salt") 20 Example.alice_registered).2).
Proof.
  apply (reachable_accounts_unique (P := Sample.platform) Example.secret).
  apply reachable_step.
  apply (reachable_step (P := Sample.platform) Example.secret fresh_db
           (PostRegister Example.alice "salt") 10).
  apply reachable_fresh.
Defined.

(** ** What the routes write and what they send back *)

Section RouteFrames.
Context `{P : Platform}.
Variable JWT_SECRET : string.

Lemma guarded_frame {A} (f : database -> A) (h : option string) (now : Z)
    (handler : claims -> database -> response * database) (db : database) :
  (forall user, f (handler user db).2 = f db) ->
  f (guarded JWT_SECRET h now handler db).2 = f db.
Proof. unfold guarded. intros Hh. by case_match. Qed.

(** X6. Each route writes one table at most: register and login leave the
    devices and the readings alone, adding and deleting a device leave the
    accounts and the readings alone (the readings of a deleted device stay
    stored), generating data leaves the accounts and the devices alone, and
    the three reading routes change nothing. *)
Theorem routes_write_one_table (req : request) (now : Z) (db : database) :
  let db' := (handle JWT_SECRET req now db).2 in
  match req with
  | PostRegister _ _ | PostLogin _ =>
      devices db' = devices db /\ sensor_data db' = sensor_data db
  | PostDevice _ _ | DeleteDevice _ _ =>
      users db' = users db /\ sensor_data db' = sensor_data db
  | PostGenerateData _ _ _ _ _ =>
      users db' = users db /\ devices db' = devices db
  | GetMe _ | GetDevices _ | GetSensorData _ _ _ => db' = db
  end.
Proof.
  destruct req; simpl.
  - unfold register. split; by repeat case_match.
  - unfold login. split; by repeat case_match.
  - apply (guarded_frame (fun d => d)). intros user. unfold me. by repeat case_match.
  - apply (guarded_frame (fun d => d)). intros user. unfold get_devices.
    by repeat case_match.
  - split; apply guarded_frame; intros user; unfold add_device;
      by repeat case_match.
  - split; apply guarded_frame; intros user; unfold delete_device;
      by repeat case_match.
  - apply (guarded_frame (fun d => d)). intros user. unfold get_sensor_data.
    by repeat case_match.
  - split; apply guarded_frame; intros user; unfold generate_data;
      by repeat case_match.
Qed.

Lemma public_user_keys (account : row) :
  dom (public_user account) = {[ "id"; "username"; "email" ]}.
Proof. unfold public_user. rewrite !dom_insert_L, dom_singleton_L. set_solver. Qed.

Lemma me_found (user : claims) (db : database) (r : row) :
  (me user db).1 = Response 200 (Row (Some r)) ->
  exists account, account ∈ Sql.tbl_rows (users db) /\ r = public_user account.
Proof.
  unfold me, SqlOrder.select_get_columns. intros H.
  repeat case_match; simplify_eq/=.
  match goal with H : _ <$> head _ = Some _ |- _ =>
    apply fmap_Some in H as (account & Hhead & ->) end.
  exists account. split; [|done].
  apply head_filter_Some in Hhead as [Hin _]. by apply list_elem_of_In.
Qed.

Lemma login_found (body : row) (now : Z) (db db' : database) (status : Z)
    (message token : string) (u : row) :
  login JWT_SECRET body now db = (Response status (Session message token u), db') ->
  exists account,
    Sql.select_get (users db) [("email", prop body "email")] = inr (Some account)
    /\ u = public_user account.
Proof.
  unfold login. intros H. repeat (case_match; try done). simplify_eq.
  eauto.
Qed.

Lemma guarded_cases (h : option string) (now : Z)
    (handler : claims -> database -> response * database) (db : database) :
  (exists status message,
     (guarded JWT_SECRET h now handler db).1 = Response status (Error message))
  \/ exists user, guarded JWT_SECRET h now handler db = handler user db.
Proof.
  unfold guarded.
  destruct (authenticateToken JWT_SECRET h now) as [r|user] eqn:Hguard.
  - left. unfold authenticateToken in Hguard.
    repeat case_match; simplify_eq; eauto.
  - right. eauto.
Qed.

Ltac guarded_route H user :=
  match type of H with
  | context [guarded ?s ?h ?now ?handler ?db] =>
      destruct (guarded_cases h now handler db)
        as [(? & ? & Hrefused)|[user Hhandled]];
      [by rewrite Hrefused in H|rewrite Hhandled in H]
  end.

(** X7. The accounts the server sends back never carry the password or its
    hash: whenever a route answers with a session (register, login) or with
    an account ([GET /api/auth/me]), the document has the keys [id],
    [username] and [email] and no other. *)
Theorem password_never_sent (req : request) (now : Z) (db : database)
    (u : row) :
  (exists message token,
     json (handle JWT_SECRET req now db).1 = Session message token u)
  \/ json (handle JWT_SECRET req now db).1 = Row (Some u) ->
  dom u = {[ "id"; "username"; "email" ]} /\ prop u "password" = VUndefined.
Proof.
  intros Hsent.
  assert (dom u = {[ "id"; "username"; "email" ]}) as Hdom.
  { destruct Hsent as [(message & token & H)|H]; destruct req; simpl in H;
      try guarded_route H user.
    all: try (unfold register in H; repeat (case_match; simplify_eq/=; try done);
              rewrite !dom_insert_L, dom_singleton_L; set_solver).
    all: try (unfold login in H; repeat (case_match; simplify_eq/=; try done);
              rewrite !dom_insert_L, dom_singleton_L; set_solver).
    all: try (unfold me, SqlOrder.select_get_columns in H;
              repeat (case_match; simplify_eq/=; try done)).
    all: try (unfold get_devices in H; by repeat (case_match; simplify_eq/=)).
    all: try (unfold add_device in H; by repeat (case_match; simplify_eq/=)).
    all: try (unfold delete_device in H; by repeat (case_match; simplify_eq/=)).
    all: try (unfold get_sensor_data in H; by repeat (case_match; simplify_eq/=)).
    all: try (unfold generate_data in H; by repeat (case_match; simplify_eq/=)).
    match goal with H : _ <$> head _ = Some _ |- _ =>
      apply fmap_Some in H as (account & _ & ->) end.
    rewrite !dom_insert_L, dom_empty_L. set_solver. }
  split; [done|].
  unfold prop. rewrite (proj1 (not_elem_of_dom u "password")); [done|].
  rewrite Hdom. apply (bool_decide_unpack _). by vm_compute.
Qed.

End RouteFrames.

Lemma password_never_sent_witness :
  dom (public_user (Example.first_account Example.alice_registered))
  = {[ "id"; "username"; "email" ]}
  /\ prop (public_user (Example.first_account Example.alice_registered))
        "password" = VUndefined.
Proof.
  apply (password_never_sent (P := Sample.platform) Example.secret
           (GetMe (GuardExample.authorization GuardExample.alice_token)) 30
           Example.alice_registered).
  right. computed.
Defined.

(** ** A session, from login to [GET /api/auth/me] *)

Section Session.
Context `{P : Platform}.
Variable JWT_SECRET : string.
Hypothesis round_trip : jwt_round_trip P.
Hypothesis compact : jwt_compact P.

Lemma head_filter_unique {A B} `{EqDecision B} (f : A -> B) (l : list A) (x : A) :
  NoDup (f <$> l) -> x ∈ l ->
  head (List.filter (fun r => bool_decide (f r = f x)) l) = Some x.
Proof.
  induction l as [|a l IH]; csimpl; [by intros _ ?%elem_of_nil|].
  intros [Hfresh Hrest]%NoDup_cons [->|Hin]%elem_of_cons.
  - by rewrite bool_decide_eq_true_2.
  - rewrite bool_decide_eq_false_2; [by apply IH|].
    intros Heq. apply Hfresh. rewrite Heq. by apply list_elem_of_fmap_2.
Qed.

Lemma me_source (user : claims) (i : Z) (db : database) :
  Sql.tbl_columns (users db) = users_columns -> id user = VNum i ->
  me user db
  = (Response 200
       (Row (public_user
               <$> head (List.filter (fun r => bool_decide (prop r "id" = VNum i))
                           (Sql.tbl_rows (users db))))),
     db).
Proof.
  intros Hcols Hid.
  unfold me, SqlOrder.select_get_columns, Sql.unknown_column, Sql.find_column.
  rewrite Hcols, Hid. simpl.
  rewrite (List.filter_ext _ (fun r => bool_decide (prop r "id" = VNum i))); [done|].
  intros r. unfold Sql.matches, Sql.find_column. rewrite Hcols. simpl.
  unfold Sql.sql_eq. simpl. rewrite andb_true_r. by destruct (prop r "id").
Qed.

(** X8. A session holds from login to [GET /api/auth/me]: in every database
    the server reaches, the token a login returned, sent back as
    [Authorization: Bearer <token>] less than 24 hours later, makes
    [GET /api/auth/me] answer 200 with exactly the user the login answered
    with.  ([jsonwebtoken] is assumed to verify what it signed; the username
    is a string.) *)
Theorem login_then_me (db db' : database) (body : row) (issued now : Z)
    (status : Z) (message token name : string) (u : row) :
  reachable JWT_SECRET db ->
  login JWT_SECRET body issued db
  = (Response status (Session message token u), db') ->
  prop u "username" = VStr name ->
  now < issued + 24 * 60 * 60 ->
  guarded JWT_SECRET (Some ("Bearer " +:+ token)) now me db'
  = (Response 200 (Row (Some u)), db').
Proof.
  intros Hreach Hlogin Hname Hnow.
  pose proof (reachable_invariant _ _ Hreach) as [Hcols _ _ Hwf _ _].
  destruct (accounts_unique _ _ Hreach) as [Hids _].
  pose proof (login_writes_nothing JWT_SECRET db Hcols body issued) as Hsame.
  rewrite Hlogin in Hsame. simpl in Hsame. subst db'.
  pose proof (login_session _ _ _ _ _ _ _ _ _ Hlogin) as Htoken.
  destruct (login_found _ _ _ _ _ _ _ _ _ Hlogin) as (account & Hget & Hu).
  apply select_get_Some in Hget as [Hin _].
  destruct (primary_key_num _ _
              (Sql.PRIMARY_KEY_AUTOINCREMENT (Sql.col "id" Sql.INTEGER)) Hwf Hin)
    as [i Hi]; [rewrite Hcols; by left|done|]. simpl in Hi.
  assert (prop u "id" = VNum i) as Hid by (by rewrite Hu).
  rewrite Hid, Hname in Htoken.
  destruct (signed_token_round_trip JWT_SECRET round_trip compact i name issued now)
    as [Hverified _].
  unfold guarded. rewrite Htoken, (Hverified Hnow).
  rewrite (me_source (Claims (VNum i) (VStr name) issued (issued + 24 * 60 * 60))
             i db Hcols eq_refl).
  rewrite <- Hi.
  rewrite (head_filter_unique (fun r => prop r "id")); [by rewrite Hu|done|].
  by apply list_elem_of_In.
Qed.

End Session.

Lemma login_then_me_witness :
  guarded (P := Sample.platform) Example.secret
    (GuardExample.authorization GuardExample.alice_token) 30
    (me (P := Sample.platform))
    Example.alice_registered
  = (Response 200
       (Row (Some (public_user (Example.first_account Example.alice_registered)))),
     Example.alice_registered).
Proof.
  apply (login_then_me (P := Sample.platform) Example.secret
           sample_round_trip sample_compact
           Example.alice_registered Example.alice_registered
           Example.alice_P1 20 30 200 "Login successful"
           GuardExample.alice_token "alice").
  - apply (reachable_step (P := Sample.platform) Example.secret fresh_db
             (PostRegister Example.alice "salt") 10).
    apply reachable_fresh.
  - computed.
  - computed.
  - done.
Defined.

(** ** The device routes *)

Section DeviceList.
Context `{P : Platform}.
Variable db : database.
Hypothesis source_columns : Sql.tbl_columns (devices db) = devices_columns.
Variables (user : claims) (i : Z).
Hypothesis requester : id user = VNum i.

Lemma matches_owner (t : Sql.table) (r : row) :
  Sql.tbl_columns t = devices_columns ->
  Sql.matches t [("user_id", VNum i)] r = bool_decide (prop r "user_id" = VNum i).
Proof.
  intros Hcols. unfold Sql.matches, Sql.find_column. rewrite Hcols. simpl.
  unfold Sql.sql_eq. simpl. rewrite andb_true_r. by destruct (prop r "user_id").
Qed.

Lemma get_devices_answer :
  get_devices user db = (Response 200 (Rows (own_devices i db)), db).
Proof.
  unfold get_devices, Sql.select_all, Sql.unknown_column, Sql.find_column.
  rewrite requester, source_columns. simpl. unfold own_devices.
  by rewrite (List.filter_ext _ _ (fun r => matches_owner (devices db) r source_columns)).
Qed.

(** X9. [GET /api/devices] answers 200 with the devices of the requester
    and no other: a device is listed exactly when it is stored with the
    requester's id as its [user_id]; nothing is written. *)
Theorem get_devices_own :
  exists listed,
    get_devices user db = (Response 200 (Rows listed), db)
    /\ forall d, d ∈ listed
                 <-> d ∈ Sql.tbl_rows (devices db) /\ prop d "user_id" = VNum i.
Proof.
  exists (own_devices i db). split; [apply get_devices_answer|].
  intros d. unfold own_devices. rewrite !list_elem_of_In, filter_In.
  by rewrite bool_decide_eq_true.
Qed.

End DeviceList.

Section Devices.
Context `{P : Platform}.
Variable db : database.
Hypothesis source_columns : Sql.tbl_columns (devices db) = devices_columns.
Variables (user : claims) (i : Z).
Hypothesis requester : id user = VNum i.

Variables (name kind deviceId : string) (now : Z).
Hypothesis name_given : name <> "".
Hypothesis kind_given : kind <> "".
Hypothesis deviceId_given : deviceId <> "".

Lemma add_device_inserts :
  add_device (device_body name kind deviceId) now user db
  = match Sql.insert now (devices db)
            [("user_id", VNum i); ("device_name", VStr name);
             ("device_type", VStr kind); ("device_id", VStr deviceId);
             ("status", VStr "online")] with
    | inl err =>
        if JS.includes "UNIQUE" (Sql.message err) then
          (Response 409 (Error "Device ID already exists"), db)
        else (Response 500 (Error "Error adding device"), db)
    | inr (lastID, devices') =>
        (Response 201
           (DeviceAdded "Device added successfully"
              {[ "id" := VNum lastID; "device_name" := VStr name;
                 "device_type" := VStr kind; "device_id" := VStr deviceId;
                 "status" := VStr "online" ]}),
         with_devices db devices')
    end.
Proof.
  unfold add_device, device_body, prop. simplify_map_eq. unfold JS.not. simpl.
  by rewrite requester, !bool_decide_eq_false_2.
Qed.

Lemma device_inserted :
  Sql.inserted now (devices db)
    [("user_id", VNum i); ("device_name", VStr name);
     ("device_type", VStr kind); ("device_id", VStr deviceId);
     ("status", VStr "online")]
  = device_row db i name kind deviceId now.
Proof.
  unfold Sql.inserted, device_row. rewrite source_columns.
  unfold devices_columns. simpl. reflexivity.
Qed.

Lemma device_unique_violation :
  Sql.unique_violation (devices db) (Sql.tbl_rows (devices db)) 1
    (device_row db i name kind deviceId now)
    (Sql.col_name <$> devices_columns)
  = if Sql.taken (Sql.tbl_rows (devices db)) "device_id" (VStr deviceId)
    then Some (Sql.UniqueFailed (Sql.tbl_name (devices db)) "device_id")
    else None.
Proof.
  unfold Sql.unique_violation. rewrite source_columns.
  pose proof (next_rowid_fresh (devices db)
                (Sql.PRIMARY_KEY_AUTOINCREMENT (Sql.col "id" Sql.INTEGER))) as Hid.
  rewrite source_columns in Hid. specialize (Hid eq_refl).
  cbn [Sql.col_name Sql.PRIMARY_KEY_AUTOINCREMENT Sql.col] in Hid.
  set (tk := Sql.taken (Sql.tbl_rows (devices db))) in *.
  assert (prop (device_row db i name kind deviceId now) "id"
          = VNum (Sql.next_rowid (devices db))) as Hpi by reflexivity.
  assert (prop (device_row db i name kind deviceId now) "device_id"
          = VStr deviceId) as Hpd by reflexivity.
  set (r := device_row _ _ _ _ _ _) in *.
  unfold devices_columns. simpl. rewrite Hpi, Hpd, Hid. simpl.
  rewrite !orb_false_r.
  by destruct (tk "device_id" (VStr deviceId)).
Qed.

(** What a request with three non-empty strings is answered. *)
Lemma add_device_answer :
  add_device (device_body name kind deviceId) now user db
  = if Sql.taken (Sql.tbl_rows (devices db)) "device_id" (VStr deviceId)
    then (Response 409 (Error "Device ID already exists"), db)
    else
      (Response 201
         (DeviceAdded "Device added successfully"
            {[ "id" := VNum (Sql.next_rowid (devices db));
               "device_name" := VStr name; "device_type" := VStr kind;
               "device_id" := VStr deviceId; "status" := VStr "online" ]}),
       device_added db i name kind deviceId now).
Proof.
  rewrite add_device_inserts. unfold Sql.insert.
  assert (Sql.unknown_column (devices db)
            [("user_id", VNum i); ("device_name", VStr name);
             ("device_type", VStr kind); ("device_id", VStr deviceId);
             ("status", VStr "online")].*1 = None) as ->.
  { unfold Sql.unknown_column, Sql.find_column. by rewrite source_columns. }
  rewrite device_inserted, source_columns.
  assert (Sql.not_null_violation (devices db)
            (device_row db i name kind deviceId now)
            (Sql.col_name <$> devices_columns) = None) as ->.
  { unfold Sql.not_null_violation. by rewrite source_columns. }
  rewrite device_unique_violation.
  destruct (Sql.taken _ "device_id" _); [done|].
  unfold device_added. by rewrite source_columns.
Qed.

(** X10. A device identifier is taken once and for all users: a request to
    add a device whose [device_id] a stored device has, whoever owns it, is
    answered 409 "Device ID already exists", and nothing is stored. *)
Theorem add_device_conflict :
  VStr deviceId ∈ device_values "device_id" db ->
  add_device (device_body name kind deviceId) now user db
  = (Response 409 (Error "Device ID already exists"), db).
Proof.
  intros Htaken. rewrite add_device_answer.
  by rewrite (taken_true _ _ _ Htaken).
Qed.

Hypothesis deviceId_free : VStr deviceId ∉ device_values "device_id" db.

Lemma add_device_created :
  add_device (device_body name kind deviceId) now user db
  = (Response 201
       (DeviceAdded "Device added successfully"
          {[ "id" := VNum (Sql.next_rowid (devices db));
             "device_name" := VStr name; "device_type" := VStr kind;
             "device_id" := VStr deviceId; "status" := VStr "online" ]}),
     device_added db i name kind deviceId now).
Proof.
  rewrite add_device_answer. by rewrite (taken_false _ _ _ deviceId_free).
Qed.

Lemma device_added_columns :
  Sql.tbl_columns (devices (device_added db i name kind deviceId now))
  = devices_columns.
Proof. by rewrite <- source_columns. Qed.

Lemma device_added_owned :
  owned deviceId i (device_row db i name kind deviceId now) = true.
Proof.
  unfold owned.
  assert (prop (device_row db i name kind deviceId now) "device_id"
          = VStr deviceId) as -> by reflexivity.
  assert (prop (device_row db i name kind deviceId now) "user_id"
          = VNum i) as -> by reflexivity.
  by rewrite !bool_decide_eq_true_2.
Qed.

Lemma head_filter_snoc {A} (f : A -> bool) (l : list A) (x : A) :
  f x = true -> is_Some (head (List.filter f (l ++ [x]))).
Proof.
  intros Hx. rewrite List.filter_app. cbn [List.filter]. rewrite Hx.
  by destruct (List.filter f l).
Qed.

Lemma device_added_access :
  device_access deviceId user (device_added db i name kind deviceId now) = OK.
Proof.
  rewrite (device_access_owned _ device_added_columns _ _ _ requester).
  unfold device_added. cbn [devices with_devices Sql.tbl_rows].
  by destruct (head_filter_snoc (owned deviceId i) (Sql.tbl_rows (devices db))
                 _ device_added_owned) as [d ->].
Qed.

(** X11. Adding a device and reading it back: a request with three
    non-empty strings and a [device_id] no stored device has is answered 201
    with the new row id; the device is stored with the requester as its
    owner and the status "online", so that [GET /api/devices] of the same
    user then lists it after the devices the user had, and the user passes
    the ownership check of its sensor data. *)
Theorem add_device_then_listed :
  let created := add_device (device_body name kind deviceId) now user db in
  created.1
  = Response 201
      (DeviceAdded "Device added successfully"
         {[ "id" := VNum (Sql.next_rowid (devices db));
            "device_name" := VStr name; "device_type" := VStr kind;
            "device_id" := VStr deviceId; "status" := VStr "online" ]})
  /\ get_devices user created.2
     = (Response 200
          (Rows (own_devices i db ++ [device_row db i name kind deviceId now])),
        created.2)
  /\ device_access deviceId user created.2 = OK.
Proof.
  simpl. rewrite add_device_created. cbn [fst snd].
  split; [done|]. split; [|apply device_added_access].
  rewrite (get_devices_answer _ device_added_columns _ _ requester).
  unfold own_devices, device_added. cbn [devices with_devices Sql.tbl_rows].
  rewrite List.filter_app. cbn [List.filter].
  assert (prop (device_row db i name kind deviceId now) "user_id" = VNum i)
    as -> by reflexivity.
  by rewrite bool_decide_eq_true_2.
Qed.

End Devices.

Lemma get_devices_own_witness :
  exists listed,
    get_devices (P := Sample.platform) Example.bob_identity Example.bob_has_dev_1
    = (Response 200 (Rows listed), Example.bob_has_dev_1)
    /\ forall d, d ∈ listed
                 <-> d ∈ Sql.tbl_rows (devices Example.bob_has_dev_1)
                     /\ prop d "user_id" = VNum 1.
Proof.
  apply (get_devices_own (P := Sample.platform) Example.bob_has_dev_1);
    [computed|reflexivity].
Defined.

Lemma add_device_conflict_witness :
  add_device (P := Sample.platform) (device_body "shed" "hygrometer" "dev-1") 50
    Example.carol_identity Example.bob_has_dev_1
  = (Response 409 (Error "Device ID already exists"), Example.bob_has_dev_1).
Proof.
  apply (add_device_conflict (P := Sample.platform) Example.bob_has_dev_1
           ltac:(computed) Example.carol_identity 2 eq_refl
           "shed" "hygrometer" "dev-1" 50);
    [done|done|done|computed].
Defined.

Lemma add_device_then_listed_witness :
  let created :=
    add_device (P := Sample.platform) (device_body "shed" "hygrometer" "dev-2") 50
      Example.carol_identity Example.bob_has_dev_1 in
  status created.1 = 201
  /\ device_access (P := Sample.platform) "dev-2" Example.carol_identity created.2
     = OK.
Proof.
  destruct (add_device_then_listed (P := Sample.platform) Example.bob_has_dev_1
              ltac:(computed) Example.carol_identity 2 eq_refl
              "shed" "hygrometer" "dev-2" 50
              ltac:(done) ltac:(done) ltac:(done) ltac:(computed))
    as (Hcreated & _ & Haccess).
  cbv zeta. split; [exact (f_equal status Hcreated)|exact Haccess].
Defined.

Section DeleteOwn.
Context `{P : Platform}.
Variable db : database.
Hypothesis source_columns : Sql.tbl_columns (devices db) = devices_columns.
Hypothesis unique_ids : NoDup (device_values "id" db).

Variables (user : claims) (i : Z) (deviceId : string) (n : Z) (d : row).
Hypothesis requester : id user = VNum i.
Hypothesis target : sqlite_numeric deviceId = Some n.
Hypothesis stored : d ∈ Sql.tbl_rows (devices db).
Hypothesis target_id : prop d "id" = VNum n.
Hypothesis own : prop d "user_id" = VNum i.

Lemma matches_delete_own (r : row) :
  r ∈ Sql.tbl_rows (devices db) ->
  Sql.matches (devices db) [("id", VStr deviceId); ("user_id", id user)] r
  = bool_decide (r = d).
Proof.
  intros Hr.
  rewrite (matches_delete db source_columns user i deviceId n requester target).
  destruct (decide (r = d)) as [->|Hrd].
  - by rewrite !bool_decide_eq_true_2.
  - rewrite (bool_decide_eq_false_2 (r = d)) by done.
    case_bool_decide as Hid; [|done]. destruct Hrd.
    apply (NoDup_fmap_In (fun r => prop r "id") (Sql.tbl_rows (devices db)));
      [done|by apply list_elem_of_In|by apply list_elem_of_In|congruence].
Qed.

Lemma delete_own_answer :
  delete_device deviceId user db
  = (Response 200 (Message "Device deleted successfully"),
     with_devices db
       (Sql.Table (Sql.tbl_name (devices db)) (Sql.tbl_columns (devices db))
          (List.filter
             (fun r => negb (Sql.matches (devices db)
                               [("id", VStr deviceId); ("user_id", id user)] r))
             (Sql.tbl_rows (devices db)))
          (Sql.tbl_sequence (devices db)))).
Proof.
  unfold delete_device, Sql.delete.
  rewrite (delete_known db source_columns user deviceId).
  destruct (List.filter _ (Sql.tbl_rows (devices db))) as [|r hit] eqn:Hhit.
  - exfalso. assert (In d []) as []. rewrite <- Hhit. apply filter_In.
    split; [by apply list_elem_of_In|].
    rewrite matches_delete_own by done. by apply bool_decide_eq_true.
  - by rewrite (proj2 (Z.eqb_neq (Z.of_nat (length (r :: hit))) 0))
      by (cbn [length]; lia).
Qed.

(** X12. The owner deletes a device: with [:id] read by SQLite as the rowid
    of a device of the requester, the answer is 200 "Device deleted
    successfully", that device is gone and every other device is kept. *)
Theorem delete_own_device :
  let deleted := delete_device deviceId user db in
  deleted.1 = Response 200 (Message "Device deleted successfully")
  /\ forall r, r ∈ Sql.tbl_rows (devices deleted.2)
               <-> r ∈ Sql.tbl_rows (devices db) /\ r <> d.
Proof.
  simpl. rewrite delete_own_answer. cbn [fst snd devices with_devices Sql.tbl_rows].
  split; [done|]. intros r. rewrite list_elem_of_In, filter_In, <- list_elem_of_In.
  split.
  - intros [Hr Hkept]. split; [done|]. intros ->.
    rewrite matches_delete_own, bool_decide_eq_true_2 in Hkept; done.
  - intros [Hr Hne]. split; [done|].
    by rewrite matches_delete_own, bool_decide_eq_false_2.
Qed.

End DeleteOwn.

Lemma delete_own_device_witness :
  let deleted :=
    delete_device (P := Sample.platform) "1" Example.bob_identity
      Example.bob_has_dev_1 in
  deleted.1 = Response 200 (Message "Device deleted successfully")
  /\ forall r, r ∈ Sql.tbl_rows (devices deleted.2)
               <-> r ∈ Sql.tbl_rows (devices Example.bob_has_dev_1)
                   /\ r <> Example.first_device Example.bob_has_dev_1.
Proof.
  apply (delete_own_device (P := Sample.platform) Example.bob_has_dev_1
           ltac:(computed) ltac:(computed) Example.bob_identity 1 "1" 1
           (Example.first_device Example.bob_has_dev_1) eq_refl);
    computed.
Defined.

(** ** The sensor data routes *)

Section Ordering.
Import SqlOrder.

Lemma cell_le_total (a b : value) : cell_le a b = false -> cell_le b a = true.
Proof.
  destruct a, b; simpl; try done.
  - intros H. apply Z.leb_le. apply Z.leb_gt in H. lia.
  - unfold String.leb. rewrite (String.compare_antisym s0 s).
    by destruct (String.compare s s0).
Qed.

Lemma insert_desc_perm (c : string) (r : row) (l : list row) :
  insert_desc c r l ≡ₚ r :: l.
Proof.
  induction l as [|a l IH]; simpl; [done|].
  destruct (cell_le _ _); [|done]. rewrite IH. apply Permutation_swap.
Qed.

Lemma order_by_desc_perm (c : string) (rs : list row) :
  order_by_desc c rs ≡ₚ rs.
Proof.
  unfold order_by_desc.
  enough (forall acc, foldl (fun sorted r => insert_desc c r sorted) acc rs
                      ≡ₚ rs ++ acc) as H by (by rewrite H, app_nil_r).
  induction rs as [|a rs IH]; intros acc; simpl; [done|].
  rewrite IH, insert_desc_perm. by rewrite Permutation_middle.
Qed.

Lemma descending_insert (c : string) (r : row) (l : list row) :
  descending c l = true -> descending c (insert_desc c r l) = true.
Proof.
  induction l as [|a l IH]; [done|].
  intros Hl. cbn [insert_desc].
  destruct (cell_le (prop r c) (prop a c)) eqn:Hle.
  - destruct l as [|b l]; [simpl; by rewrite Hle|].
    cbn [descending] in Hl. apply andb_true_iff in Hl as [Hba Hl].
    specialize (IH Hl). cbn [insert_desc] in *.
    destruct (cell_le (prop r c) (prop b c)).
    + cbn [descending] in *. by rewrite Hba, IH.
    + cbn [descending] in *. by rewrite Hle, IH.
  - change (descending c (r :: a :: l))
      with (cell_le (prop a c) (prop r c) && descending c (a :: l)).
    by rewrite (cell_le_total _ _ Hle), Hl.
Qed.

Lemma order_by_desc_descending (c : string) (rs : list row) :
  descending c (order_by_desc c rs) = true.
Proof.
  unfold order_by_desc.
  enough (forall acc, descending c acc = true ->
            descending c (foldl (fun sorted r => insert_desc c r sorted) acc rs)
            = true) as H by (by apply H).
  induction rs as [|a rs IH]; intros acc Hacc; simpl; [done|].
  by apply IH, descending_insert.
Qed.

Lemma descending_take (c : string) (n : nat) (l : list row) :
  descending c l = true -> descending c (take n l) = true.
Proof.
  revert n. induction l as [|a l IH]; intros [|n]; try done.
  destruct l as [|b l]; [by destruct n|].
  change (descending c (a :: b :: l))
    with (cell_le (prop b c) (prop a c) && descending c (b :: l)).
  intros [Hba Hl]%andb_true_iff.
  destruct n as [|n]; [done|].
  change (descending c (take (S (S n)) (a :: b :: l)))
    with (cell_le (prop b c) (prop a c) && descending c (take (S n) (b :: l))).
  by rewrite Hba, (IH (S n) Hl).
Qed.

End Ordering.

Section SensorRead.
Context `{P : Platform}.
Variable db : database.
Hypothesis devices_source : Sql.tbl_columns (devices db) = devices_columns.
Hypothesis sensor_source : Sql.tbl_columns (sensor_data db) = sensor_data_columns.

Variables (user : claims) (i : Z) (deviceId : string) (d : row).
Hypothesis requester : id user = VNum i.
Hypothesis stored : d ∈ Sql.tbl_rows (devices db).
Hypothesis device : prop d "device_id" = VStr deviceId.
Hypothesis own : prop d "user_id" = VNum i.

Lemma owner_found :
  exists found,
    Sql.select_get (devices db)
      [("device_id", VStr deviceId); ("user_id", id user)] = inr (Some found).
Proof.
  rewrite requester, select_get_known
    by (unfold Sql.unknown_column, Sql.find_column; by rewrite devices_source).
  rewrite (List.filter_ext _ _ (matches_owned db devices_source deviceId i)).
  destruct (List.filter _ _) as [|found rest] eqn:Hnone; [|by exists found].
  assert (In d []) as []. rewrite <- Hnone. apply filter_In.
  split; [by apply list_elem_of_In|].
  unfold owned. by rewrite device, own, !bool_decide_eq_true_2.
Qed.

Lemma matches_device (r : row) :
  Sql.matches (sensor_data db) [("device_id", VStr deviceId)] r
  = bool_decide (prop r "device_id" = VStr deviceId).
Proof.
  apply (matches_text _ _ _ (Sql.NOT_NULL (Sql.col "device_id" Sql.TEXT)));
    [|done].
  unfold Sql.find_column. by rewrite sensor_source.
Qed.

(** What the owner of the device is answered. *)
Lemma get_sensor_data_owner (limit : option string) :
  get_sensor_data deviceId limit user db
  = (match SqlOrder.limit (JS.or (from_option VStr VUndefined limit) (VNum 50))
             (SqlOrder.order_by_desc "timestamp" (readings deviceId db)) with
     | inl _ => Response 500 (Error "Error fetching sensor data")
     | inr data => Response 200 (Rows data)
     end, db).
Proof.
  unfold get_sensor_data. destruct owner_found as [found ->].
  unfold SqlOrder.select_latest, Sql.unknown_column, Sql.find_column.
  rewrite sensor_source. simpl.
  rewrite (List.filter_ext _ _ matches_device). fold (readings deviceId db).
  by destruct (SqlOrder.limit _ _).
Qed.

Lemma limit_number (n : Z) (rs : list row) :
  SqlOrder.limit (VNum n) rs = inr (if n <? 0 then rs else take (Z.to_nat n) rs).
Proof. reflexivity. Qed.

Lemma limited_rows (n : Z) :
  let data :=
    if n <? 0 then SqlOrder.order_by_desc "timestamp" (readings deviceId db)
    else take (Z.to_nat n)
           (SqlOrder.order_by_desc "timestamp" (readings deviceId db)) in
  data ⊆+ readings deviceId db
  /\ descending "timestamp" data = true
  /\ length data
     = if n <? 0 then length (readings deviceId db)
       else Nat.min (Z.to_nat n) (length (readings deviceId db)).
Proof.
  pose proof (order_by_desc_perm "timestamp" (readings deviceId db)) as Hperm.
  pose proof (order_by_desc_descending "timestamp" (readings deviceId db)) as Hdesc.
  simpl. destruct (n <? 0).
  - split; [by rewrite Hperm|]. split; [done|]. by rewrite Hperm.
  - split; [|split].
    + rewrite <- Hperm at 2. apply sublist_submseteq, sublist_take.
    + by apply descending_take.
    + by rewrite length_take, Hperm.
Qed.

(** X13. Reading sensor data without a limit ([limit] absent or empty): the
    owner of the device is answered 200 with the first 50 of the readings
    stored under that device identifier, taken in descending order of
    timestamp (all of them when there are 50 or fewer); nothing is
    written. *)
Theorem sensor_data_default (limit : option string) :
  limit = None \/ limit = Some "" ->
  exists sorted,
    sorted ≡ₚ readings deviceId db
    /\ descending "timestamp" sorted = true
    /\ get_sensor_data deviceId limit user db
       = (Response 200 (Rows (take 50 sorted)), db).
Proof.
  intros Hlimit. rewrite get_sensor_data_owner.
  assert (JS.or (from_option VStr VUndefined limit) (VNum 50) = VNum 50) as ->
    by (by destruct Hlimit as [->| ->]).
  rewrite limit_number.
  exists (SqlOrder.order_by_desc "timestamp" (readings deviceId db)).
  split; [apply order_by_desc_perm|]. split; [apply order_by_desc_descending|].
  done.
Qed.

(** X14. Reading sensor data with a limit: a non-empty [limit] that SQLite
    cannot read as an integer is answered 500 "Error fetching sensor data";
    one read as [n] is answered 200 with the first [n] of the device's
    readings in descending order of timestamp, and with all of them when [n]
    is negative. *)
Theorem sensor_data_limit (s : string) :
  s <> "" ->
  match sqlite_numeric s with
  | None =>
      get_sensor_data deviceId (Some s) user db
      = (Response 500 (Error "Error fetching sensor data"), db)
  | Some n =>
      exists sorted,
        sorted ≡ₚ readings deviceId db
        /\ descending "timestamp" sorted = true
        /\ get_sensor_data deviceId (Some s) user db
           = (Response 200
                (Rows (if n <? 0 then sorted else take (Z.to_nat n) sorted)),
              db)
  end.
Proof.
  intros Hs. rewrite get_sensor_data_owner.
  assert (JS.or (from_option VStr VUndefined (Some s)) (VNum 50) = VStr s) as ->.
  { unfold JS.or. simpl. by rewrite bool_decide_eq_false_2. }
  unfold SqlOrder.limit, Sql.store. simpl.
  destruct (sqlite_numeric s) as [n|]; simpl; [|done].
  exists (SqlOrder.order_by_desc "timestamp" (readings deviceId db)).
  split; [apply order_by_desc_perm|]. split; [apply order_by_desc_descending|].
  done.
Qed.

End SensorRead.

Lemma sensor_data_default_witness :
  length (Sql.tbl_rows (sensor_data ReadingsExample.bob_has_many_readings))
  = 55%nat
  /\ length (readings "dev-1" ReadingsExample.bob_has_many_readings) = 52%nat
  /\ (fun r => prop r "timestamp")
     <$> answer_rows
           (get_sensor_data (P := Sample.platform) "dev-1" None
              Example.bob_identity ReadingsExample.bob_has_many_readings).1
     = VNum <$> (reverse (seqZ 300 26) ++ reverse (seqZ 202 24))%list
  /\ exists sorted,
       sorted ≡ₚ readings "dev-1" ReadingsExample.bob_has_many_readings
       /\ descending "timestamp" sorted = true
       /\ get_sensor_data (P := Sample.platform) "dev-1" None
            Example.bob_identity ReadingsExample.bob_has_many_readings
          = (Response 200 (Rows (take 50 sorted)),
             ReadingsExample.bob_has_many_readings).
Proof.
  split; [computed|]. split; [computed|]. split; [computed|].
  apply (sensor_data_default (P := Sample.platform)
           ReadingsExample.bob_has_many_readings ltac:(computed) ltac:(computed)
           Example.bob_identity 1 "dev-1"
           (Example.first_device ReadingsExample.bob_has_many_readings) eq_refl
           ltac:(computed) ltac:(computed) ltac:(computed) None).
  by left.
Defined.

Lemma sensor_data_limit_witness :
  get_sensor_data (P := Sample.platform) "dev-1" (Some "ten")
    Example.bob_identity ReadingsExample.bob_has_many_readings
  = (Response 500 (Error "Error fetching sensor data"),
     ReadingsExample.bob_has_many_readings)
  /\ (fun r => prop r "timestamp")
     <$> answer_rows
           (get_sensor_data (P := Sample.platform) "dev-1" (Some "3")
              Example.bob_identity ReadingsExample.bob_has_many_readings).1
     = [VNum 325; VNum 324; VNum 323]
  /\ (exists sorted,
        sorted ≡ₚ readings "dev-1" ReadingsExample.bob_has_many_readings
        /\ descending "timestamp" sorted = true
        /\ get_sensor_data (P := Sample.platform) "dev-1" (Some "3")
             Example.bob_identity ReadingsExample.bob_has_many_readings
           = (Response 200 (Rows (take 3 sorted)),
              ReadingsExample.bob_has_many_readings))
  /\ length
       (answer_rows
          (get_sensor_data (P := Sample.platform) "dev-1" (Some "-1")
             Example.bob_identity ReadingsExample.bob_has_many_readings).1)
     = 52%nat
  /\ (exists sorted,
        sorted ≡ₚ readings "dev-1" ReadingsExample.bob_has_many_readings
        /\ descending "timestamp" sorted = true
        /\ get_sensor_data (P := Sample.platform) "dev-1" (Some "-1")
             Example.bob_identity ReadingsExample.bob_has_many_readings
           = (Response 200 (Rows sorted),
              ReadingsExample.bob_has_many_readings)).
Proof.
  pose proof (sensor_data_limit (P := Sample.platform)
                ReadingsExample.bob_has_many_readings
                ltac:(computed) ltac:(computed)
                Example.bob_identity 1 "dev-1"
                (Example.first_device ReadingsExample.bob_has_many_readings)
                eq_refl ltac:(computed) ltac:(computed) ltac:(computed))
    as Hlimit.
  split; [exact (Hlimit "ten" ltac:(done))|].
  split; [computed|].
  split; [exact (Hlimit "3" ltac:(done))|].
  split; [computed|].
  exact (Hlimit "-1" ltac:(done)).
Defined.

Section GenerateRead.
Context `{P : Platform}.
Variable db : database.
Hypothesis devices_source : Sql.tbl_columns (devices db) = devices_columns.
Hypothesis sensor_source : Sql.tbl_columns (sensor_data db) = sensor_data_columns.

Variables (deviceId temperature humidity pressure : string) (now : Z).

Lemma reading_unique :
  Sql.unique_violation (sensor_data db) (Sql.tbl_rows (sensor_data db)) 1
    (reading_row db deviceId temperature humidity pressure now)
    (Sql.col_name <$> sensor_data_columns) = None.
Proof.
  apply (unique_violation_key_only _ _ _ _
           (Sql.PRIMARY_KEY_AUTOINCREMENT (Sql.col "id" Sql.INTEGER))).
  - rewrite sensor_source. intros c Hc Hu. simpl in Hc.
    repeat (destruct Hc as [<-|Hc]; [done|]). done.
  - change (prop (reading_row db deviceId temperature humidity pressure now) _)
      with (VNum (Sql.next_rowid (sensor_data db))).
    apply next_rowid_fresh. by rewrite sensor_source.
Qed.

Lemma generate_data_stores (writer : claims) :
  generate_data deviceId temperature humidity pressure now writer db
  = (Response 200 (Reading temperature humidity pressure),
     reading_added db deviceId temperature humidity pressure now).
Proof.
  destruct (Sql.insert now (sensor_data db)
              [("device_id", VStr deviceId); ("temperature", VStr temperature);
               ("humidity", VStr humidity); ("pressure", VStr pressure)])
    as [e|[k t]] eqn:Hinsert.
  - exfalso. revert Hinsert. unfold Sql.insert.
    assert (Sql.inserted now (sensor_data db)
              [("device_id", VStr deviceId); ("temperature", VStr temperature);
               ("humidity", VStr humidity); ("pressure", VStr pressure)]
            = reading_row db deviceId temperature humidity pressure now) as ->.
    { unfold Sql.inserted, reading_row. rewrite sensor_source.
      unfold sensor_data_columns. simpl. reflexivity. }
    rewrite sensor_source, reading_unique.
    unfold Sql.unknown_column, Sql.find_column, Sql.not_null_violation.
    by rewrite sensor_source.
  - unfold generate_data. rewrite Hinsert.
    apply insert_inr in Hinsert as (-> & _ & _).
    unfold reading_added. do 4 f_equal.
    unfold Sql.inserted, reading_row. rewrite sensor_source.
    unfold sensor_data_columns. simpl. reflexivity.
Qed.

Lemma readings_after (other : string) :
  readings other (reading_added db deviceId temperature humidity pressure now)
  = (readings other db
     ++ if bool_decide (other = deviceId)
        then [reading_row db deviceId temperature humidity pressure now]
        else [])%list.
Proof.
  unfold readings, reading_added. cbn [sensor_data with_sensor_data Sql.tbl_rows].
  rewrite List.filter_app. f_equal. cbn [List.filter].
  assert (prop (reading_row db deviceId temperature humidity pressure now)
               "device_id" = VStr deviceId) as -> by reflexivity.
  case_bool_decide as Heq.
  - injection Heq as <-. by rewrite bool_decide_eq_true_2.
  - rewrite bool_decide_eq_false_2; [done|]. by intros ->.
Qed.

Variables (owner : claims) (i : Z) (d : row).
Hypothesis requester : id owner = VNum i.
Hypothesis stored : d ∈ Sql.tbl_rows (devices db).
Hypothesis device : prop d "device_id" = VStr deviceId.
Hypothesis own : prop d "user_id" = VNum i.

(** X15. Writing a reading and reading it back: whoever the authenticated
    writer is, [POST /api/demo/generate-data/:deviceId] answers 200 and the
    owner of the device, reading its data without a limit, is then answered
    the readings the device had and the new one, as long as these are 50 at
    most. *)
Theorem generate_then_read (writer : claims) :
  (length (readings deviceId db) < 50)%nat ->
  let written :=
    generate_data deviceId temperature humidity pressure now writer db in
  written.1 = Response 200 (Reading temperature humidity pressure)
  /\ exists data,
       get_sensor_data deviceId None owner written.2
       = (Response 200 (Rows data), written.2)
       /\ data ≡ₚ reading_row db deviceId temperature humidity pressure now
                  :: readings deviceId db.
Proof.
  intros Hroom. simpl. rewrite generate_data_stores. cbn [fst snd].
  split; [done|].
  set (db' := reading_added db deviceId temperature humidity pressure now).
  rewrite (get_sensor_data_owner db' devices_source sensor_source owner i
             deviceId d requester stored device own None).
  change (JS.or (from_option VStr VUndefined None) (VNum 50)) with (VNum 50).
  rewrite limit_number. eexists. split; [done|].
  destruct (limited_rows db' deviceId 50) as (Hsub & _ & Hlen).
  cbv zeta in Hsub, Hlen. change (50 <? 0) with false in *.
  cbn match in *.
  set (data := take _ _) in *. clearbody data.
  unfold db' in Hsub, Hlen. rewrite readings_after in Hsub, Hlen.
  rewrite bool_decide_eq_true_2 in Hsub, Hlen by done.
  rewrite <- Permutation_cons_append in Hsub.
  apply submseteq_length_Permutation; [done|].
  rewrite Hlen, length_app. cbn [length]. lia.
Qed.

End GenerateRead.

Lemma generate_then_read_witness :
  let written :=
    generate_data (P := Sample.platform) "dev-1" "21.50" "45.00" "1000.00" 40
      Example.carol_identity Example.bob_has_dev_1 in
  written.1 = Response 200 (Reading "21.50" "45.00" "1000.00")
  /\ exists data,
       get_sensor_data (P := Sample.platform) "dev-1" None Example.bob_identity
         written.2
       = (Response 200 (Rows data), written.2)
       /\ data ≡ₚ reading_row (P := Sample.platform) Example.bob_has_dev_1
                    "dev-1" "21.50" "45.00" "1000.00" 40
                  :: readings "dev-1" Example.bob_has_dev_1.
Proof.
  apply (generate_then_read (P := Sample.platform) Example.bob_has_dev_1
           ltac:(computed) ltac:(computed) "dev-1" "21.50" "45.00" "1000.00" 40
           Example.bob_identity 1 (Example.first_device Example.bob_has_dev_1)
           eq_refl ltac:(computed) ltac:(computed) ltac:(computed)
           Example.carol_identity).
  computed.
Defined.

Section NextOwner.
Context `{P : Platform}.
Variable db : database.
Hypothesis devices_source : Sql.tbl_columns (devices db) = devices_columns.
Hypothesis sensor_source : Sql.tbl_columns (sensor_data db) = sensor_data_columns.
Hypothesis unique_ids : NoDup (device_values "id" db).
Hypothesis unique_device_ids : NoDup (device_values "device_id" db).

Variables (owner : claims) (i : Z) (rowid : string) (n : Z) (d : row)
  (deviceId : string).
Hypothesis requester : id owner = VNum i.
Hypothesis target : sqlite_numeric rowid = Some n.
Hypothesis stored : d ∈ Sql.tbl_rows (devices db).
Hypothesis target_id : prop d "id" = VNum n.
Hypothesis own : prop d "user_id" = VNum i.
Hypothesis device : prop d "device_id" = VStr deviceId.

Variables (next : claims) (j : Z) (name kind : string) (now : Z).
Hypothesis next_requester : id next = VNum j.
Hypothesis name_given : name <> "".
Hypothesis kind_given : kind <> "".
Hypothesis deviceId_given : deviceId <> "".

Lemma deleted_columns :
  Sql.tbl_columns (devices (delete_device rowid owner db).2) = devices_columns.
Proof.
  rewrite (delete_own_answer db devices_source unique_ids owner i rowid n d);
    done.
Qed.

Lemma deleted_sensor_data :
  sensor_data (delete_device rowid owner db).2 = sensor_data db.
Proof.
  rewrite (delete_own_answer db devices_source unique_ids owner i rowid n d);
    done.
Qed.

Lemma deleted_identifier_free :
  VStr deviceId ∉ device_values "device_id" (delete_device rowid owner db).2.
Proof.
  rewrite (delete_own_answer db devices_source unique_ids owner i rowid n d)
    by done.
  unfold device_values. cbn [snd devices with_devices Sql.tbl_rows].
  intros (r & Hr & Hin)%list_elem_of_fmap.
  apply list_elem_of_In, filter_In in Hin as [Hin Hkept].
  assert (r = d) as ->.
  { apply (NoDup_fmap_In (fun r => prop r "device_id")
             (Sql.tbl_rows (devices db)));
      [done|done|by apply list_elem_of_In|congruence]. }
  rewrite (matches_delete_own db devices_source unique_ids owner i rowid n d)
    in Hkept by done.
  by rewrite bool_decide_eq_true_2 in Hkept.
Qed.

(** X16. The readings of a device outlive it and pass to the next owner of
    its identifier: after the owner has deleted the device, another user can
    add a device with the same [device_id], and is then answered, for that
    identifier, what the first owner was answered before the deletion. *)
Theorem readings_pass_to_next_owner (limit : option string) :
  let deleted := delete_device rowid owner db in
  let added := add_device (device_body name kind deviceId) now next deleted.2 in
  deleted.1 = Response 200 (Message "Device deleted successfully")
  /\ status added.1 = 201
  /\ (get_sensor_data deviceId limit next added.2).1
     = (get_sensor_data deviceId limit owner db).1.
Proof.
  simpl. split.
  { rewrite (delete_own_answer db devices_source unique_ids owner i rowid n d);
      done. }
  rewrite (add_device_created _ deleted_columns next j next_requester
             name kind deviceId now name_given kind_given deviceId_given
             deleted_identifier_free).
  cbn [fst snd status]. split; [done|].
  set (db1 := (delete_device rowid owner db).2) in *.
  rewrite (get_sensor_data_owner db devices_source sensor_source owner i
             deviceId d requester stored device own limit).
  rewrite (get_sensor_data_owner (device_added db1 j name kind deviceId now)
             (device_added_columns _ deleted_columns _ _ _ _ _)
             (eq_trans (f_equal Sql.tbl_columns deleted_sensor_data) sensor_source)
             next j deviceId (device_row db1 j name kind deviceId now)
             next_requester).
  - cbn [fst]. unfold readings.
    change (sensor_data (device_added db1 j name kind deviceId now))
      with (sensor_data db1).
    unfold db1. by rewrite deleted_sensor_data.
  - unfold device_added. cbn [devices with_devices Sql.tbl_rows].
    apply elem_of_app. right. apply list_elem_of_singleton. done.
  - reflexivity.
  - reflexivity.
Qed.

End NextOwner.

Lemma readings_pass_to_next_owner_witness :
  let deleted :=
    delete_device (P := Sample.platform) "1" Example.bob_identity
      ReadingsExample.bob_has_reading in
  let added :=
    add_device (P := Sample.platform) (device_body "shed" "hygrometer" "dev-1") 60
      Example.carol_identity deleted.2 in
  deleted.1 = Response 200 (Message "Device deleted successfully")
  /\ status added.1 = 201
  /\ (get_sensor_data (P := Sample.platform) "dev-1" None Example.carol_identity
        added.2).1
     = (get_sensor_data (P := Sample.platform) "dev-1" None Example.bob_identity
          ReadingsExample.bob_has_reading).1.
Proof.
  apply (readings_pass_to_next_owner (P := Sample.platform)
           ReadingsExample.bob_has_reading
           ltac:(computed) ltac:(computed) ltac:(computed) ltac:(computed)
           Example.bob_identity 1 "1" 1
           (Example.first_device ReadingsExample.bob_has_reading) "dev-1"
           eq_refl ltac:(computed) ltac:(computed) ltac:(computed)
           ltac:(computed) ltac:(computed)
           Example.carol_identity 2 "shed" "hygrometer" 60 eq_refl
           ltac:(done) ltac:(done) ltac:(done) None).
Defined.

(** ** The lockout on a users table that has the lockout columns *)

Section PreparedLockout.
Context `{P : Platform}.
Variable JWT_SECRET : string.

Lemma written_account (db : database) (email : string) (user : row)
    (lock : bool) (count : value) (n : Z) :
  Sql.tbl_columns (users db) = (users_columns ++ lockout_columns)%list ->
  Sql.select_get (users db) [("email", VStr email)] = inr (Some user) ->
  prop user "id" = VNum n ->
  Sql.select_get (users (with_users db (lockout_written db lock count n)))
    [("email", VStr email)]
  = inr (Some (written user lock count)).
Proof.
  intros Hcols Hacc Hid.
  assert (Sql.unknown_column (users db) [("email", VStr email)].*1 = None) as Hu.
  { unfold Sql.unknown_column, Sql.find_column. by rewrite Hcols. }
  rewrite (select_get_known _ _ Hu) in Hacc. injection Hacc as Hhead.
  cbn [users with_users].
  rewrite select_get_known
    by (by rewrite (unknown_column_ext _ (users db))).
  cbn [lockout_written Sql.tbl_rows].
  rewrite (filter_fmap _ (Sql.matches (users db) [("email", VStr email)])).
  - rewrite head_lookup in Hhead.
    rewrite head_lookup, list_lookup_fmap, Hhead. cbn [fmap option_fmap option_map].
    by rewrite Hid, bool_decide_eq_true_2.
  - intros r. rewrite !(matches_email db Hcols) by done.
    destruct (bool_decide (prop r "id" = VNum n)); [|done].
    unfold prop. destruct lock; by rewrite !lookup_insert_ne.
Qed.

Lemma written_cells (user : row) (lock : bool) (count : Z) :
  prop (written user lock (VNum count)) "id" = prop user "id"
  /\ prop (written user lock (VNum count)) "password" = prop user "password"
  /\ prop (written user lock (VNum count)) "failed_attempts" = VNum count
  /\ prop (written user lock (VNum count)) "is_locked"
     = if lock then VNum 1 else prop user "is_locked".
Proof.
  unfold written, prop. destruct lock; simplify_map_eq; done.
Qed.

(** One login with a wrong password, and what the next login finds. *)
Lemma wrong_password_step (db : database) (email wrong hash : string)
    (user : row) (n c now : Z) :
  Sql.tbl_columns (users db) = (users_columns ++ lockout_columns)%list ->
  email <> "" -> wrong <> "" ->
  Sql.select_get (users db) [("email", VStr email)] = inr (Some user) ->
  prop user "id" = VNum n ->
  prop user "password" = VStr hash ->
  JS.strict_eq (prop user "is_locked") (VNum 1) = false ->
  JS.or (prop user "failed_attempts") (VNum 0) = VNum c ->
  bcrypt_compare wrong hash = false ->
  let lock := c + 1 >=? 3 in
  let db' := with_users db (lockout_written db lock (VNum (c + 1)) n) in
  login JWT_SECRET (credentials email wrong) now db
  = (if lock then Response 403 (Error "Account locked after 3 failed attempts.")
     else Response 401
            (Error ("Invalid credentials. " +:+ pretty (3 - (c + 1))
                    +:+ " attempts left.")),
     db')
  /\ Sql.tbl_columns (users db') = (users_columns ++ lockout_columns)%list
  /\ Sql.select_get (users db') [("email", VStr email)]
     = inr (Some (written user lock (VNum (c + 1)))).
Proof.
  intros Hcols Hemail Hwrong Hacc Hid Hhash Hopen Hcount Hbad lock db'.
  split; [|split].
  - rewrite (login_unlocked _ _ _ _ user) with (valid := false).
    + rewrite Hcount, Hid. cbn [negb].
      change (JS.add js_number (VNum c) (VNum 1)) with (VNum (c + 1)).
      change (JS.ge js_number (VNum (c + 1)) (VNum 3)) with lock.
      change (JS.to_string (JS.sub js_number (VNum 3) (VNum (c + 1))))
        with (pretty (3 - (c + 1))).
      unfold db'. destruct lock.
      * by rewrite (lockout_update_applied db Hcols true (VNum (c + 1)) n).
      * by rewrite (lockout_update_applied db Hcols false (VNum (c + 1)) n).
    + rewrite credentials_email. by apply truthy_string.
    + rewrite credentials_password. by apply truthy_string.
    + by rewrite credentials_email.
    + done.
    + rewrite credentials_password, Hhash. simpl. by rewrite Hbad.
  - done.
  - by apply written_account.
Qed.

Lemma login_locked (db : database) (email given : string) (user : row) (now : Z) :
  email <> "" -> given <> "" ->
  Sql.select_get (users db) [("email", VStr email)] = inr (Some user) ->
  JS.strict_eq (prop user "is_locked") (VNum 1) = true ->
  login JWT_SECRET (credentials email given) now db = (locked_error, db).
Proof.
  intros Hemail Hgiven Hacc Hshut. unfold login, JS.not.
  rewrite credentials_email, credentials_password.
  rewrite !truthy_string by done. simpl. by rewrite Hacc, Hshut.
Qed.

(** X17. The lockout as the handler means it, on a users table that has the
    columns [failed_attempts] and [is_locked]: from an account with no failed
    attempt, three logins with wrong passwords are answered "2 attempts
    left", "1 attempts left" and 403 "Account locked after 3 failed
    attempts."; the account is then locked, and the next login is refused
    with 403 "Account locked due to too many failed attempts." whatever the
    password, without any write. *)
Theorem lockout_with_columns (db : database) (email hash w1 w2 w3 last : string)
    (user : row) (t1 t2 t3 t4 : Z) :
  Sql.tbl_columns (users db) = (users_columns ++ lockout_columns)%list ->
  well_formed (users db) = true ->
  email <> "" -> w1 <> "" -> w2 <> "" -> w3 <> "" -> last <> "" ->
  Sql.select_get (users db) [("email", VStr email)] = inr (Some user) ->
  prop user "password" = VStr hash ->
  state_of_row user = ACTIVE (VNum 0) ->
  bcrypt_compare w1 hash = false ->
  bcrypt_compare w2 hash = false ->
  bcrypt_compare w3 hash = false ->
  let r1 := login JWT_SECRET (credentials email w1) t1 db in
  let r2 := login JWT_SECRET (credentials email w2) t2 r1.2 in
  let r3 := login JWT_SECRET (credentials email w3) t3 r2.2 in
  let r4 := login JWT_SECRET (credentials email last) t4 r3.2 in
  r1.1 = Response 401 (Error "Invalid credentials. 2 attempts left.")
  /\ r2.1 = Response 401 (Error "Invalid credentials. 1 attempts left.")
  /\ r3.1 = Response 403 (Error "Account locked after 3 failed attempts.")
  /\ account_state_of r3.2 email = Some LOCKED
  /\ r4 = (locked_error, r3.2).
Proof.
  intros Hcols Hwf Hemail Hw1 Hw2 Hw3 Hlast Hacc Hhash Hstate Hb1 Hb2 Hb3.
  destruct (select_get_Some _ _ _ Hacc) as [Hin _].
  destruct (primary_key_num (users db) user
              (Sql.PRIMARY_KEY_AUTOINCREMENT (Sql.col "id" Sql.INTEGER)) Hwf Hin)
    as [n Hid]; [rewrite Hcols; by left|done|]. simpl in Hid.
  unfold state_of_row in Hstate.
  destruct (JS.strict_eq (prop user "is_locked") (VNum 1)) eqn:Hopen; [done|].
  injection Hstate as Hcount.
  destruct (wrong_password_step db email w1 hash user n 0 t1
              Hcols Hemail Hw1 Hacc Hid Hhash Hopen Hcount Hb1)
    as (Hr1 & Hcols1 & Hacc1).
  change (0 + 1 >=? 3) with false in *. change (0 + 1) with 1 in *.
  destruct (written_cells user false 1) as (Hid1 & Hpw1 & Hfa1 & Hlk1).
  set (u1 := written user false (VNum 1)) in *.
  set (db1 := with_users db (lockout_written db false (VNum 1) n)) in *.
  assert (JS.strict_eq (prop u1 "is_locked") (VNum 1) = false) as Hopen1
    by (by rewrite Hlk1).
  assert (JS.or (prop u1 "failed_attempts") (VNum 0) = VNum 1) as Hcount1
    by (by rewrite Hfa1).
  destruct (wrong_password_step db1 email w2 hash u1 n 1 t2
              Hcols1 Hemail Hw2 Hacc1 (eq_trans Hid1 Hid) (eq_trans Hpw1 Hhash)
              Hopen1 Hcount1 Hb2)
    as (Hr2 & Hcols2 & Hacc2).
  change (1 + 1 >=? 3) with false in *. change (1 + 1) with 2 in *.
  destruct (written_cells u1 false 2) as (Hid2 & Hpw2 & Hfa2 & Hlk2).
  set (u2 := written u1 false (VNum 2)) in *.
  set (db2 := with_users db1 (lockout_written db1 false (VNum 2) n)) in *.
  assert (JS.strict_eq (prop u2 "is_locked") (VNum 1) = false) as Hopen2
    by (by rewrite Hlk2).
  assert (JS.or (prop u2 "failed_attempts") (VNum 0) = VNum 2) as Hcount2
    by (by rewrite Hfa2).
  destruct (wrong_password_step db2 email w3 hash u2 n 2 t3
              Hcols2 Hemail Hw3 Hacc2
              (eq_trans Hid2 (eq_trans Hid1 Hid))
              (eq_trans Hpw2 (eq_trans Hpw1 Hhash))
              Hopen2 Hcount2 Hb3)
    as (Hr3 & Hcols3 & Hacc3).
  change (2 + 1 >=? 3) with true in *. change (2 + 1) with 3 in *.
  destruct (written_cells u2 true 3) as (_ & _ & _ & Hlk3).
  set (u3 := written u2 true (VNum 3)) in *.
  set (db3 := with_users db2 (lockout_written db2 true (VNum 3) n)) in *.
  intros r1 r2 r3 r4. unfold r4, r3, r2, r1.
  rewrite Hr1. cbn [fst snd]. rewrite Hr2. cbn [fst snd]. rewrite Hr3.
  cbn [fst snd].
  split; [done|]. split; [done|]. split; [done|]. split.
  - unfold account_state_of. rewrite Hacc3. unfold state_of_row.
    by rewrite Hlk3.
  - apply (login_locked db3 email last u3 t4); [done|done|done|].
    by rewrite Hlk3.
Qed.

End PreparedLockout.

Lemma lockout_with_columns_witness :
  let attempt password now db :=
    login (P := Sample.platform) Example.secret
      (credentials "alice@example.org" password) now db in
  let r1 := attempt "X" 11 Example.alice_prepared in
  let r2 := attempt "Y" 12 r1.2 in
  let r3 := attempt "Z" 13 r2.2 in
  let r4 := attempt "P1" 14 r3.2 in
  r1.1 = Response 401 (Error "Invalid credentials. 2 attempts left.")
  /\ r2.1 = Response 401 (Error "Invalid credentials. 1 attempts left.")
  /\ r3.1 = Response 403 (Error "Account locked after 3 failed attempts.")
  /\ account_state_of (P := Sample.platform) r3.2 "alice@example.org"
     = Some LOCKED
  /\ r4 = (locked_error, r3.2).
Proof.
  apply (lockout_with_columns (P := Sample.platform) Example.secret
           Example.alice_prepared "alice@example.org"
           (bcrypt_hash (Platform := Sample.platform) "P1" "salt")
           "X" "Y" "Z" "P1" (Example.first_account Example.alice_prepared)
           11 12 13 14);
    [computed|computed|done|done|done|done|done
    |computed|computed|computed|computed|computed|computed].
Defined.

(** ** Requests that lack a field *)

Section RequiredFields.
Context `{P : Platform}.
Variable JWT_SECRET : string.

Lemma blank_not (body : row) (field : string) :
  blank body field -> JS.not (prop body field) = true.
Proof.
  unfold blank. rewrite !elem_of_cons, elem_of_nil.
  by intros [->|[->|[->|[->|[->|[]]]]]].
Qed.

(** X18. A request that lacks a required field is refused before anything is
    looked up or stored: with [username], [email] or [password] absent,
    [null], [0] or empty, a registration is answered 400 "All fields are
    required"; with [email] or [password] so, a login is answered 400 "Email
    and password required"; with [device_name], [device_type] or [device_id]
    so, adding a device is answered 400 "All fields are required". The
    database is unchanged. *)
Theorem required_fields (body : row) (now : Z) (db : database) :
  (blank body "username" \/ blank body "email" \/ blank body "password" ->
   forall salt,
     register JWT_SECRET body salt now db
     = (Response 400 (Error "All fields are required"), db))
  /\ (blank body "email" \/ blank body "password" ->
      login JWT_SECRET body now db
      = (Response 400 (Error "Email and password required"), db))
  /\ (blank body "device_name" \/ blank body "device_type"
      \/ blank body "device_id" ->
      forall user,
        add_device body now user db
        = (Response 400 (Error "All fields are required"), db)).
Proof.
  split; [|split].
  - intros Hblank salt. unfold register.
    destruct Hblank as [H|[H|H]]; apply blank_not in H; rewrite H;
      by rewrite ?orb_true_r.
  - intros Hblank. unfold login.
    destruct Hblank as [H|H]; apply blank_not in H; rewrite H;
      by rewrite ?orb_true_r.
  - intros Hblank user. unfold add_device.
    destruct Hblank as [H|[H|H]]; apply blank_not in H; rewrite H;
      by rewrite ?orb_true_r.
Qed.

End RequiredFields.

Lemma required_fields_witness :
  register (P := Sample.platform) Example.secret Example.alice_P1 "salt" 10
    fresh_db
  = (Response 400 (Error "All fields are required"), fresh_db)
  /\ login (P := Sample.platform) Example.secret
       (credentials "alice@example.org" "") 20 Example.alice_registered
     = (Response 400 (Error "Email and password required"),
        Example.alice_registered)
  /\ add_device (P := Sample.platform) (device_body "porch" "" "dev-9") 30
       Example.bob_identity Example.bob_has_dev_1
     = (Response 400 (Error "All fields are required"), Example.bob_has_dev_1).
Proof.
  split; [|split].
  - apply (proj1 (required_fields (P := Sample.platform) Example.secret
                    Example.alice_P1 10 fresh_db)).
    left. unfold blank. computed.
  - apply (proj1 (proj2 (required_fields (P := Sample.platform) Example.secret
                           (credentials "alice@example.org" "") 20
                           Example.alice_registered))).
    right. unfold blank. computed.
  - apply (proj2 (proj2 (required_fields (P := Sample.platform) Example.secret
                           (device_body "porch" "" "dev-9") 30
                           Example.bob_has_dev_1))).
    right. left. unfold blank. computed.
Defined.

(** ** What one user's requests never do to another user's devices *)

Section Isolation.
Context `{P : Platform}.
Variable db : database.
Hypothesis source_columns : Sql.tbl_columns (devices db) = devices_columns.
Variables (user : claims) (i j : Z).
Hypothesis requester : id user = VNum j.
Hypothesis another : j <> i.

Lemma filter_filter_negb {A} (p m : A -> bool) (l : list A) :
  (forall x, p x = true -> m x = false) ->
  List.filter p (List.filter (fun x => negb (m x)) l) = List.filter p l.
Proof.
  intros Hpm. induction l as [|a l IH]; [done|]. cbn [List.filter].
  destruct (p a) eqn:Hp.
  - rewrite (Hpm a Hp). cbn [negb List.filter]. by rewrite Hp, IH.
  - destruct (negb (m a)); [|done]. cbn [List.filter]. by rewrite Hp.
Qed.

Lemma add_device_foreign (body : row) (now : Z) :
  own_devices i (add_device body now user db).2 = own_devices i db.
Proof.
  unfold add_device. destruct (_ || _); [done|].
  destruct (Sql.insert _ _ _) as [e|[k t]] eqn:Hinsert.
  - by destruct (JS.includes _ _).
  - apply insert_inr in Hinsert as (-> & _ & _).
    unfold own_devices. cbn [snd devices with_devices Sql.tbl_rows].
    rewrite List.filter_app. cbn [List.filter].
    assert (prop (Sql.inserted now (devices db)
                    [("user_id", id user); ("device_name", prop body "device_name");
                     ("device_type", prop body "device_type");
                     ("device_id", prop body "device_id");
                     ("status", VStr "online")]) "user_id" = VNum j) as ->.
    { unfold Sql.inserted. rewrite source_columns, requester. reflexivity. }
    rewrite bool_decide_eq_false_2 by congruence. by rewrite app_nil_r.
Qed.

Lemma delete_device_foreign (deviceId : string) :
  own_devices i (delete_device deviceId user db).2 = own_devices i db.
Proof.
  unfold delete_device. destruct (Sql.delete _ _) as [e|[k t]] eqn:Hdelete; [done|].
  apply delete_inr in Hdelete as ->.
  assert (own_devices i
            (with_devices db
               (Sql.Table (Sql.tbl_name (devices db)) (Sql.tbl_columns (devices db))
                  (List.filter
                     (fun r => negb (Sql.matches (devices db)
                                       [("id", VStr deviceId); ("user_id", id user)] r))
                     (Sql.tbl_rows (devices db)))
                  (Sql.tbl_sequence (devices db))))
          = own_devices i db) as Hsame.
  { unfold own_devices. cbn [devices with_devices Sql.tbl_rows].
    apply filter_filter_negb. intros r Hr. apply bool_decide_eq_true in Hr.
    unfold Sql.matches, Sql.find_column. rewrite source_columns, requester.
    cbn [forallb List.find Sql.col_name devices_columns]. simpl.
    unfold Sql.sql_eq at 2. rewrite Hr. simpl.
    rewrite bool_decide_eq_false_2 by congruence. apply andb_false_r. }
  by destruct (k =? 0).
Qed.

(** X19. No request of one user changes the devices of another: whatever
    the body, adding a device leaves the devices of every other user as they
    were, and so does deleting, whatever [:id] names. *)
Theorem foreign_devices_untouched :
  (forall body now,
     own_devices i (add_device body now user db).2 = own_devices i db)
  /\ (forall deviceId,
        own_devices i (delete_device deviceId user db).2 = own_devices i db).
Proof. split; [apply add_device_foreign|apply delete_device_foreign]. Qed.

End Isolation.

Lemma foreign_devices_untouched_witness :
  (forall body now,
     own_devices 1
       (add_device (P := Sample.platform) body now Example.carol_identity
          Example.bob_has_dev_1).2
     = own_devices 1 Example.bob_has_dev_1)
  /\ (forall deviceId,
        own_devices 1
          (delete_device (P := Sample.platform) deviceId Example.carol_identity
             Example.bob_has_dev_1).2
        = own_devices 1 Example.bob_has_dev_1).
Proof.
  apply (foreign_devices_untouched (P := Sample.platform) Example.bob_has_dev_1
           ltac:(computed) Example.carol_identity 1 2 eq_refl ltac:(done)).
Defined.

Section DevicesUnique.
Context `{P : Platform}.
Variable JWT_SECRET : string.

(** X20. In every database the server reaches, no two devices share a row id
    or a [device_id], whoever owns them. *)
Theorem reachable_devices_unique (db : database) :
  reachable JWT_SECRET db ->
  NoDup (device_values "id" db) /\ NoDup (device_values "device_id" db).
Proof.
  intros Hreach. by destruct (reachable_invariant _ _ Hreach).
Qed.

End DevicesUnique.

Lemma reachable_devices_unique_witness :
  device_values "user_id" (TwoDevices.served TwoDevices.requests)
  = [VNum 1; VNum 2]
  /\ device_values "device_id" (TwoDevices.served TwoDevices.requests)
     = [VStr "dev-1"; VStr "dev-2"]
  /\ NoDup (device_values "id" (TwoDevices.served TwoDevices.requests))
  /\ NoDup (device_values "device_id" (TwoDevices.served TwoDevices.requests)).
Proof.
  split; [computed|]. split; [computed|].
  apply (reachable_devices_unique (P := Sample.platform) Example.secret).
  unfold TwoDevices.served, TwoDevices.requests. cbn [foldl].
  do 4 apply reachable_step. apply reachable_fresh.
Defined.
